(** * Editorial news aggregator: ingestion and enrichment pipeline

    A shallow embedding of the backend services of the editorial news
    aggregator:

    - [app/models/source.py]       the source health tracker;
    - [app/services/rss_scraper.py] the feed fetcher, the extractor, the
      editorial classifier and the duplicate-detection fingerprint;
    - [app/services/summarization.py] the summarization router and the
      batch orchestrator.

    Python [str] values are embedded as [string]: a sequence of characters
    with code points below 256, on which [lower], [strip], [in] and the
    UTF-8 encoding are written out.  Python [int] is [Z], a [dict] used as
    a map is a [gmap], and a raised exception is the [Raise] constructor of
    [result].  Library calls (HTTP, feed parsing, HTML cleaning, model
    inference) are fields of an interface class, so every statement holds
    for all behaviours of the libraries. *)

From Stdlib Require Import ZArith QArith Ascii String List Bool Lia.
From stdpp Require Import base option list gmap strings pretty.

Local Open Scope string_scope.
Local Open Scope list_scope.
Local Open Scope Z_scope.

(** ** Python values *)

(** The result of a computation that may raise: [Raise msg] carries
    [str(e)] of the exception. *)
Inductive result (A : Type) : Type :=
| Ok (a : A)
| Raise (msg : string).
Arguments Ok {A} a.
Arguments Raise {A} msg.

Definition bind {A B : Type} (r : result A) (k : A -> result B) : result B :=
  match r with
  | Ok a => k a
  | Raise msg => Raise msg
  end.

Notation "x <-! r ; k" := (bind r (fun x => k))
  (at level 100, r at next level, right associativity).

(** A key of a dict-like object: absent, present with value [None], or
    present with a value. *)
Inductive field (A : Type) : Type :=
| Missing
| PyNone
| Val (a : A).
Arguments Missing {A}.
Arguments PyNone {A}.
Arguments Val {A} a.

Module PyStr.

(** [c.isspace()] for a character below 256, which is also what [\s]
    matches in a [str] pattern. *)
Definition isspace (c : ascii) : bool :=
  let n := nat_of_ascii c in
  (((9 <=? n) && (n <=? 13)) || ((28 <=? n) && (n <=? 32))
    || (n =? 133) || (n =? 160))%nat.

(** [c.lower()] for a character below 256: the ASCII capitals and the
    Latin-1 capitals (all of 192..222 but the multiplication sign). *)
Definition lower_char (c : ascii) : ascii :=
  let n := nat_of_ascii c in
  if (((65 <=? n) && (n <=? 90))
      || ((192 <=? n) && (n <=? 222) && negb (n =? 215)))%nat
  then ascii_of_nat (n + 32)
  else c.

(** [s.lower()] *)
Fixpoint lower (s : string) : string :=
  match s with
  | EmptyString => EmptyString
  | String c s' => String (lower_char c) (lower s')
  end.

(** [s.startswith(p)] *)
Fixpoint startswith (s p : string) : bool :=
  match p, s with
  | EmptyString, _ => true
  | String _ _, EmptyString => false
  | String a p', String b s' => Ascii.eqb a b && startswith s' p'
  end.

(** [needle in hay] on strings: substring test. *)
Fixpoint contains (needle hay : string) : bool :=
  startswith hay needle ||
  match hay with
  | EmptyString => false
  | String _ hay' => contains needle hay'
  end.

(** [any(k in s for k in ks)] *)
Definition any_in (ks : list string) (s : string) : bool :=
  existsb (fun k => contains k s) ks.

(** [x in xs] on a list of strings. *)
Definition mem (x : string) (xs : list string) : bool :=
  existsb (String.eqb x) xs.

(** [s[:n]] for a non-negative constant [n]. *)
Fixpoint take (n : nat) (s : string) : string :=
  match n, s with
  | O, _ => EmptyString
  | S _, EmptyString => EmptyString
  | S n', String c s' => String c (take n' s')
  end.

(** [s[n:]] for a non-negative [n]. *)
Fixpoint drop (n : nat) (s : string) : string :=
  match n, s with
  | O, _ => s
  | S _, EmptyString => EmptyString
  | S n', String _ s' => drop n' s'
  end.

Fixpoint rev_onto (s acc : string) : string :=
  match s with
  | EmptyString => acc
  | String c s' => rev_onto s' (String c acc)
  end.

Definition rev (s : string) : string := rev_onto s EmptyString.

(** [s.endswith(p)] *)
Definition endswith (s p : string) : bool := startswith (rev s) (rev p).

(** [s.lstrip()], [s.rstrip()], [s.strip()] *)
Fixpoint lstrip (s : string) : string :=
  match s with
  | EmptyString => EmptyString
  | String c s' => if isspace c then lstrip s' else s
  end.

Definition rstrip (s : string) : string := rev (lstrip (rev s)).

Definition strip (s : string) : string := rstrip (lstrip s).

(** [re.sub(r'\s+', ' ', s)]: every maximal run of whitespace becomes
    one space.  [in_run] tells that the previous character was
    whitespace. *)
Fixpoint collapse_ws_from (in_run : bool) (s : string) : string :=
  match s with
  | EmptyString => EmptyString
  | String c s' =>
      if isspace c
      then if in_run then collapse_ws_from true s'
           else String " " (collapse_ws_from true s')
      else String c (collapse_ws_from false s')
  end.

Definition collapse_ws (s : string) : string := collapse_ws_from false s.

(** [s.split()]: the maximal runs of non-whitespace characters.  [cur]
    is the word being read, reversed. *)
Fixpoint split_from (cur : string) (s : string) : list string :=
  match s with
  | EmptyString =>
      match cur with EmptyString => [] | _ => [rev cur] end
  | String c s' =>
      if isspace c
      then match cur with
           | EmptyString => split_from EmptyString s'
           | _ => rev cur :: split_from EmptyString s'
           end
      else split_from (String c cur) s'
  end.

Definition split (s : string) : list string := split_from EmptyString s.

(** [sep.join(ws)] *)
Fixpoint join (sep : string) (ws : list string) : string :=
  match ws with
  | [] => EmptyString
  | [w] => w
  | w :: ws' => w +:+ sep +:+ join sep ws'
  end.

(** [s.split(sep)[-1]] for a one-character separator: what follows the
    last occurrence of [sep]. *)
Fixpoint after_last (sep : ascii) (s : string) : string :=
  match s with
  | EmptyString => EmptyString
  | String c s' =>
      if Ascii.eqb c sep then after_last sep s'
      else if contains (String sep EmptyString) s' then after_last sep s'
      else s
  end.

(** [s.encode('utf-8')] for characters below 256: one byte below 128,
    two bytes from 128 on. *)
Definition encode_char (c : ascii) : list Z :=
  let n := Z.of_nat (nat_of_ascii c) in
  if n <? 128 then [n]
  else [Z.lor 192 (Z.shiftr n 6); Z.lor 128 (Z.land n 63)].

Fixpoint encode_utf8 (s : string) : list Z :=
  match s with
  | EmptyString => []
  | String c s' => encode_char c ++ encode_utf8 s'
  end.

Definition newline : string := String (ascii_of_nat 10) EmptyString.

(** [str(n)] for an integer. *)
Definition str_of_Z (n : Z) : string := pretty n.

End PyStr.

(** ** [app/models/source.py]: the source and its health state *)

Module SourceModel.

(** A [DateTime] column is either the SQL expression [func.now()], not
    yet flushed, or a stored instant. *)
Inductive SqlTime : Type :=
| func_now
| stored (seconds : Z).

(** A Python [float]: a finite value, a NaN or an infinity.  Every double
    is a rational; which rationals are doubles plays no part here. *)
Inductive PyFloat : Type :=
| Finite (value : Q)
| NaN
| Infinite (negative : bool).

(** [bool(x)] of a float: only zero is falsy. *)
Definition float_truthy (x : PyFloat) : bool :=
  match x with
  | Finite value => negb (Qeq_bool value 0)
  | NaN | Infinite _ => true
  end.

(** The column [success_rate]: the value it had, or the float [a / b]
    that [update_health_status] assigns.  [a / b] is the double nearest to
    the quotient of the two ints, not the quotient; it is kept here by its
    operands, which fix it. *)
Inductive Rate : Type :=
| Stored (value : PyFloat)
| TrueDiv (a b : Z).

(** The columns of [Source] read or written by the pipeline.  A nullable
    text column is an [option string]; the JSONB keyword lists are lists
    of strings ([NULL] and the empty list are both falsy, and both are
    the empty list here). *)
Record Source : Type := mkSource {
  id : string;
  name : string;
  url : option string;
  source_type : string;
  language : string;
  rss_url : option string;
  editorial_url : option string;
  editorial_rss : option string;
  (* status and health *)
  health_status : string;
  last_successful_fetch : option SqlTime;
  last_error : option string;
  error_count : Z;
  (* fetching configuration *)
  request_delay : option PyFloat;
  max_articles_per_fetch : Z;
  (* quality metrics *)
  success_rate : Rate;
  (* content filtering *)
  keyword_filters : list string;
  exclude_keywords : list string;
  (* statistics *)
  total_successful_fetches : Z;
  total_failed_fetches : Z
}.

(** Assignment to the health attributes of [self]; every other column
    keeps its value. *)
Definition with_health (self : Source)
    (status : string) (last_ok : option SqlTime) (err : option string)
    (count : Z) (rate : Rate) (n_ok n_failed : Z) : Source :=
  {| id := id self; name := name self; url := url self;
     source_type := source_type self; language := language self;
     rss_url := rss_url self; editorial_url := editorial_url self;
     editorial_rss := editorial_rss self;
     health_status := status;
     last_successful_fetch := last_ok;
     last_error := err;
     error_count := count;
     request_delay := request_delay self;
     max_articles_per_fetch := max_articles_per_fetch self;
     success_rate := rate;
     keyword_filters := keyword_filters self;
     exclude_keywords := exclude_keywords self;
     total_successful_fetches := n_ok;
     total_failed_fetches := n_failed |}.

(** The truth value of a nullable text column. *)
Definition truthy (o : option string) : bool :=
  match o with
  | Some s => negb (String.eqb s "")
  | None => false
  end.

(** [Source.fetch_url] *)
Definition fetch_url (self : Source) : option string :=
  if String.eqb (source_type self) "rss" && truthy (rss_url self)
  then rss_url self
  else if String.eqb (source_type self) "rss" && truthy (editorial_rss self)
  then editorial_rss self
  else if String.eqb (source_type self) "scrape"
          && truthy (editorial_url self)
  then editorial_url self
  else url self.

(** [Source.update_health_status] *)
Definition update_health_status (self : Source) (is_success : bool)
    (error_message : option string) : Source :=
  let updated :=
    if is_success then
      let n_ok := total_successful_fetches self + 1 in
      let count := 0 in
      let status :=
        if count =? 0 then "healthy" else health_status self in
      with_health self status (Some func_now) None count
        (success_rate self) n_ok (total_failed_fetches self)
    else
      let n_failed := total_failed_fetches self + 1 in
      let count := error_count self + 1 in
      let status :=
        if 5 <=? count then "error"
        else if 2 <=? count then "warning"
        else health_status self in
      with_health self status (last_successful_fetch self) error_message
        count (success_rate self) (total_successful_fetches self) n_failed
  in
  let total_fetches :=
    total_successful_fetches updated + total_failed_fetches updated in
  if 0 <? total_fetches then
    with_health updated (health_status updated)
      (last_successful_fetch updated) (last_error updated)
      (error_count updated)
      (TrueDiv (total_successful_fetches updated) total_fetches)
      (total_successful_fetches updated) (total_failed_fetches updated)
  else updated.

(** One recorded fetch outcome: success, or failure with its message. *)
Inductive Outcome : Type :=
| Succeeded
| Failed (error_message : option string).

Definition record_outcome (self : Source) (o : Outcome) : Source :=
  match o with
  | Succeeded => update_health_status self true None
  | Failed msg => update_health_status self false msg
  end.

(** The source after a sequence of fetch outcomes, oldest first. *)
Definition record_outcomes (self : Source) (os : list Outcome) : Source :=
  fold_left record_outcome os self.

(** The number of failures since the last success in a history. *)
Fixpoint trailing_failures_rev (rev_history : list Outcome) : Z :=
  match rev_history with
  | Failed _ :: older => 1 + trailing_failures_rev older
  | _ => 0
  end.

Definition trailing_failures (history : list Outcome) : Z :=
  trailing_failures_rev (List.rev history).

End SourceModel.

(** ** [hashlib.md5]: the MD5 digest of RFC 1321 *)

Module Md5.

Definition mask32 : Z := 4294967295.

Definition add32 (x y : Z) : Z := Z.land (x + y) mask32.

Definition not32 (x : Z) : Z := Z.lxor x mask32.

Definition rotl32 (x : Z) (n : Z) : Z :=
  Z.land (Z.lor (Z.shiftl x n) (Z.shiftr x (32 - n))) mask32.

(** The per-round shift amounts. *)
Definition shifts : list Z :=
  [7; 12; 17; 22; 7; 12; 17; 22; 7; 12; 17; 22; 7; 12; 17; 22;
   5; 9; 14; 20; 5; 9; 14; 20; 5; 9; 14; 20; 5; 9; 14; 20;
   4; 11; 16; 23; 4; 11; 16; 23; 4; 11; 16; 23; 4; 11; 16; 23;
   6; 10; 15; 21; 6; 10; 15; 21; 6; 10; 15; 21; 6; 10; 15; 21].

(** The sine table: [floor(2^32 * abs(sin(i + 1)))]. *)
Definition sines : list Z :=
  [3614090360; 3905402710; 606105819; 3250441966;
   4118548399; 1200080426; 2821735955; 4249261313;
   1770035416; 2336552879; 4294925233; 2304563134;
   1804603682; 4254626195; 2792965006; 1236535329;
   4129170786; 3225465664; 643717713; 3921069994;
   3593408605; 38016083; 3634488961; 3889429448;
   568446438; 3275163606; 4107603335; 1163531501;
   2850285829; 4243563512; 1735328473; 2368359562;
   4294588738; 2272392833; 1839030562; 4259657740;
   2763975236; 1272893353; 4139469664; 3200236656;
   681279174; 3936430074; 3572445317; 76029189;
   3654602809; 3873151461; 530742520; 3299628645;
   4096336452; 1126891415; 2878612391; 4237533241;
   1700485571; 2399980690; 4293915773; 2240044497;
   1873313359; 4264355552; 2734768916; 1309151649;
   4149444226; 3174756917; 718787259; 3951481745].

Definition nthZ (l : list Z) (i : nat) : Z := nth i l 0.

(** The little-endian 32-bit word number [j] of a block of bytes. *)
Definition word_at (block : list Z) (j : nat) : Z :=
  nthZ block (4 * j) + 256 * nthZ block (4 * j + 1)
  + 65536 * nthZ block (4 * j + 2) + 16777216 * nthZ block (4 * j + 3).

Record state : Type := mkState { sa : Z; sb : Z; sc : Z; sd : Z }.

Definition init : state :=
  {| sa := 1732584193; sb := 4023233417; sc := 2562383102; sd := 271733878 |}.

(** One of the 64 operations on a block. *)
Definition step (block : list Z) (st : state) (i : nat) : state :=
  let '(mkState a b c d) := st in
  let '(f, g) :=
    if (i <? 16)%nat then
      (Z.lor (Z.land b c) (Z.land (not32 b) d), i)
    else if (i <? 32)%nat then
      (Z.lor (Z.land d b) (Z.land (not32 d) c), ((5 * i + 1) mod 16)%nat)
    else if (i <? 48)%nat then
      (Z.lxor (Z.lxor b c) d, ((3 * i + 5) mod 16)%nat)
    else
      (Z.lxor c (Z.lor b (not32 d)), ((7 * i) mod 16)%nat) in
  let f' := add32 (add32 (add32 f a) (nthZ sines i)) (word_at block g) in
  mkState d (add32 b (rotl32 f' (nthZ shifts i))) b c.

Definition compress (st : state) (block : list Z) : state :=
  let r := fold_left (step block) (seq 0 64) st in
  mkState (add32 (sa st) (sa r)) (add32 (sb st) (sb r))
          (add32 (sc st) (sc r)) (add32 (sd st) (sd r)).

(** The bytes of [n], least significant first. *)
Fixpoint le_bytes (count : nat) (n : Z) : list Z :=
  match count with
  | O => []
  | S count' => (n mod 256) :: le_bytes count' (n / 256)
  end.

(** The message followed by the bit 1, zero bytes up to 56 modulo 64,
    and the length in bits on 64 bits. *)
Definition pad (msg : list Z) : list Z :=
  let len := Z.of_nat (length msg) in
  msg ++ [128] ++ repeat 0 (Z.to_nat ((55 - len) mod 64))
      ++ le_bytes 8 ((8 * len) mod 18446744073709551616).

(** The blocks of 64 bytes in turn; [blocks] bounds their number. *)
Fixpoint absorb (blocks : nat) (bytes : list Z) (st : state) : state :=
  match blocks with
  | O => st
  | S blocks' =>
      match bytes with
      | [] => st
      | _ => absorb blocks' (drop 64 bytes) (compress st (firstn 64 bytes))
      end
  end.

(** [hashlib.md5(msg).digest()] *)
Definition digest (msg : list Z) : list Z :=
  let padded := pad msg in
  let st := absorb (length padded) padded init in
  le_bytes 4 (sa st) ++ le_bytes 4 (sb st)
    ++ le_bytes 4 (sc st) ++ le_bytes 4 (sd st).

Definition hex_digit (n : Z) : ascii :=
  nth (Z.to_nat n)
    ["0"; "1"; "2"; "3"; "4"; "5"; "6"; "7";
     "8"; "9"; "a"; "b"; "c"; "d"; "e"; "f"]%char "0"%char.

Fixpoint hex (bytes : list Z) : string :=
  match bytes with
  | [] => EmptyString
  | b :: bytes' =>
      String (hex_digit (b / 16)) (String (hex_digit (b mod 16)) (hex bytes'))
  end.

(** [hashlib.md5(msg).hexdigest()] *)
Definition hexdigest (msg : list Z) : string := hex (digest msg).

End Md5.

(** ** [app/services/rss_scraper.py]: fetch, extract, classify, fingerprint *)

Module RssScraper.
Import SourceModel.

(** [settings], as far as the scraper reads it. *)
Record Settings : Type := mkSettings {
  MAX_RETRIES : Z;
  REQUEST_TIMEOUT : Z
}.

(** One element of [entry['tags']]. *)
Record Tag : Type := mkTag { term : field string }.

(** What [session.get] does on one call: it returns a response or
    raises.  [requests.exceptions.Timeout] and [ConnectionError] are
    subclasses of [RequestException]; any other exception is
    [OtherException]. *)
Inductive RequestFailure : Type := Timeout | ConnectionError.

Inductive HttpResult : Type :=
| Response (status_code : Z) (reason : string) (content : list Z)
| RequestException (kind : RequestFailure) (msg : string)
| OtherException (msg : string).

(** The calls observed from outside, in order.  A sleep records which
    statement made it. *)
Inductive SleepKind : Type := RequestDelay | Backoff.

Inductive Event : Type :=
| Sleep (kind : SleepKind) (seconds : SourceModel.PyFloat)
| Get (url : string) (timeout : Z).

(** The libraries and the world around the scraper.  [EntryRest] is the
    part of a feed entry that only the library-backed extractors read;
    [session_get n url] is the outcome of the request number [n] (from
    0) of one [fetch_feed] call; [time_sleep seconds] is [str(e)] of the
    exception that [time.sleep] raises for the float of the column
    [request_delay], if it raises: [ValueError] for a negative length or
    a NaN, [OverflowError] for a length beyond the range of the clock. *)
Class Libraries : Type := {
  settings : Settings;
  EntryRest : Type;
  DateTime : Type;
  session_get : nat -> string -> HttpResult;
  time_sleep : SourceModel.PyFloat -> option string;
  html_unescape : string -> string;
  utc_now : DateTime
}.

Section WithLibraries.
Context {L : Libraries}.

(** A feed entry: the keys the code reads itself, and the rest. *)
Record Entry : Type := mkEntry {
  entry_title : field string;
  entry_link : field string;
  entry_id : field string;
  entry_tags : field (list Tag);
  entry_rest : EntryRest
}.

(** The result of [feedparser.parse]. *)
Record ParsedFeed : Type := mkFeed {
  entries : list Entry;
  bozo : bool
}.

(** The methods that only wrap a library (BeautifulSoup, [datetime],
    [dateutil]): each returns or raises. *)
Class Extractors : Type := {
  feedparser_parse : list Z -> result ParsedFeed;
  _parse_date : Entry -> result (option DateTime);
  _extract_content : Entry -> result string;
  _extract_excerpt : Entry -> result string;
  _extract_author : Entry -> result (option string);
  _extract_image_url : Entry -> result (option string);
  title_detail_value : Entry -> result string
}.

Context {X : Extractors}.

Record Metadata : Type := mkMetadata {
  rss_entry_id : option string;
  rss_tags : list (option string);
  feed_title : string
}.

(** The article dictionary built by [_extract_article_data]; the two
    flags are keys added by [_filter_editorial_articles]. *)
Record ArticleData : Type := mkArticleData {
  title : string;
  url : string;
  content : string;
  excerpt : string;
  author : option string;
  category : string;
  published_date : DateTime;
  article_language : string;
  word_count : Z;
  image_url : option string;
  source_id : string;
  content_hash : string;
  metadata : Metadata;
  is_editorial : option bool;
  is_opinion : option bool
}.

(** [d.get(key, '')] *)
Definition get_or_empty (f : field string) : option string :=
  match f with
  | Missing => Some ""
  | PyNone => None
  | Val s => Some s
  end.

(** [x.lower()] on the value of [d.get(key, '')]. *)
Definition lower_of (f : field string) : result string :=
  match get_or_empty f with
  | Some s => Ok (PyStr.lower s)
  | None => Raise "'NoneType' object has no attribute 'lower'"
  end.

(** [_clean_text] *)
Definition _clean_text (text : option string) : string :=
  match text with
  | None => ""
  | Some text =>
      if String.eqb text "" then ""
      else PyStr.strip (PyStr.collapse_ws (html_unescape text))
  end.

(** [_generate_content_hash] *)
Definition _generate_content_hash (title content : string) : string :=
  let combined := title +:+ PyStr.take 500 content in
  Md5.hexdigest (PyStr.encode_utf8 combined).

(** The loop over [entry['tags']] of [_extract_category]: it stops at
    the first tag that names a category. *)
Fixpoint scan_tags (tags : list Tag) (category : string) : result string :=
  match tags with
  | [] => Ok category
  | tag :: tags' =>
      tag_term <-! lower_of (term tag);
      if PyStr.any_in ["opinion"; "editorial"; "comment"] tag_term
      then Ok (if PyStr.contains "opinion" tag_term
               then "opinion" else category)
      else scan_tags tags' category
  end.

(** [_extract_category] *)
Definition _extract_category (entry : Entry) (source : Source)
    : result string :=
  let category := "editorial" in
  category <-!
    match entry_tags entry with
    | Missing => Ok category
    | PyNone => Raise "'NoneType' object is not iterable"
    | Val tags => scan_tags tags category
    end;
  title_lower <-! lower_of (entry_title entry);
  Ok (if PyStr.any_in ["opinion:"; "editorial:"; "comment:"] title_lower
      then if PyStr.contains "opinion:" title_lower
           then "opinion" else category
      else category).

(** [[tag.get('term', '') for tag in entry.get('tags', [])]] *)
Definition tag_terms (entry : Entry) : result (list (option string)) :=
  match entry_tags entry with
  | Missing => Ok []
  | PyNone => Raise "'NoneType' object is not iterable"
  | Val tags => Ok (map (fun tag => get_or_empty (term tag)) tags)
  end.

(** The body of the [try] of [_extract_article_data]. *)
Definition extract_article_data_body (entry : Entry) (source : Source)
    : result (option ArticleData) :=
  let title := _clean_text (get_or_empty (entry_title entry)) in
  if String.eqb title "" then Ok None else
  let url := get_or_empty (entry_link entry) in
  match url with
  | None => Ok None
  | Some url =>
      if String.eqb url "" then Ok None else
      parsed <-! _parse_date entry;
      let published_date :=
        match parsed with Some d => d | None => utc_now end in
      content <-! _extract_content entry;
      excerpt <-! _extract_excerpt entry;
      author <-! _extract_author entry;
      category <-! _extract_category entry source;
      let content_hash := _generate_content_hash title content in
      let word_count :=
        if String.eqb content "" then 0
        else Z.of_nat (length (PyStr.split content)) in
      image_url <-! _extract_image_url entry;
      terms <-! tag_terms entry;
      feed_title <-! title_detail_value entry;
      Ok (Some {|
        title := title; url := url; content := content;
        excerpt := excerpt; author := author; category := category;
        published_date := published_date;
        article_language := language source;
        word_count := word_count; image_url := image_url;
        source_id := id source; content_hash := content_hash;
        metadata := {| rss_entry_id := get_or_empty (entry_id entry);
                       rss_tags := terms; feed_title := feed_title |};
        is_editorial := None; is_opinion := None |})
  end.

(** [_extract_article_data]: any exception is logged and gives [None]. *)
Definition _extract_article_data (entry : Entry) (source : Source)
    : option ArticleData :=
  match extract_article_data_body entry source with
  | Ok article_data => article_data
  | Raise _ => None
  end.

(** [l[:stop]] *)
Definition slice_to {A : Type} (l : list A) (stop : Z) : list A :=
  if 0 <=? stop then firstn (Z.to_nat stop) l
  else firstn (Z.to_nat (Z.of_nat (length l) + stop)) l.

(** The [for] loop of [_extract_articles_from_feed]. *)
Fixpoint extract_entries (es : list Entry) (source : Source)
    : list ArticleData :=
  match es with
  | [] => []
  | entry :: es' =>
      match _extract_article_data entry source with
      | Some article_data => article_data :: extract_entries es' source
      | None => extract_entries es' source
      end
  end.

(** [_extract_articles_from_feed] *)
Definition _extract_articles_from_feed (feed_data : ParsedFeed)
    (source : Source) : list ArticleData :=
  extract_entries
    (slice_to (entries feed_data) (max_articles_per_fetch source)) source.

(** The locals [editorial_indicators] and [editorial_keywords] of
    [_is_editorial_content]. *)
Definition editorial_indicators : list string :=
  ["editorial:"; "opinion:"; "comment:"; "analysis:";
   "editorial -"; "opinion -"; "comment -";
   "our view:"; "editor's note:"; "editor's pick:"].

Definition editorial_keywords : list string :=
  ["editorial"; "opinion"; "viewpoint"; "perspective";
   "commentary"; "analysis"; "our view"; "editor"].

(** [keyword.lower() in title or keyword.lower() in content] *)
Definition keyword_in (title content keyword : string) : bool :=
  PyStr.contains (PyStr.lower keyword) title
  || PyStr.contains (PyStr.lower keyword) content.

(** [_is_editorial_content] *)
Definition _is_editorial_content (article : ArticleData) (source : Source)
    : bool :=
  let title := PyStr.lower (title article) in
  let content := PyStr.lower (content article) in
  let category := PyStr.lower (category article) in
  if PyStr.mem category ["editorial"; "opinion"; "comment"] then true else
  if PyStr.any_in editorial_indicators title then true else
  let title_has_editorial_keyword :=
    PyStr.any_in editorial_keywords title in
  let url := PyStr.lower (url article) in
  let url_has_editorial :=
    PyStr.any_in ["editorial"; "opinion"; "comment"; "viewpoint"] url in
  if match keyword_filters source with
     | [] => false
     | filters => negb (existsb (keyword_in title content) filters)
     end
  then false else
  if match exclude_keywords source with
     | [] => false
     | excluded => existsb (keyword_in title content) excluded
     end
  then false else
  title_has_editorial_keyword || url_has_editorial.

Definition mark (article : ArticleData) : ArticleData :=
  {| title := title article; url := url article;
     content := content article; excerpt := excerpt article;
     author := author article; category := category article;
     published_date := published_date article;
     article_language := article_language article;
     word_count := word_count article; image_url := image_url article;
     source_id := source_id article;
     content_hash := content_hash article; metadata := metadata article;
     is_editorial := Some (String.eqb (category article) "editorial");
     is_opinion := Some (String.eqb (category article) "opinion") |}.

(** [_filter_editorial_articles] *)
Fixpoint _filter_editorial_articles (articles : list ArticleData)
    (source : Source) : list ArticleData :=
  match articles with
  | [] => []
  | article :: articles' =>
      if _is_editorial_content article source
      then mark article :: _filter_editorial_articles articles' source
      else _filter_editorial_articles articles' source
  end.

(** [response.raise_for_status()]: an [HTTPError], which is a
    [RequestException], for every status from 400 to 599. *)
Definition raise_for_status (status_code : Z) (reason url : string)
    : result unit :=
  if (400 <=? status_code) && (status_code <? 500) then
    Raise (PyStr.str_of_Z status_code +:+ " Client Error: " +:+ reason
           +:+ " for url: " +:+ url)
  else if (500 <=? status_code) && (status_code <? 600) then
    Raise (PyStr.str_of_Z status_code +:+ " Server Error: " +:+ reason
           +:+ " for url: " +:+ url)
  else Ok tt.

(** How the inner [try] of [fetch_feed] ends: at [break], in the
    handler of [RequestException], or in the handler of [Exception]. *)
Inductive AttemptResult : Type :=
| Fetched (feed_data : ParsedFeed)
| RequestFailed (msg : string)
| Unexpected (msg : string).

(** The body of the inner [try], for the request number [attempt]. *)
Definition attempt_once (feed_url : string) (attempt : nat)
    : AttemptResult :=
  match session_get attempt feed_url with
  | Response status_code reason content =>
      match raise_for_status status_code reason feed_url with
      | Raise msg => RequestFailed msg
      | Ok _ =>
          match feedparser_parse content with
          | Ok feed_data => Fetched feed_data
          | Raise msg => Unexpected msg
          end
      end
  | RequestException _ msg => RequestFailed msg
  | OtherException msg => Unexpected msg
  end.

(** [last_error] as set by a handler. *)
Definition attempt_error (label : string) (attempt : nat) (msg : string)
    : string :=
  label +:+ " (attempt " +:+ PyStr.str_of_Z (Z.of_nat attempt + 1)
        +:+ "): " +:+ msg.

(** [time.sleep(2 ** attempt)], guarded as in both handlers.  The int
    [2 ** attempt] is taken to be within the range of the clock, as it is
    for every attempt below 34. *)
Definition backoff_sleep (attempt : nat) : list Event :=
  if Z.of_nat attempt <? MAX_RETRIES settings - 1
  then [Sleep Backoff (SourceModel.Finite (inject_Z (2 ^ Z.of_nat attempt)))]
  else [].

(** [for attempt in range(settings.MAX_RETRIES)], from [attempt] on
    with [remaining] iterations left: the final [feed_data] and
    [last_error], and the calls made. *)
Fixpoint retry_loop (remaining attempt : nat) (feed_url : string)
    (last_error : option string)
    : option ParsedFeed * option string * list Event :=
  match remaining with
  | O => (None, last_error, [])
  | S remaining' =>
      let request := Get feed_url (REQUEST_TIMEOUT settings) in
      let handler (label msg : string) :=
        let '(feed_data, last_error', events) :=
          retry_loop remaining' (S attempt) feed_url
            (Some (attempt_error label attempt msg)) in
        (feed_data, last_error',
         (request :: backoff_sleep attempt ++ events)%list) in
      match attempt_once feed_url attempt with
      | Fetched feed_data => (Some feed_data, last_error, [request])
      | RequestFailed msg => handler "Request failed" msg
      | Unexpected msg => handler "Unexpected error" msg
      end
  end.

(** "Add delay if configured": a delay that is [None] or zero is falsy;
    for any other one [time.sleep] is called, and returns or raises. *)
Definition request_pause (source : Source) : result (list Event) :=
  match request_delay source with
  | None => Ok []
  | Some seconds =>
      if SourceModel.float_truthy seconds then
        match time_sleep seconds with
        | Some msg => Raise msg
        | None => Ok [Sleep RequestDelay seconds]
        end
      else Ok []
  end.

(** [fetch_feed]: the returned tuple and the calls made.  The parsed
    feed is a non-empty dict-like object, hence truthy; an exception
    outside the retry loop reaches the outer handler. *)
Definition fetch_feed (source : Source)
    : (bool * list ArticleData * option string) * list Event :=
  match fetch_url source with
  | None => ((false, [], Some "No feed URL configured"), [])
  | Some feed_url =>
      if String.eqb feed_url "" then
        ((false, [], Some "No feed URL configured"), [])
      else
      match request_pause source with
      | Raise msg =>
          ((false, [],
            Some ("RSS scraping failed for " +:+ name source +:+ ": "
                  +:+ msg)), [])
      | Ok delayed =>
          let '(feed_data, last_error, events) :=
            retry_loop (Z.to_nat (MAX_RETRIES settings)) 0 feed_url None in
          match feed_data with
          | None =>
              ((false, [],
                Some match last_error with
                     | None => "Failed to fetch feed"
                     | Some e =>
                         if String.eqb e "" then "Failed to fetch feed"
                         else e
                     end), (delayed ++ events)%list)
          | Some feed_data =>
              let articles_data :=
                _extract_articles_from_feed feed_data source in
              let filtered_articles :=
                _filter_editorial_articles articles_data source in
              ((true, filtered_articles, None), (delayed ++ events)%list)
          end
      end
  end.

(** Readings of a trace. *)
Definition is_get (e : Event) : bool :=
  match e with Get _ _ => true | Sleep _ _ => false end.

Definition count_gets (events : list Event) : nat :=
  length (filter (fun e => is_get e = true) events).

(** The lengths of the sleeps of one kind, in order. *)
Fixpoint sleeps_of (kind : SleepKind) (events : list Event)
    : list SourceModel.PyFloat :=
  match events with
  | [] => []
  | Sleep k seconds :: events' =>
      match kind, k with
      | RequestDelay, RequestDelay | Backoff, Backoff =>
          seconds :: sleeps_of kind events'
      | _, _ => sleeps_of kind events'
      end
  | Get _ _ :: events' => sleeps_of kind events'
  end.


End WithLibraries.

End RssScraper.

(** ** [app/services/summarization.py]: the router and the batch orchestrator *)

Module Summarization.

(** One value of [model_configs]. *)
Record ModelConfig : Type := mkConfig {
  model_name : string;
  max_input_length : Z;
  max_output_length : Z;
  min_output_length : Z;
  type : string
}.

Definition bart_large_cnn : ModelConfig :=
  mkConfig "facebook/bart-large-cnn" 1024 150 50 "huggingface".

(** [self.model_configs] *)
Definition model_configs : gmap string ModelConfig :=
  list_to_map
    [("bart-large-cnn", bart_large_cnn);
     ("pegasus-xsum", mkConfig "google/pegasus-xsum" 512 128 32 "huggingface");
     ("t5-small", mkConfig "t5-small" 512 150 50 "huggingface");
     ("gpt-3.5-turbo", mkConfig "gpt-3.5-turbo" 4000 200 50 "openai");
     ("gpt-4", mkConfig "gpt-4" 8000 300 50 "openai")].

(** The columns of the stored [Article] that summarization touches. *)
Record Article : Type := mkArticle {
  id : string;
  title : string;
  content : option string;
  language : string;
  summary : option string;
  is_summary_generated : bool;
  metadata : gmap string string
}.

(** [Tuple[bool, Optional[str], Optional[str]]]:
    (success, summary, error_message). *)
Definition SummaryResult : Type := bool * option string * option string.

(** A call that reaches a backend method. *)
Inductive BackendCall : Type :=
| OpenAI (content model_name : string) (custom_prompt : option string)
         (language : string)
| HuggingFace (content model_name : string).

(** What awaiting one task of a batch gives [asyncio.gather] with
    [return_exceptions=True]: the returned tuple, or the exception object.
    [Raised msg] is an [Exception] with [str(e) = msg]; [RaisedBase e] is
    an exception that is no [Exception], as [asyncio.CancelledError]
    is. *)
Inductive TaskOutcome : Type :=
| Returned (r : SummaryResult)
| Raised (msg : string)
| RaisedBase (exception : string).

(** A value of the dict returned: a tuple, or an exception object that
    was stored as gathered. *)
Inductive Slot : Type :=
| Tuple (r : SummaryResult)
| ExceptionObject (exception : string).

(** An exception that ends the [await] of a batch other than through a
    task: an [Exception], which the handler of the function catches, or
    one that is no [Exception], as the cancellation of the caller, which
    it does not. *)
Inductive Fault : Type :=
| Caught (msg : string)
| Uncaught (exception : string).

(** The settings, the regular-expression engine, the two backends and
    the clock.  Both backend methods catch every exception themselves
    and return a tuple. *)
Class Backends : Type := {
  DEFAULT_SUMMARY_MODEL : string;
  SUMMARY_BATCH_SIZE : Z;
  remove_noise_patterns : string -> string;
  _summarize_with_openai :
    string -> string -> option string -> string -> SummaryResult;
  _summarize_with_huggingface : string -> string -> SummaryResult;
  utcnow_isoformat : string
}.

Section WithBackends.
Context {B : Backends}.

(** [_clean_content] *)
Definition _clean_content (content : string) : string :=
  if String.eqb content "" then ""
  else PyStr.strip (remove_noise_patterns (PyStr.collapse_ws content)).

(** [_prepare_content_for_summarization] *)
Definition _prepare_content_for_summarization
    (content title model_name : string) : string :=
  let config :=
    match model_configs !! model_name with
    | Some config => config
    | None => bart_large_cnn
    end in
  let cleaned_content := _clean_content content in
  let full_text :=
    title +:+ PyStr.newline +:+ PyStr.newline +:+ cleaned_content in
  let max_length := max_input_length config in
  if max_length <? Z.of_nat (length (PyStr.split full_text))
  then PyStr.join " " (firstn (Z.to_nat max_length) (PyStr.split full_text))
  else full_text.

(** The loop over [artifacts] of [_post_process_summary]. *)
Fixpoint strip_artifacts (artifacts : list string) (summary : string)
    : string :=
  match artifacts with
  | [] => summary
  | artifact :: artifacts' =>
      strip_artifacts artifacts'
        (if PyStr.startswith summary artifact
         then PyStr.strip (PyStr.drop (String.length artifact) summary)
         else summary)
  end.

(** [_post_process_summary] *)
Definition _post_process_summary (summary : string) (language : string)
    : string :=
  if String.eqb summary "" then "" else
  let summary := PyStr.strip summary in
  let summary :=
    strip_artifacts
      ["Summary:"; "In summary,"; "To summarize,"; "In conclusion,"]
      summary in
  let summary :=
    if negb (String.eqb summary "")
       && negb (PyStr.endswith summary "." || PyStr.endswith summary "!"
                || PyStr.endswith summary "?")
    then summary +:+ "." else summary in
  PyStr.collapse_ws summary.

(** [summarize_article]: the returned tuple, the article after the
    call, and the backend methods reached.  Nothing in the body raises
    here, both backend methods catching their own exceptions, so the
    outer handler is not entered. *)
Definition summarize_article (article : Article)
    (model_name : option string) (custom_prompt : option string)
    : SummaryResult * Article * list BackendCall :=
  let model_name :=
    match model_name with
    | Some requested =>
        if String.eqb requested "" then None else Some requested
    | None => None
    end in
  let model_name :=
    match model_name with
    | Some requested => requested
    | None =>
        let fallback := PyStr.after_last "/" DEFAULT_SUMMARY_MODEL in
        match model_configs !! fallback with
        | Some _ => fallback
        | None => "bart-large-cnn"
        end
    end in
  let too_short :=
    ((false, None, Some "Article content too short for summarization"),
     article, []) in
  match content article with
  | None => too_short
  | Some content =>
      if String.eqb content ""
         || (Z.of_nat (String.length (PyStr.strip content)) <? 100)
      then too_short else
      let prepared_content :=
        _prepare_content_for_summarization content (title article)
          model_name in
      match model_configs !! model_name with
      | None =>
          ((false, None, Some ("Unknown model: " +:+ model_name)),
           article, [])
      | Some config =>
          let '(answer, call) :=
            if String.eqb (type config) "openai"
            then (_summarize_with_openai prepared_content model_name
                    custom_prompt (language article),
                  OpenAI prepared_content model_name custom_prompt
                    (language article))
            else (_summarize_with_huggingface prepared_content model_name,
                  HuggingFace prepared_content model_name) in
          let '(success, generated, error) := answer in
          match success, generated with
          | true, Some text =>
              if String.eqb text "" then
                ((false, None, error), article, [call])
              else
                let summary :=
                  _post_process_summary text (language article) in
                ((true, Some summary, None),
                 {| id := id article; title := title article;
                    content := Some content;
                    language := language article;
                    summary := Some summary;
                    is_summary_generated := true;
                    metadata :=
                      <["summarization_timestamp" := utcnow_isoformat]>
                        (<["summarization_model" := model_name]>
                           (metadata article)) |},
                 [call])
          | _, _ => ((false, None, error), article, [call])
          end
      end
  end.

End WithBackends.

(** [range(0, stop, step)] for [0 <= stop]: it raises on a zero step
    and is empty on a negative one. *)
Definition range_from_zero (stop step : Z) : result (list Z) :=
  if step =? 0 then Raise "range() arg 3 must not be zero"
  else if step <? 0 then Ok []
  else Ok (map (fun k => Z.of_nat k * step)
               (seq 0 (Z.to_nat ((stop + step - 1) / step)))).

(** [l[start:stop]] for [0 <= start <= stop]. *)
Definition slice {A : Type} (l : list A) (start stop : Z) : list A :=
  firstn (Z.to_nat (stop - start)) (skipn (Z.to_nat start) l).

(** The entry written for one awaited task: [isinstance(result,
    Exception)] holds of [Raised] only. *)
Definition slot (o : TaskOutcome) : Slot :=
  match o with
  | Returned r => Tuple r
  | Raised msg => Tuple (false, None, Some msg)
  | RaisedBase exception => ExceptionObject exception
  end.

Section Batch.
Context {B : Backends}.

(** [await_task n article model_name] is what awaiting
    [self.summarize_article(article, model_name)] gives for the
    article at position [n] of the input; [gather_fault k] is the
    exception, if any, that ends the [await] of the batch number [k]
    other than through a task. *)
Variable await_task : nat -> Article -> option string -> TaskOutcome.
Variable gather_fault : nat -> option Fault.

(** The loop "Process results" over one batch, whose first article is
    at position [first]. *)
Fixpoint record_batch (batch : list Article) (first : nat)
    (model_name : option string) (results : gmap string Slot)
    : gmap string Slot :=
  match batch with
  | [] => results
  | article :: batch' =>
      record_batch batch' (S first) model_name
        (<[id article := slot (await_task first article model_name)]>
           results)
  end.

(** The loop over the batch starts: the results so far and the
    exception that ended the loop, if any. *)
Fixpoint process_batches (starts : list Z) (articles : list Article)
    (model_name : option string) (batch_size : Z)
    (results : gmap string Slot)
    : gmap string Slot * option Fault :=
  match starts with
  | [] => (results, None)
  | i :: starts' =>
      let batch := slice articles i (i + batch_size) in
      match gather_fault (Z.to_nat (i / batch_size)) with
      | Some fault => (results, Some fault)
      | None =>
          process_batches starts' articles model_name batch_size
            (record_batch batch (Z.to_nat i) model_name results)
      end
  end.

(** The loop of the handler: "Mark remaining articles as failed". *)
Fixpoint mark_remaining (articles : list Article) (msg : string)
    (results : gmap string Slot) : gmap string Slot :=
  match articles with
  | [] => results
  | article :: articles' =>
      mark_remaining articles' msg
        (match results !! id article with
         | Some _ => results
         | None =>
             <[id article :=
                 Tuple (false, None,
                        Some ("Batch processing error: " +:+ msg))]>
               results
         end)
  end.

(** The batch size in force: the setting when the argument is [None]
    or 0. *)
Definition effective_batch_size (batch_size : option Z) : Z :=
  match batch_size with
  | None => SUMMARY_BATCH_SIZE
  | Some n => if n =? 0 then SUMMARY_BATCH_SIZE else n
  end.

(** The [try] block of [batch_summarize_articles]: the results so far
    and the exception that ended it, if any.  The [ValueError] of
    [range] is an [Exception]. *)
Definition run_batches (articles : list Article)
    (model_name : option string) (batch_size : Z)
    : gmap string Slot * option Fault :=
  match range_from_zero (Z.of_nat (length articles)) batch_size with
  | Raise msg => (∅, Some (Caught msg))
  | Ok starts => process_batches starts articles model_name batch_size ∅
  end.

(** [batch_summarize_articles]: the dict returned, or the exception that
    the handler [except Exception] does not catch. *)
Definition batch_summarize_articles (articles : list Article)
    (model_name : option string) (batch_size : option Z)
    : result (gmap string Slot) :=
  let batch_size := effective_batch_size batch_size in
  match run_batches articles model_name batch_size with
  | (results, None) => Ok results
  | (results, Some (Caught msg)) => Ok (mark_remaining articles msg results)
  | (_, Some (Uncaught exception)) => Raise exception
  end.

End Batch.

End Summarization.

(** ** Concrete sources, feeds and libraries, for the examples below *)

Module Fixtures.
Import RssScraper.
Import SourceModel.

(** A source as created with the column defaults. *)
Definition new_source (name url : string) : Source :=
  {| id := "0f8fad5b-d9cb-469f-a165-70867728950e";
     name := name; url := Some url; source_type := "rss";
     language := "en"; rss_url := None; editorial_url := None;
     editorial_rss := None;
     health_status := "healthy"; last_successful_fetch := None;
     last_error := None; error_count := 0;
     request_delay := Some (Finite (inject_Z 1));
     max_articles_per_fetch := 50;
     success_rate := Stored (Finite (inject_Z 1));
     keyword_filters := []; exclude_keywords := [];
     total_successful_fetches := 0; total_failed_fetches := 0 |}.

Definition with_fetch_policy (s : Source) (delay : option PyFloat)
    (max_articles : Z) (included excluded : list string) : Source :=
  {| id := id s; name := name s; url := url s;
     source_type := source_type s; language := language s;
     rss_url := rss_url s; editorial_url := editorial_url s;
     editorial_rss := editorial_rss s;
     health_status := health_status s;
     last_successful_fetch := last_successful_fetch s;
     last_error := last_error s; error_count := error_count s;
     request_delay := delay; max_articles_per_fetch := max_articles;
     success_rate := success_rate s;
     keyword_filters := included; exclude_keywords := excluded;
     total_successful_fetches := total_successful_fetches s;
     total_failed_fetches := total_failed_fetches s |}.

(** [time.sleep] on a clock that counts nanoseconds in 63 bits. *)
Definition clock_sleep (seconds : PyFloat) : option string :=
  match seconds with
  | Finite value =>
      if Qle_bool 0 value then
        if Qle_bool (inject_Z (2 ^ 63)) (value * inject_Z 1000000000)
        then Some "timestamp too large to convert to C _PyTime_t"
        else None
      else Some "sleep length must be non-negative"
  | NaN => Some "Invalid value NaN (not a number)"
  | Infinite _ => Some "timestamp too large to convert to C _PyTime_t"
  end.

(** Libraries whose network answers the requests of a fetch from a
    script, in order, and refuses the connection afterwards.  The rest
    of an entry is its body text, and a date is a number of seconds. *)
Definition scripted (script : list HttpResult) : Libraries :=
  {| settings := {| MAX_RETRIES := 3; REQUEST_TIMEOUT := 30 |};
     EntryRest := string;
     DateTime := Z;
     session_get := fun n _ =>
       nth n script (RequestException ConnectionError "Connection refused");
     time_sleep := clock_sleep;
     html_unescape := fun text => text;
     utc_now := 1700000000 |}.

(** Extractors that parse every payload to [feed] and take the body of
    an entry as its content. *)
Definition plain (script : list HttpResult)
    (feed : @ParsedFeed (scripted script)) : @Extractors (scripted script) :=
  {| feedparser_parse := fun _ => Ok feed;
     _parse_date := fun _ => Ok None;
     _extract_content := fun entry => Ok (PyStr.strip (entry_rest entry));
     _extract_excerpt := fun entry => Ok (PyStr.take 300 (entry_rest entry));
     _extract_author := fun _ => Ok None;
     _extract_image_url := fun _ => Ok None;
     title_detail_value := fun _ => Ok "" |}.

Definition entry (script : list HttpResult) (title link : field string)
    (tags : field (list Tag)) (body : string) : @Entry (scripted script) :=
  @mkEntry (scripted script) title link Missing tags body.

(** A feed of one entry with no tags, and a source that asks for the
    keyword "climate". *)
Definition council_feed (script : list HttpResult)
    : @ParsedFeed (scripted script) :=
  @mkFeed (scripted script)
    [entry script (Val "Editorial board meets")
       (Val "https://example.com/news/council") Missing
       "The council met on Tuesday."]
    false.

Definition climate_source : Source :=
  with_fetch_policy (new_source "Example" "https://example.com/feed")
    (Some (Finite (inject_Z 3))) 50 ["climate"] [].

Definition ok_response : HttpResult := Response 200 "OK" [60; 114; 115; 115; 47; 62].

Definition not_found : HttpResult := Response 404 "Not Found" [].

Definition timed_out : HttpResult := RequestException Timeout "Read timed out.".

Definition feed_address : string := "https://example.com/feed".

(** One fetch of the council feed by the source that asks for "climate",
    on a scripted network. *)
Definition fetch (script : list HttpResult)
    : (bool * list (@ArticleData (scripted script)) * option string)
      * list Event :=
  @fetch_feed (scripted script) (plain script (council_feed script))
    climate_source.

(** A feed of three entries: a complete one, one without a title, and
    one whose tag has the term [None], on which [lower] raises. *)
Definition mixed_feed : @ParsedFeed (scripted []) :=
  @mkFeed (scripted [])
    [entry [] (Val "Opinion: Why Tariffs Fail")
       (Val "https://example.com/opinion/tariffs") Missing
       "Tariffs raise prices.";
     entry [] Missing (Val "https://example.com/news/untitled") Missing
       "No headline.";
     entry [] (Val "Budget day") (Val "https://example.com/news/budget")
       (Val [mkTag PyNone]) "The budget was presented."]
    false.

(** A body of [n] letters followed by [ending]. *)
Fixpoint padded_body (n : nat) (ending : string) : string :=
  match n with
  | O => ending
  | S n' => String "a" (padded_body n' ending)
  end.

End Fixtures.

Module SummaryFixtures.
Import Summarization.

(** Backends that answer at once: the remote one with a fixed text, the
    local one with the start of its input. *)
Definition stub_backends : Backends :=
  {| DEFAULT_SUMMARY_MODEL := "facebook/bart-large-cnn";
     SUMMARY_BATCH_SIZE := 4;
     remove_noise_patterns := fun content => content;
     _summarize_with_openai := fun _ _ _ _ =>
       (true, Some "Summary: tariffs raise prices", None);
     _summarize_with_huggingface := fun content _ =>
       (true, Some (PyStr.take 40 content), None);
     utcnow_isoformat := "2024-05-01T12:00:00" |}.

Definition stored (id : string) (content : option string) : Article :=
  {| id := id; title := "Why Tariffs Fail"; content := content;
     language := "en"; summary := None; is_summary_generated := false;
     metadata := ∅ |}.

Definition ten_articles : list Article :=
  map (fun id => stored id (Some "text"))
    ["a0"; "a1"; "a2"; "a3"; "a4"; "a5"; "a6"; "a7"; "a8"; "a9"].

(** Every task returns a summary, but the task of the article at
    position 6, which raises. *)
Definition one_task_raises (n : nat) (article : Article)
    (model_name : option string) : TaskOutcome :=
  if (n =? 6)%nat then Raised "CUDA out of memory"
  else Returned (true, Some ("summary of " +:+ id article), None).

Definition no_fault (k : nat) : option Fault := None.

(** The await of the batch number 1 raises. *)
Definition second_batch_faults (k : nat) : option Fault :=
  if (k =? 1)%nat then Some (Caught "event loop is closed") else None.

(** Every task returns a summary, but the task of the article at
    position 6, which is cancelled. *)
Definition one_task_cancelled (n : nat) (article : Article)
    (model_name : option string) : TaskOutcome :=
  if (n =? 6)%nat then RaisedBase "CancelledError()"
  else Returned (true, Some ("summary of " +:+ id article), None).

(** The caller is cancelled while it awaits the batch number 1. *)
Definition caller_cancelled (k : nat) : option Fault :=
  if (k =? 1)%nat then Some (Uncaught "CancelledError()") else None.

End SummaryFixtures.

(** * Properties *)

(** ** The source health tracker *)

Module SourceFacts.
Import SourceModel.

(** The status that goes with a consecutive error count once a success
    has been recorded. *)
Definition status_for (count : Z) : string :=
  if 5 <=? count then "error"
  else if 2 <=? count then "warning"
  else "healthy".

Lemma failure_error_count (s : Source) (msg : option string) :
  error_count (update_health_status s false msg) = error_count s + 1.
Proof.
  unfold update_health_status.
  destruct (0 <? _); reflexivity.
Qed.

Lemma failure_health_status (s : Source) (msg : option string) :
  health_status (update_health_status s false msg) =
    if 5 <=? error_count s + 1 then "error"
    else if 2 <=? error_count s + 1 then "warning"
    else health_status s.
Proof.
  unfold update_health_status.
  destruct (0 <? _); reflexivity.
Qed.

Lemma success_error_count (s : Source) (msg : option string) :
  error_count (update_health_status s true msg) = 0.
Proof.
  unfold update_health_status.
  destruct (0 <? _); reflexivity.
Qed.

Lemma success_health_status (s : Source) (msg : option string) :
  health_status (update_health_status s true msg) = "healthy".
Proof.
  unfold update_health_status.
  destruct (0 <? _); reflexivity.
Qed.

Lemma record_outcomes_snoc (s : Source) (history : list Outcome) (o : Outcome) :
  record_outcomes s (history ++ [o]) = record_outcome (record_outcomes s history) o.
Proof. unfold record_outcomes. now rewrite fold_left_app. Qed.

Lemma trailing_failures_snoc_failed (history : list Outcome) (msg : option string) :
  trailing_failures (history ++ [Failed msg]) = 1 + trailing_failures history.
Proof. unfold trailing_failures. now rewrite rev_unit. Qed.

Lemma trailing_failures_snoc_succeeded (history : list Outcome) :
  trailing_failures (history ++ [Succeeded]) = 0.
Proof. unfold trailing_failures. now rewrite rev_unit. Qed.

Lemma trailing_failures_rev_nonneg (l : list Outcome) :
  0 <= trailing_failures_rev l.
Proof. induction l as [|[|msg] l IH]; simpl; lia. Qed.

(** The error count never becomes negative. *)
Lemma error_count_nonneg (s : Source) (history : list Outcome) :
  0 <= error_count s -> 0 <= error_count (record_outcomes s history).
Proof.
  intros Hs. induction history as [|o history IH] using rev_ind; [exact Hs|].
  rewrite record_outcomes_snoc. destruct o as [|msg]; simpl.
  - rewrite success_error_count. lia.
  - rewrite failure_error_count. lia.
Qed.

(** Failures add up. *)
Lemma error_count_failures (s : Source) (msgs : list (option string)) :
  error_count (record_outcomes s (map Failed msgs)) =
    error_count s + Z.of_nat (length msgs).
Proof.
  induction msgs as [|msg msgs IH] using rev_ind; [simpl; lia|].
  rewrite map_app. simpl map. rewrite record_outcomes_snoc. simpl.
  rewrite failure_error_count, IH, length_app. simpl. lia.
Qed.

(** Once a success is in the history, the error count is the number of
    failures since the last success and the status is a function of it. *)
Lemma status_after_success (s : Source) (history : list Outcome) :
  In Succeeded history ->
  error_count (record_outcomes s history) = trailing_failures history /\
  health_status (record_outcomes s history) =
    status_for (trailing_failures history).
Proof.
  induction history as [|o history IH] using rev_ind; [intros []|].
  intros Hin. rewrite record_outcomes_snoc. destruct o as [|msg]; simpl.
  - rewrite success_error_count, success_health_status,
      trailing_failures_snoc_succeeded. split; reflexivity.
  - apply in_app_or in Hin. destruct Hin as [Hin|[Heq|[]]]; [|discriminate].
    destruct (IH Hin) as [Hcount Hstatus].
    rewrite failure_error_count, failure_health_status,
      trailing_failures_snoc_failed, Hcount, Hstatus.
    split; [lia|].
    pose proof (trailing_failures_rev_nonneg (rev history)) as Hge.
    unfold trailing_failures in *. unfold status_for.
    set (n := trailing_failures_rev (rev history)) in *.
    replace (n + 1) with (1 + n) by lia.
    destruct (Z.leb_spec 5 (1 + n)); [reflexivity|].
    destruct (Z.leb_spec 2 (1 + n)); [reflexivity|].
    destruct (Z.leb_spec 5 n); [lia|].
    destruct (Z.leb_spec 2 n); [lia|reflexivity].
Qed.

(** C3.  For every source whose consecutive error count is not negative
    and every sequence of recorded fetch outcomes, the health status is
    determined by the consecutive error count: a failure adds one to the
    count, and the status is then 'error' from 5 on, 'warning' from 2 to
    4, and unchanged at 1; five failures in a row always end in 'error';
    a success sets the count to 0 and the status to 'healthy'; and once
    the history holds a success, the count is the number of failures
    since the last success and the status is a function of it alone. *)
Theorem health_status_follows_consecutive_errors :
  forall (source : Source) (history : list Outcome),
    0 <= error_count source ->
    let before := record_outcomes source history in
    (forall msg,
       let failed := update_health_status before false msg in
       error_count failed = error_count before + 1 /\
       (5 <= error_count failed -> health_status failed = "error") /\
       (2 <= error_count failed <= 4 -> health_status failed = "warning") /\
       (error_count failed = 1 ->
          health_status failed = health_status before)) /\
    (forall msgs : list (option string),
       length msgs = 5%nat ->
       health_status (record_outcomes before (map Failed msgs)) = "error") /\
    (forall msg,
       let succeeded := update_health_status before true msg in
       error_count succeeded = 0 /\ health_status succeeded = "healthy") /\
    (In Succeeded history ->
       error_count before = trailing_failures history /\
       health_status before = status_for (trailing_failures history)).
Proof.
  intros source history Hnonneg before.
  pose proof (error_count_nonneg source history Hnonneg) as Hbefore.
  fold before in Hbefore.
  repeat split.
  - apply failure_error_count.
  - rewrite failure_error_count, failure_health_status.
    intros H. destruct (5 <=? _) eqn:E; [reflexivity|lia].
  - rewrite failure_error_count, failure_health_status.
    intros H. destruct (5 <=? _) eqn:E; [lia|].
    destruct (2 <=? _) eqn:E2; [reflexivity|lia].
  - rewrite failure_error_count, failure_health_status.
    intros H. destruct (5 <=? _) eqn:E; [lia|].
    destruct (2 <=? _) eqn:E2; [lia|reflexivity].
  - intros msgs Hlen.
    destruct msgs as [|last msgs _] using rev_ind; [discriminate|].
    rewrite length_app in Hlen. simpl in Hlen.
    rewrite map_app. simpl map. rewrite record_outcomes_snoc. simpl.
    rewrite failure_health_status, error_count_failures.
    destruct (5 <=? _) eqn:E; [reflexivity|lia].
  - apply success_error_count.
  - apply success_health_status.
  - apply status_after_success; assumption.
  - apply status_after_success; assumption.
Qed.

End SourceFacts.

(** ** The duplicate-detection fingerprint *)

Module FingerprintFacts.
Import RssScraper.

(** The digest agrees with the test suite of RFC 1321. *)
Example md5_empty :
  Md5.hexdigest (PyStr.encode_utf8 "") = "d41d8cd98f00b204e9800998ecf8427e".
Proof. vm_compute. reflexivity. Qed.

Example md5_abc :
  Md5.hexdigest (PyStr.encode_utf8 "abc") = "900150983cd24fb0d6963f7d28e17f72".
Proof. vm_compute. reflexivity. Qed.

Example md5_two_blocks :
  Md5.hexdigest (PyStr.encode_utf8
    "12345678901234567890123456789012345678901234567890123456789012345678901234567890")
  = "57edf4a22be3c955ac49da2e2107b67a".
Proof. vm_compute. reflexivity. Qed.

Lemma le_bytes_length (count : nat) (n : Z) :
  length (Md5.le_bytes count n) = count.
Proof.
  revert n. induction count as [|count IH]; intros n; simpl; [reflexivity|].
  now rewrite IH.
Qed.

Lemma hex_length (bytes : list Z) :
  String.length (Md5.hex bytes) = (2 * length bytes)%nat.
Proof.
  induction bytes as [|b bytes IH]; [reflexivity|].
  cbn [Md5.hex String.length length]. rewrite IH. lia.
Qed.

Lemma digest_length (msg : list Z) : length (Md5.digest msg) = 16%nat.
Proof.
  unfold Md5.digest. rewrite !length_app, !le_bytes_length. reflexivity.
Qed.

Lemma hexdigest_length (msg : list Z) :
  String.length (Md5.hexdigest msg) = 32%nat.
Proof. unfold Md5.hexdigest. now rewrite hex_length, digest_length. Qed.

Lemma take_all (n : nat) (s : string) :
  (String.length s <= n)%nat -> PyStr.take n s = s.
Proof.
  revert n. induction s as [|c s IH]; intros [|n] H; simpl in *;
    try reflexivity; try lia.
  f_equal. apply IH. lia.
Qed.

Lemma append_snoc (t : string) (c : ascii) (b : string) :
  (t +:+ String c "") +:+ b = t +:+ String c b.
Proof.
  induction t as [|a t IH]; [reflexivity|].
  change (String a ((t +:+ String c "") +:+ b) = String a (t +:+ String c b)).
  now f_equal.
Qed.

Lemma append_length (s t : string) :
  String.length (s +:+ t) = (String.length s + String.length t)%nat.
Proof. induction s as [|a s IH]; simpl; [reflexivity|]. now rewrite IH. Qed.

(** C6.  The fingerprint depends only on the title and the first 500
    characters of the body: two bodies that agree on their first 500
    characters give, with the same title, the same digest; and the
    digest is always 32 characters long. *)
Theorem content_hash_depends_on_title_and_first_500 :
  forall (title body1 body2 : string),
    PyStr.take 500 body1 = PyStr.take 500 body2 ->
    _generate_content_hash title body1 = _generate_content_hash title body2
    /\ String.length (_generate_content_hash title body1) = 32%nat.
Proof.
  intros title body1 body2 Hsame. unfold _generate_content_hash. split.
  - now rewrite Hsame.
  - apply hexdigest_length.
Qed.

(** C10.  The title and the truncated body are joined with no
    separator: for every title, every character and every body of at
    most 499 characters, moving the character from the end of the title
    to the front of the body keeps the digest, although the two (title,
    body) pairs differ. *)
Theorem content_hash_boundary_not_recoverable :
  forall (t : string) (c : ascii) (b : string),
    (String.length b <= 499)%nat ->
    _generate_content_hash (t +:+ String c "") b
      = _generate_content_hash t (String c b)
    /\ (t +:+ String c "", b) <> (t, String c b).
Proof.
  intros t c b Hlen. split.
  - unfold _generate_content_hash.
    rewrite (take_all 500 b) by lia.
    rewrite (take_all 500 (String c b)) by (simpl; lia).
    now rewrite append_snoc.
  - intros Heq. injection Heq as Ht _.
    apply (f_equal String.length) in Ht.
    rewrite append_length in Ht. simpl in Ht. lia.
Qed.

End FingerprintFacts.

(** ** The extractor and the editorial classifier *)

Module ExtractionFacts.
Import RssScraper.


(** Case analysis on the innermost scrutinee of a hypothesis, until none
    is left. *)
Ltac innermost x :=
  lazymatch x with
  | context [match _ with _ => _ end] => fail
  | context [bind _ _] => fail
  | _ => idtac
  end.

Ltac case_steps H :=
  repeat match type of H with
    | context [bind ?r _] =>
        innermost r; destruct r eqn:?; cbn [bind] in H
    | context [match ?x with _ => _ end] =>
        innermost x; destruct x eqn:?
    end;
  try discriminate H.

Section WithLibraries.
Context {L : Libraries} {X : Extractors}.

Lemma scan_tags_category (tags : list Tag) (c : string) :
  scan_tags tags "editorial" = Ok c -> c = "editorial" \/ c = "opinion".
Proof.
  induction tags as [|tag tags IH]; simpl; intros H.
  - injection H as <-. now left.
  - case_steps H; try (injection H as <-; auto); auto.
Qed.

Lemma extract_category_values (entry : Entry) (source : SourceModel.Source)
    (c : string) :
  _extract_category entry source = Ok c -> c = "editorial" \/ c = "opinion".
Proof.
  unfold _extract_category. intros H.
  destruct (entry_tags entry) as [| |tags] eqn:Htags; cbn [bind] in H;
    try discriminate H.
  - case_steps H; injection H as <-; auto.
  - destruct (scan_tags tags "editorial") as [c0|] eqn:Hscan;
      cbn [bind] in H; [|discriminate H].
    apply scan_tags_category in Hscan.
    case_steps H; injection H as <-; auto.
Qed.

(** An extracted article carries the category found by
    [_extract_category]. *)
Lemma extracted_category (entry : Entry) (source : SourceModel.Source)
    (article : ArticleData) :
  _extract_article_data entry source = Some article ->
  _extract_category entry source = Ok (category article).
Proof.
  unfold _extract_article_data, extract_article_data_body. intros H.
  case_steps H; injection H as <-; reflexivity.
Qed.

Lemma category_accepted (article : ArticleData)
    (source : SourceModel.Source) :
  category article = "editorial" \/ category article = "opinion" ->
  _is_editorial_content article source = true.
Proof.
  intros [H|H]; unfold _is_editorial_content; rewrite H; reflexivity.
Qed.



Lemma extract_entries_from (es : list Entry) (source : SourceModel.Source)
    (article : ArticleData) :
  In article (extract_entries es source) ->
  exists entry, In entry es /\ _extract_article_data entry source = Some article.
Proof.
  induction es as [|e es IH]; simpl; [intros []|].
  destruct (_extract_article_data e source) as [a|] eqn:He.
  - intros [<-|Hin]; [exists e; auto|].
    destruct (IH Hin) as (e' & ? & ?). exists e'; auto.
  - intros Hin. destruct (IH Hin) as (e' & ? & ?). exists e'; auto.
Qed.




(** C9.  Every candidate returned by extraction has the category
    'editorial' or 'opinion', so the classifier accepts it at its first
    check, whatever the keyword lists of the source are, and the filter
    keeps every candidate; the category is 'editorial' whenever no tag
    names a category and the title has no category prefix. *)
Theorem extracted_candidates_are_always_accepted :
  forall (feed_data : ParsedFeed) (source : SourceModel.Source),
    Forall (fun article =>
              (category article = "editorial"
               \/ category article = "opinion")
              /\ forall any_source,
                   _is_editorial_content article any_source = true)
           (_extract_articles_from_feed feed_data source)
    /\ _filter_editorial_articles
         (_extract_articles_from_feed feed_data source) source
       = map mark (_extract_articles_from_feed feed_data source)
    /\ (forall entry article t,
          _extract_article_data entry source = Some article ->
          (entry_tags entry = Missing
           \/ exists tags,
                entry_tags entry = Val tags
                /\ Forall (fun tag => exists tag_term,
                             lower_of (term tag) = Ok tag_term
                             /\ PyStr.any_in
                                  ["opinion"; "editorial"; "comment"]
                                  tag_term = false) tags) ->
          lower_of (entry_title entry) = Ok t ->
          PyStr.any_in ["opinion:"; "editorial:"; "comment:"] t = false ->
          category article = "editorial").
Proof.
  intros feed_data source.
  assert (Hall : Forall (fun article =>
              (category article = "editorial"
               \/ category article = "opinion")
              /\ forall any_source,
                   _is_editorial_content article any_source = true)
           (_extract_articles_from_feed feed_data source)).
  { apply List.Forall_forall. intros article Hin.
    apply extract_entries_from in Hin. destruct Hin as (entry & _ & He).
    apply extracted_category in He.
    apply extract_category_values in He.
    split; [exact He|]. intros any_source. now apply category_accepted. }
  split; [exact Hall|]. split.
  - induction Hall as [|article articles [_ Hacc] _ IH]; [reflexivity|].
    simpl. now rewrite Hacc, IH.
  - intros entry article t He Htags Ht Hprefix.
    apply extracted_category in He. unfold _extract_category in He.
    assert (Hscan : match entry_tags entry with
                    | Missing => Ok "editorial"
                    | PyNone => Raise "'NoneType' object is not iterable"
                    | Val tags => scan_tags tags "editorial"
                    end = Ok "editorial").
    { destruct Htags as [->|(tags & -> & Hno)]; [reflexivity|].
      induction Hno as [|tag tags (tag_term & Hterm & Hany) _ IH];
        [reflexivity|].
      cbn [scan_tags]. rewrite Hterm. cbn [bind]. now rewrite Hany. }
    rewrite Hscan, Ht in He. cbn [bind] in He. rewrite Hprefix in He.
    now injection He as <-.
Qed.

(** The keyword-include check as written: it rejects, when it is
    reached. *)
Lemma include_filter_rejects_when_reached (article : ArticleData)
    (source : SourceModel.Source) :
  PyStr.mem (PyStr.lower (category article))
    ["editorial"; "opinion"; "comment"] = false ->
  PyStr.any_in editorial_indicators (PyStr.lower (title article)) = false ->
  SourceModel.keyword_filters source <> [] ->
  existsb (keyword_in (PyStr.lower (title article))
                      (PyStr.lower (content article)))
          (SourceModel.keyword_filters source) = false ->
  _is_editorial_content article source = false.
Proof.
  intros Hcat Hind Hfilters Hnone. unfold _is_editorial_content.
  rewrite Hcat, Hind.
  destruct (SourceModel.keyword_filters source) as [|k ks];
    [congruence|].
  now rewrite Hnone.
Qed.

End WithLibraries.

End ExtractionFacts.

(** ** The feed fetcher: retries, delay and backoff *)

Module FetchFacts.
Import RssScraper.

Section WithLibraries.
Context {L : Libraries} {X : Extractors}.

(** The inner [try] ended in one of the two handlers. *)
Definition failed (r : AttemptResult) : bool :=
  match r with
  | Fetched _ => false
  | RequestFailed _ | Unexpected _ => true
  end.

(** [last_error] as set when the attempt number [k] fails. *)
Definition error_of (feed_url : string) (k : nat) : string :=
  match attempt_once feed_url k with
  | Fetched _ => ""
  | RequestFailed msg => attempt_error "Request failed" k msg
  | Unexpected msg => attempt_error "Unexpected error" k msg
  end.

(** The length of the backoff sleep after the attempt number [k]. *)
Definition backoff (k : nat) : SourceModel.PyFloat :=
  SourceModel.Finite (inject_Z (2 ^ Z.of_nat k)).


(** The calls made by [n] failed attempts, numbered from [attempt]. *)
Fixpoint failed_calls (feed_url : string) (attempt n : nat) : list Event :=
  match n with
  | O => []
  | S n' =>
      Get feed_url (REQUEST_TIMEOUT settings)
        :: backoff_sleep attempt ++ failed_calls feed_url (S attempt) n'
  end.

(** [last_error] after [n] failed attempts numbered from [attempt]. *)
Definition last_error_after (feed_url : string) (attempt n : nat)
    (last_error : option string) : option string :=
  match n with
  | O => last_error
  | S n' => Some (error_of feed_url (attempt + n'))
  end.

Lemma last_error_after_step (feed_url : string) (attempt n : nat)
    (last_error : option string) :
  last_error_after feed_url (S attempt) n (Some (error_of feed_url attempt))
  = last_error_after feed_url attempt (S n) last_error.
Proof.
  destruct n as [|n]; simpl.
  - now rewrite Nat.add_0_r.
  - now rewrite Nat.add_succ_r.
Qed.

(** As long as the attempts fail, the loop goes on. *)
Lemma retry_loop_failures (feed_url : string) (n : nat) :
  forall (remaining attempt : nat) (last_error : option string),
    (forall k, (attempt <= k < attempt + n)%nat ->
               failed (attempt_once feed_url k) = true) ->
    retry_loop (n + remaining) attempt feed_url last_error =
      let '(feed_data, last_error', events) :=
        retry_loop remaining (attempt + n) feed_url
          (last_error_after feed_url attempt n last_error) in
      (feed_data, last_error', failed_calls feed_url attempt n ++ events).
Proof.
  induction n as [|n IH]; intros remaining attempt last_error Hfail.
  - simpl. rewrite Nat.add_0_r.
    now destruct (retry_loop remaining attempt feed_url last_error) as [[? ?] ?].
  - assert (Hhere : failed (attempt_once feed_url attempt) = true)
      by (apply Hfail; lia).
    assert (Hnext : forall k, (S attempt <= k < S attempt + n)%nat ->
                              failed (attempt_once feed_url k) = true)
      by (intros k Hk; apply Hfail; lia).
    rewrite <- last_error_after_step.
    replace (attempt + S n)%nat with (S attempt + n)%nat by lia.
    change (S n + remaining)%nat with (S (n + remaining)).
    cbn [retry_loop failed_calls]. unfold error_of.
    destruct (attempt_once feed_url attempt) as [fd|msg|msg];
      [discriminate Hhere| |];
      rewrite (IH remaining (S attempt) _ Hnext);
      destruct (retry_loop remaining (S attempt + n) feed_url _) as [[? ?] ?];
      cbn [app]; now rewrite <- app_assoc.
Qed.

Lemma count_gets_app (xs ys : list Event) :
  count_gets (xs ++ ys) = (count_gets xs + count_gets ys)%nat.
Proof. unfold count_gets. now rewrite filter_app, length_app. Qed.

Lemma count_gets_backoff (k : nat) : count_gets (backoff_sleep k) = 0%nat.
Proof. unfold backoff_sleep. now destruct (_ <? _). Qed.

Lemma count_gets_failed_calls (feed_url : string) (n : nat) :
  forall attempt, count_gets (failed_calls feed_url attempt n) = n.
Proof.
  induction n as [|n IH]; intros attempt; [reflexivity|].
  cbn [failed_calls].
  change (count_gets (Get feed_url (REQUEST_TIMEOUT settings)
                        :: backoff_sleep attempt
                           ++ failed_calls feed_url (S attempt) n))
    with (S (count_gets (backoff_sleep attempt
                           ++ failed_calls feed_url (S attempt) n))).
  now rewrite count_gets_app, count_gets_backoff, IH.
Qed.

Lemma sleeps_of_app (kind : SleepKind) (xs ys : list Event) :
  sleeps_of kind (xs ++ ys) = sleeps_of kind xs ++ sleeps_of kind ys.
Proof.
  induction xs as [|[k q|u t] xs IH]; simpl; [reflexivity| |exact IH].
  destruct kind, k; simpl; now rewrite IH.
Qed.

(** The retry loop never sleeps for the request delay. *)
Lemma no_request_delay_in_failed_calls (feed_url : string) (n : nat) :
  forall attempt, sleeps_of RequestDelay (failed_calls feed_url attempt n) = [].
Proof.
  induction n as [|n IH]; intros attempt; [reflexivity|].
  cbn [failed_calls sleeps_of]. rewrite sleeps_of_app, IH.
  unfold backoff_sleep. now destruct (_ <? _).
Qed.

(** The backoff sleeps of [n] failed attempts, each followed by another
    attempt: 1, 2, 4, ... *)
Lemma backoff_of_failed_calls (feed_url : string) (n : nat) :
  forall attempt,
    Z.of_nat (attempt + n) <= MAX_RETRIES settings - 1 ->
    sleeps_of Backoff (failed_calls feed_url attempt n)
    = map backoff (seq attempt n).
Proof.
  induction n as [|n IH]; intros attempt Hle; [reflexivity|].
  cbn [failed_calls sleeps_of seq map]. rewrite sleeps_of_app, IH by lia.
  unfold backoff_sleep.
  destruct (Z.ltb_spec (Z.of_nat attempt) (MAX_RETRIES settings - 1));
    [reflexivity|lia].
Qed.

Lemma attempt_error_not_empty (label : string) (k : nat) (msg : string) :
  label <> "" -> String.eqb (attempt_error label k msg) "" = false.
Proof. destruct label; [congruence|reflexivity]. Qed.

Lemma error_of_not_empty (feed_url : string) (k : nat) :
  failed (attempt_once feed_url k) = true ->
  String.eqb (error_of feed_url k) "" = false.
Proof.
  unfold error_of. destruct (attempt_once feed_url k); simpl; intros H;
    [discriminate H|reflexivity|reflexivity].
Qed.

(** A 4xx or 5xx answer ends in the handler of [RequestException], as a
    timeout or a refused connection does. *)
Lemma error_status_fails (feed_url : string) (k : nat)
    (status_code : Z) (reason : string) (content : list Z) :
  session_get k feed_url = Response status_code reason content ->
  400 <= status_code < 600 ->
  failed (attempt_once feed_url k) = true.
Proof.
  intros Hget Hstatus. unfold attempt_once, raise_for_status. rewrite Hget.
  destruct (Z.leb_spec 400 status_code); [|lia].
  destruct (Z.ltb_spec status_code 500); [reflexivity|].
  destruct (Z.leb_spec 500 status_code); [|lia].
  destruct (Z.ltb_spec status_code 600); [reflexivity|lia].
Qed.

Lemma request_exception_fails (feed_url : string) (k : nat)
    (kind : RequestFailure) (msg : string) :
  session_get k feed_url = RequestException kind msg ->
  failed (attempt_once feed_url k) = true.
Proof. intros Hget. unfold attempt_once. now rewrite Hget. Qed.

(** The fetch whose first [n] attempts fail and whose next attempt
    succeeds. *)
Lemma fetch_feed_success (source : SourceModel.Source) (feed_url : string)
    (delayed : list Event) (n : nat) (feed_data : ParsedFeed) :
  SourceModel.fetch_url source = Some feed_url ->
  feed_url <> "" ->
  request_pause source = Ok delayed ->
  (n < Z.to_nat (MAX_RETRIES settings))%nat ->
  (forall k, (k < n)%nat -> failed (attempt_once feed_url k) = true) ->
  attempt_once feed_url n = Fetched feed_data ->
  fetch_feed source =
    ((true,
      _filter_editorial_articles
        (_extract_articles_from_feed feed_data source) source,
      None),
     delayed ++ failed_calls feed_url 0 n
       ++ [Get feed_url (REQUEST_TIMEOUT settings)]).
Proof.
  intros Hurl Hne Hpause Hn Hfail Hok. unfold fetch_feed.
  rewrite Hurl, Hpause.
  destruct (String.eqb_spec feed_url ""); [contradiction|].
  replace (Z.to_nat (MAX_RETRIES settings))
    with (n + S (Z.to_nat (MAX_RETRIES settings) - S n))%nat by lia.
  rewrite retry_loop_failures by (intros k Hk; apply Hfail; lia).
  cbn [Nat.add retry_loop]. rewrite Hok. reflexivity.
Qed.

(** The fetch whose attempts all fail. *)
Lemma fetch_feed_exhausted (source : SourceModel.Source) (feed_url : string)
    (delayed : list Event) :
  SourceModel.fetch_url source = Some feed_url ->
  feed_url <> "" ->
  request_pause source = Ok delayed ->
  (forall k, (k < Z.to_nat (MAX_RETRIES settings))%nat ->
             failed (attempt_once feed_url k) = true) ->
  fetch_feed source =
    ((false, [],
      Some match Z.to_nat (MAX_RETRIES settings) with
           | O => "Failed to fetch feed"
           | S last => error_of feed_url last
           end),
     delayed ++ failed_calls feed_url 0 (Z.to_nat (MAX_RETRIES settings))).
Proof.
  intros Hurl Hne Hpause Hfail. unfold fetch_feed.
  rewrite Hurl, Hpause.
  destruct (String.eqb_spec feed_url ""); [contradiction|].
  replace (Z.to_nat (MAX_RETRIES settings))
    with (Z.to_nat (MAX_RETRIES settings) + 0)%nat at 1 by lia.
  rewrite retry_loop_failures by (intros k Hk; apply Hfail; lia).
  cbn [Nat.add retry_loop]. rewrite app_nil_r.
  destruct (Z.to_nat (MAX_RETRIES settings)) as [|last] eqn:HM;
    [reflexivity|].
  cbn [last_error_after Nat.add].
  now rewrite error_of_not_empty by (apply Hfail; lia).
Qed.

Lemma count_gets_pause (source : SourceModel.Source) (delayed : list Event) :
  request_pause source = Ok delayed -> count_gets delayed = 0%nat.
Proof.
  unfold request_pause. intros H.
  destruct (SourceModel.request_delay source) as [seconds|];
    [|now injection H as <-].
  destruct (SourceModel.float_truthy seconds); [|now injection H as <-].
  destruct (time_sleep seconds); [discriminate H|now injection H as <-].
Qed.



(** *** The trace of the retry loop *)





(** C2 (as amended).  The fetcher makes no difference between causes of
    failure: a 4xx answer ends an attempt in the same handler as a 5xx
    answer, a timeout or a connection error, and every failed attempt is
    followed by another one until an attempt succeeds or MAX_RETRIES
    attempts were made.  When the first [n] attempts fail and the next one
    succeeds, [n + 1] requests are made and the fetch succeeds; when all
    attempts fail, MAX_RETRIES requests are made and the error returned is
    the one of the last attempt. *)
Theorem failed_attempts_are_retried_whatever_the_cause :
  forall (source : SourceModel.Source) (feed_url : string)
         (delayed : list Event),
    SourceModel.fetch_url source = Some feed_url ->
    feed_url <> "" ->
    request_pause source = Ok delayed ->
    (forall k status_code reason content,
       session_get k feed_url = Response status_code reason content ->
       400 <= status_code < 600 ->
       failed (attempt_once feed_url k) = true)
    /\ (forall k kind msg,
          session_get k feed_url = RequestException kind msg ->
          failed (attempt_once feed_url k) = true)
    /\ (forall n feed_data,
          (n < Z.to_nat (MAX_RETRIES settings))%nat ->
          (forall k, (k < n)%nat -> failed (attempt_once feed_url k) = true) ->
          attempt_once feed_url n = Fetched feed_data ->
          count_gets (snd (fetch_feed source)) = S n
          /\ fst (fetch_feed source) =
               (true,
                _filter_editorial_articles
                  (_extract_articles_from_feed feed_data source) source,
                None))
    /\ ((forall k, (k < Z.to_nat (MAX_RETRIES settings))%nat ->
                   failed (attempt_once feed_url k) = true) ->
        count_gets (snd (fetch_feed source)) = Z.to_nat (MAX_RETRIES settings)
        /\ fst (fetch_feed source) =
             (false, [],
              Some match Z.to_nat (MAX_RETRIES settings) with
                   | O => "Failed to fetch feed"
                   | S last => error_of feed_url last
                   end)).
Proof.
  intros source feed_url delayed Hurl Hne Hpause.
  pose proof (count_gets_pause source delayed Hpause) as Hquiet.
  split; [intros k status_code reason content; apply error_status_fails|].
  split; [intros k kind msg; apply request_exception_fails|].
  split.
  - intros n feed_data Hn Hfail Hok.
    rewrite (fetch_feed_success source feed_url delayed n feed_data)
      by assumption.
    split; [|reflexivity].
    cbn [snd]. rewrite !count_gets_app, Hquiet, count_gets_failed_calls.
    unfold count_gets. simpl. lia.
  - intros Hfail.
    rewrite (fetch_feed_exhausted source feed_url delayed) by assumption.
    split; [|reflexivity].
    cbn [snd]. now rewrite count_gets_app, Hquiet, count_gets_failed_calls.
Qed.



End WithLibraries.

End FetchFacts.

(** ** The summarization router *)

Module RouterFacts.
Import Summarization.

(** The caller asked for a model key, and the router has no such key.
    [None] and the empty string ask for no model: the default is used. *)
Definition unknown_model (model_name : option string) : Prop :=
  exists requested,
    model_name = Some requested /\ requested <> ""
    /\ model_configs !! requested = None.

(** The content is [None], empty, or shorter than 100 characters once
    stripped. *)
Definition content_too_short (article : Article) : Prop :=
  match content article with
  | None => True
  | Some text => (String.length (PyStr.strip text) < 100)%nat
  end.

Section WithBackends.
Context {B : Backends}.

(** C8.  A request for a model key unknown to the router, or for an
    article whose content is missing, empty or shorter than 100 characters
    after stripping, is rejected with an error message that says which of
    the two it is; no backend method is reached and the article is left
    as it was. *)
Theorem invalid_request_is_rejected_before_any_backend_call :
  forall (article : Article) (model_name custom_prompt : option string),
    unknown_model model_name \/ content_too_short article ->
    exists msg,
      summarize_article article model_name custom_prompt
        = ((false, None, Some msg), article, [])
      /\ (msg = "Article content too short for summarization"
          \/ exists requested,
               model_name = Some requested
               /\ msg = "Unknown model: " +:+ requested).
Proof.
  intros article model_name custom_prompt Hbad.
  unfold summarize_article.
  destruct (content article) as [text|] eqn:Hcontent;
    [|eexists; split; [reflexivity|now left]].
  destruct (String.eqb text ""
            || (Z.of_nat (String.length (PyStr.strip text)) <? 100)) eqn:Hshort;
    [eexists; split; [reflexivity|now left]|].
  apply orb_false_elim in Hshort. destruct Hshort as [_ Hlong].
  apply Z.ltb_ge in Hlong.
  destruct Hbad as [(requested & -> & Hne & Hnone)|Hbad].
  - destruct (String.eqb_spec requested ""); [contradiction|].
    rewrite Hnone. eexists. split; [reflexivity|]. right. now exists requested.
  - unfold content_too_short in Hbad. rewrite Hcontent in Hbad. lia.
Qed.

End WithBackends.

End RouterFacts.

(** ** The batch summarization orchestrator *)

Module BatchFacts.
Import Summarization.

Section Batch.
Context {B : Backends}.
Variable await_task : nat -> Article -> option string -> TaskOutcome.
Variable gather_fault : nat -> option Fault.

Abbreviation record_batch := (record_batch await_task).
Abbreviation process_batches := (process_batches await_task gather_fault).
Abbreviation run_batches := (run_batches await_task gather_fault).
Abbreviation batch_summarize_articles :=
  (batch_summarize_articles await_task gather_fault).


(** *** Recording the results of a batch *)

Lemma record_batch_app (l1 l2 : list Article) :
  forall (first : nat) (m : option string) (r : gmap string Slot),
    record_batch (l1 ++ l2) first m r
    = record_batch l2 (first + length l1) m (record_batch l1 first m r).
Proof.
  induction l1 as [|a l1 IH]; intros first m r; simpl.
  - now rewrite Nat.add_0_r.
  - rewrite IH. f_equal. lia.
Qed.

Lemma record_batch_other (l : list Article) :
  forall (first : nat) (m : option string) (r : gmap string Slot)
         (key : string),
    key ∉ map id l -> record_batch l first m r !! key = r !! key.
Proof.
  induction l as [|a l IH]; intros first m r key Hnot; [reflexivity|].
  simpl in *. apply not_elem_of_cons in Hnot. destruct Hnot as [Hne Hnot].
  rewrite IH by assumption. now apply lookup_insert_ne.
Qed.


Lemma record_batch_dom (l : list Article) :
  forall (first : nat) (m : option string) (r : gmap string Slot),
    dom (record_batch l first m r) = dom r ∪ list_to_set (map id l).
Proof.
  induction l as [|a l IH]; intros first m r; simpl.
  - set_solver.
  - rewrite IH, dom_insert_L. set_solver.
Qed.

(** *** The handler: marking the remaining articles *)



Lemma mark_remaining_dom (l : list Article) (msg : string) :
  forall (r : gmap string Slot),
    dom (mark_remaining l msg r) = dom r ∪ list_to_set (map id l).
Proof.
  induction l as [|a l IH]; intros r; simpl.
  - set_solver.
  - rewrite IH. destruct (r !! id a) eqn:Ha.
    + apply (elem_of_dom_2 r) in Ha. set_solver.
    + rewrite dom_insert_L. set_solver.
Qed.

(** *** The loop over the batches *)

Lemma slice_batch (articles : list Article) (k : nat) (batch_size : Z) :
  0 < batch_size ->
  slice articles (Z.of_nat k * batch_size)
        (Z.of_nat k * batch_size + batch_size)
  = take (Z.to_nat batch_size) (drop (k * Z.to_nat batch_size) articles).
Proof.
  intros Hpos. unfold slice.
  replace (Z.of_nat k * batch_size + batch_size - Z.of_nat k * batch_size)
    with batch_size by lia.
  now rewrite Z2Nat.inj_mul, Nat2Z.id by lia.
Qed.

(** The batches started, from the batch number [k0] on, record the
    results of a prefix of the articles that were left; the prefix is
    whole unless an exception ended the loop. *)
Lemma process_batches_prefix (articles : list Article) (m : option string)
    (batch_size : Z) (count : nat) :
  0 < batch_size ->
  forall (k0 : nat) (r : gmap string Slot),
  exists (completed : nat) (raised : option Fault),
    (completed <= count)%nat
    /\ process_batches
         (map (fun k => Z.of_nat k * batch_size) (seq k0 count))
         articles m batch_size r
       = (record_batch
            (take (completed * Z.to_nat batch_size)
                  (drop (k0 * Z.to_nat batch_size) articles))
            (k0 * Z.to_nat batch_size) m r,
          raised)
    /\ (raised = None -> completed = count)
    /\ ((forall k, gather_fault k = None) -> raised = None)
    /\ (forall fault, raised = Some fault ->
                      exists k, gather_fault k = Some fault).
Proof.
  intros Hpos. set (b := Z.to_nat batch_size).
  induction count as [|count IH]; intros k0 r.
  - exists 0%nat, None. repeat split; auto. discriminate.
  - cbn [seq map Summarization.process_batches].
    destruct (gather_fault (Z.to_nat (Z.of_nat k0 * batch_size / batch_size)))
      as [fault|] eqn:Hfault.
    + exists 0%nat, (Some fault). repeat split; [lia|discriminate| |].
      * intros Hnone. rewrite Hnone in Hfault. discriminate.
      * intros ? [= <-]. eauto.
    + rewrite slice_batch by assumption. fold b.
      replace (Z.to_nat (Z.of_nat k0 * batch_size)) with (k0 * b)%nat
        by (unfold b; rewrite Z2Nat.inj_mul, Nat2Z.id; lia).
      destruct (IH (S k0)
                  (record_batch (take b (drop (k0 * b) articles))
                     (k0 * b) m r))
        as (completed & raised & Hle & Hrun & Hall & Hquiet & Hwhich).
      exists (S completed), raised.
      split; [lia|].
      split; [|split; [intros Hr; now rewrite (Hall Hr)|now split]].
      rewrite Hrun. f_equal.
      set (rest := drop (k0 * b) articles).
      replace (S completed * b)%nat with (b + completed * b)%nat by lia.
      rewrite <- (take_take_drop rest b (completed * b)).
      rewrite record_batch_app.
      replace (drop (S k0 * b) articles) with (drop b rest)
        by (unfold rest; rewrite drop_drop; f_equal; lia).
      destruct (Nat.le_gt_cases b (length rest)) as [Hfull|Hshort].
      * rewrite length_take, Nat.min_l by exact Hfull.
        f_equal; lia.
      * rewrite (drop_ge rest b) by lia. now rewrite take_nil.
Qed.

Lemma batches_reach_the_end (n : nat) (batch_size : Z) :
  0 < batch_size ->
  (n <= Z.to_nat ((Z.of_nat n + batch_size - 1) / batch_size)
        * Z.to_nat batch_size)%nat.
Proof.
  intros Hpos.
  assert (Hq : Z.of_nat n
               <= (Z.of_nat n + batch_size - 1) / batch_size * batch_size).
  { pose proof (Z.div_mod (Z.of_nat n + batch_size - 1) batch_size) as Hdm.
    pose proof (Z.mod_pos_bound (Z.of_nat n + batch_size - 1) batch_size Hpos).
    lia. }
  assert (0 <= (Z.of_nat n + batch_size - 1) / batch_size)
    by (apply Z.div_pos; lia).
  apply Nat2Z.inj_le. rewrite Nat2Z.inj_mul, !Z2Nat.id by lia. exact Hq.
Qed.

Lemma take_length_take {A : Type} (n : nat) (l : list A) :
  take (length (take n l)) l = take n l.
Proof.
  rewrite length_take.
  destruct (Nat.le_gt_cases n (length l)) as [Hle|Hgt].
  - now rewrite Nat.min_l.
  - rewrite Nat.min_r by lia. now rewrite !take_ge by lia.
Qed.

(** The [try] block records the results of a prefix of the articles, and
    of all of them unless it raised. *)
Lemma run_batches_prefix (articles : list Article) (m : option string)
    (batch_size : Z) :
  0 <= batch_size ->
  exists (attempted : nat) (raised : option Fault),
    (attempted <= length articles)%nat
    /\ run_batches articles m batch_size
       = (record_batch (take attempted articles) 0 m ∅, raised)
    /\ (raised = None -> attempted = length articles)
    /\ ((forall k, gather_fault k = None) -> 0 < batch_size -> raised = None)
    /\ (forall exception,
          raised = Some (Uncaught exception) ->
          exists k, gather_fault k = Some (Uncaught exception)).
Proof.
  intros Hnonneg. unfold Summarization.run_batches, range_from_zero.
  destruct (Z.eqb_spec batch_size 0) as [->|Hne].
  - exists 0%nat, (Some (Caught "range() arg 3 must not be zero")).
    repeat split; [lia|discriminate|lia|discriminate].
  - destruct (Z.ltb_spec batch_size 0) as [|_]; [lia|].
    assert (Hpos : 0 < batch_size) by lia.
    destruct (process_batches_prefix articles m batch_size
                (Z.to_nat ((Z.of_nat (length articles) + batch_size - 1)
                           / batch_size)) Hpos 0%nat ∅)
      as (completed & raised & Hle & Hrun & Hall & Hquiet & Hwhich).
    change (drop (0 * Z.to_nat batch_size) articles) with articles in Hrun.
    exists (length (take (completed * Z.to_nat batch_size) articles)), raised.
    split; [rewrite length_take; lia|]. split; [|split; [|split]].
    + rewrite Hrun. cbn [Nat.mul]. now rewrite take_length_take.
    + intros Hnone. rewrite (Hall Hnone), length_take.
      pose proof (batches_reach_the_end (length articles) batch_size Hpos).
      lia.
    + intros Hnone _. now apply Hquiet.
    + intros exception Hraised. now apply Hwhich.
Qed.



End Batch.

End BatchFacts.

(** * Scenarios: the properties on concrete inputs *)

Module Scenarios.
Import RssScraper Fixtures.

(** ** Health tracker *)

(** The health theorem on a new source that failed once, succeeded, and
    then fails five times in a row. *)
Lemma five_failures_end_in_error :
  0 <= SourceModel.error_count (new_source "Example" feed_address)
  /\ SourceModel.health_status
       (SourceModel.record_outcomes
          (SourceModel.record_outcomes (new_source "Example" feed_address)
             [SourceModel.Failed (Some "timeout"); SourceModel.Succeeded])
          (map SourceModel.Failed [None; None; None; None; None]))
     = "error".
Proof.
  split; [simpl; lia|].
  apply (SourceFacts.health_status_follows_consecutive_errors
           (new_source "Example" feed_address)
           [SourceModel.Failed (Some "timeout"); SourceModel.Succeeded]).
  - simpl. lia.
  - reflexivity.
Defined.

(** ** Fingerprint *)

(** Two bodies of 501 characters that differ in the last one only. *)
Lemma bodies_differing_after_500 :
  padded_body 500 "x" <> padded_body 500 "y"
  /\ _generate_content_hash "Why Tariffs Fail" (padded_body 500 "x")
     = _generate_content_hash "Why Tariffs Fail" (padded_body 500 "y").
Proof.
  split; [vm_compute; discriminate|].
  apply (FingerprintFacts.content_hash_depends_on_title_and_first_500
           "Why Tariffs Fail" (padded_body 500 "x") (padded_body 500 "y")).
  vm_compute. reflexivity.
Defined.

(** "Tariffs fail" + "ed again" and "Tariffs fai" + "led again". *)
Lemma boundary_moved_by_one_character :
  _generate_content_hash ("Tariffs fai" +:+ "l") "ed again"
  = _generate_content_hash "Tariffs fai" "led again".
Proof.
  apply (FingerprintFacts.content_hash_boundary_not_recoverable
           "Tariffs fai" "l"%char "ed again").
  simpl. lia.
Defined.

Example boundary_digest :
  _generate_content_hash "Tariffs fail" "ed again"
  = "0cf1a932193c3f50313cfe592bb314f7"
  /\ _generate_content_hash "Tariffs fai" "led again"
     = "0cf1a932193c3f50313cfe592bb314f7".
Proof. split; vm_compute; reflexivity. Qed.

(** ** Extraction *)

(** Of the three entries of the mixed feed, the one without a title and
    the one whose extraction raises are skipped. *)
Example mixed_feed_extraction :
  map title
    (@_extract_articles_from_feed (scripted []) (plain [] mixed_feed)
       mixed_feed climate_source)
  = ["Opinion: Why Tariffs Fail"]
  /\ (exists msg,
        map (fun e => @extract_article_data_body (scripted [])
                        (plain [] mixed_feed) e climate_source)
            (skipn 1 (entries mixed_feed))
        = [Ok None; Raise msg]).
Proof. split; [|eexists]; vm_compute; reflexivity. Qed.


(** "Opinion: Why Tariffs Fail" is kept as opinion, not as editorial. *)
Example opinion_prefix_flags :
  map (fun a => (is_editorial a, is_opinion a))
    (@_filter_editorial_articles (scripted [])
       (@_extract_articles_from_feed (scripted []) (plain [] mixed_feed)
          mixed_feed climate_source)
       climate_source)
  = [(Some false, Some true)].
Proof. vm_compute. reflexivity. Qed.

(** C1.  The code at the failing input: a feed entry with no tags and the
    title "Editorial board meets", fetched for a source whose
    keyword-include list is ["climate"].  Neither the title nor the body
    contains "climate" and the title has no labeled prefix, yet the
    candidate is accepted: extraction gives it the default category
    'editorial', and the classifier returns at its first check. *)
Theorem keyword_include_filter_is_bypassed :
  SourceModel.keyword_filters climate_source = ["climate"]
  /\ map entry_tags (entries (council_feed [ok_response])) = [Missing]
  /\ map (fun a =>
            (title a, category a,
             PyStr.any_in editorial_indicators (PyStr.lower (title a)),
             keyword_in (PyStr.lower (title a)) (PyStr.lower (content a))
               "climate",
             PyStr.contains "editorial" (PyStr.lower (title a)),
             _is_editorial_content a climate_source))
         (@_extract_articles_from_feed (scripted [ok_response])
            (plain [ok_response] (council_feed [ok_response]))
            (council_feed [ok_response]) climate_source)
     = [("Editorial board meets", "editorial", false, false, true, true)]
  /\ map title (snd (fst (fst (fetch [ok_response]))))
     = ["Editorial board meets"].
Proof. repeat split; vm_compute; reflexivity. Qed.

(** ** Fetching *)

(** C2, as stated, fails: the first attempt gets 404 Not Found, a second
    attempt is made all the same, and the fetch succeeds. *)
Lemma client_error_is_retried :
  @attempt_once (scripted [not_found; ok_response])
     (plain _ (council_feed _)) feed_address 0
  = RequestFailed
      "404 Client Error: Not Found for url: https://example.com/feed"
  /\ count_gets (snd (fetch [not_found; ok_response])) = 2%nat
  /\ fst (fst (fst (fetch [not_found; ok_response]))) = true
  /\ snd (fst (fetch [not_found; ok_response])) = None.
Proof. repeat split; vm_compute; reflexivity. Qed.

(** The amended C2 on the same fetch. *)
Lemma retry_after_not_found :
  count_gets (snd (fetch [not_found; ok_response])) = 2%nat.
Proof.
  apply (@FetchFacts.failed_attempts_are_retried_whatever_the_cause
           (scripted [not_found; ok_response])
           (plain _ (council_feed _)) climate_source feed_address
           [Sleep RequestDelay (SourceModel.Finite (inject_Z 3))]
           ltac:(reflexivity) ltac:(discriminate) ltac:(reflexivity))
    with (n := 1%nat) (feed_data := council_feed [not_found; ok_response]).
  - simpl. lia.
  - intros [|k] Hk; [reflexivity|lia].
  - reflexivity.
Defined.



(** The same fetch with all three attempts timed out: three requests, the
    two backoff sleeps between them and none after the last. *)
Example three_timeouts :
  fetch [timed_out; timed_out; timed_out]
  = ((false, [],
      Some "Request failed (attempt 3): Read timed out."),
     [Sleep RequestDelay (SourceModel.Finite (inject_Z 3));
      Get feed_address 30;
      Sleep Backoff (SourceModel.Finite (inject_Z 1));
      Get feed_address 30;
      Sleep Backoff (SourceModel.Finite (inject_Z 2));
      Get feed_address 30]).
Proof. vm_compute. reflexivity. Qed.

(** A delay that [time.sleep] refuses ends the fetch before any request. *)
Example refused_delay :
  @fetch_feed (scripted [ok_response]) (plain _ (council_feed _))
    (with_fetch_policy climate_source (Some SourceModel.NaN) 50 [] [])
  = ((false, [],
      Some ("RSS scraping failed for Example: "
            +:+ "Invalid value NaN (not a number)")),
     []).
Proof. vm_compute. reflexivity. Qed.

End Scenarios.

Module SummaryScenarios.
Import Summarization SummaryFixtures.

(** ** Router *)

(** A request for the unknown key "gpt-5" on an article long enough. *)
Lemma unknown_model_is_rejected :
  exists msg,
    @summarize_article stub_backends
      (stored "a0" (Some (Fixtures.padded_body 120 " end"))) (Some "gpt-5") None
    = ((false, None, Some msg),
       stored "a0" (Some (Fixtures.padded_body 120 " end")), []).
Proof.
  destruct (@RouterFacts.invalid_request_is_rejected_before_any_backend_call
              stub_backends
              (stored "a0" (Some (Fixtures.padded_body 120 " end")))
              (Some "gpt-5") None) as (msg & Hrun & _).
  - left. exists "gpt-5".
    split; [reflexivity|]. split; [discriminate|vm_compute; reflexivity].
  - exists msg. exact Hrun.
Defined.

Example unknown_model_message :
  fst (fst (@summarize_article stub_backends
              (stored "a0" (Some (Fixtures.padded_body 120 " end")))
              (Some "gpt-5") None))
  = (false, None, Some "Unknown model: gpt-5").
Proof. vm_compute. reflexivity. Qed.

Example short_content_message :
  @summarize_article stub_backends (stored "a0" (Some "   too short   "))
    (Some "gpt-4") None
  = ((false, None, Some "Article content too short for summarization"),
     stored "a0" (Some "   too short   "), []).
Proof. vm_compute. reflexivity. Qed.

(** A known key and a long enough content reach the backend. *)
Example valid_request_reaches_backend :
  length (snd (@summarize_article stub_backends
                 (stored "a0" (Some (Fixtures.padded_body 120 " end")))
                 (Some "gpt-4") None))
  = 1%nat.
Proof. vm_compute. reflexivity. Qed.

(** ** Batches *)



(** The entry is a tuple that reports success. *)
Definition reports_success (entry : string * Slot) : bool :=
  match snd entry with
  | Tuple (success, _, _) => success
  | ExceptionObject _ => false
  end.

(** Nine successes and one failure, in the slot of the task that raised. *)
Example nine_successes_one_failure :
  match
    @batch_summarize_articles stub_backends one_task_raises no_fault
      ten_articles None (Some 4)
  with
  | Ok results =>
      length (List.filter reports_success (map_to_list results)) = 9%nat
      /\ results !! "a6" = Some (Tuple (false, None, Some "CUDA out of memory"))
  | Raise _ => False
  end.
Proof. vm_compute. split; reflexivity. Qed.

(** When the await of the second batch raises an [Exception], the first
    batch keeps its results and the six other articles are back-filled. *)
Example fault_in_second_batch :
  match
    @batch_summarize_articles stub_backends one_task_raises
      second_batch_faults ten_articles None None
  with
  | Ok results =>
      size results = 10%nat
      /\ results !! "a3" = Some (Tuple (true, Some "summary of a3", None))
      /\ results !! "a4"
         = Some (Tuple (false, None,
                        Some "Batch processing error: event loop is closed"))
  | Raise _ => False
  end.
Proof. vm_compute. repeat split; reflexivity. Qed.

(** A task that is cancelled leaves its exception object in the map,
    where the other entries are tuples. *)
Example cancelled_task_is_stored_as_gathered :
  match
    @batch_summarize_articles stub_backends one_task_cancelled no_fault
      ten_articles None (Some 4)
  with
  | Ok results =>
      size results = 10%nat
      /\ results !! "a6" = Some (ExceptionObject "CancelledError()")
      /\ results !! "a7" = Some (Tuple (true, Some "summary of a7", None))
  | Raise _ => False
  end.
Proof. vm_compute. repeat split; reflexivity. Qed.

(** When the caller is cancelled during the second batch, no map is
    returned. *)
Example cancelled_caller_gets_no_map :
  @batch_summarize_articles stub_backends one_task_raises caller_cancelled
    ten_articles None (Some 4)
  = Raise "CancelledError()".
Proof. vm_compute. reflexivity. Qed.


End SummaryScenarios.

(** * Further properties of the services *)

(** ** Whitespace, words and reversal of strings *)

Module TextFacts.

(** The first character is whitespace. *)
Definition starts_with_space (s : string) : bool :=
  match s with
  | EmptyString => false
  | String c _ => PyStr.isspace c
  end.

(** The last character is whitespace. *)
Definition ends_with_space (s : string) : bool :=
  starts_with_space (PyStr.rev s).

(** No character is whitespace. *)
Fixpoint no_space (s : string) : bool :=
  match s with
  | EmptyString => true
  | String c s' => negb (PyStr.isspace c) && no_space s'
  end.

(** Every whitespace character is a space that follows a character other
    than whitespace; [after_space] tells that the text comes right after
    whitespace, or at the start of a line. *)
Fixpoint tidy (after_space : bool) (s : string) : bool :=
  match s with
  | EmptyString => true
  | String c s' =>
      if PyStr.isspace c
      then Ascii.eqb c " " && negb after_space && tidy true s'
      else tidy false s'
  end.

(** Words separated by single spaces, with no whitespace around. *)
Definition normalized (s : string) : Prop :=
  tidy true s = true /\ ends_with_space s = false.

(** A word as [split] returns them. *)
Definition is_word (w : string) : Prop := w <> "" /\ no_space w = true.

Lemma append_nil_r (s : string) : s +:+ "" = s.
Proof.
  induction s as [|c s IH]; [reflexivity|].
  change (String c (s +:+ "") = String c s). now f_equal.
Qed.

Lemma append_assoc (s t u : string) : (s +:+ t) +:+ u = s +:+ (t +:+ u).
Proof.
  induction s as [|c s IH]; [reflexivity|].
  change (String c ((s +:+ t) +:+ u) = String c (s +:+ (t +:+ u))).
  now f_equal.
Qed.

Lemma append_cons (c : ascii) (s t : string) :
  String c s +:+ t = String c (s +:+ t).
Proof. reflexivity. Qed.

Lemma length_append (s t : string) :
  String.length (s +:+ t) = (String.length s + String.length t)%nat.
Proof.
  induction s as [|c s IH]; [reflexivity|].
  rewrite append_cons. cbn [String.length]. now rewrite IH.
Qed.

Lemma rev_onto_append (s acc : string) :
  PyStr.rev_onto s acc = PyStr.rev s +:+ acc.
Proof.
  unfold PyStr.rev. revert acc.
  induction s as [|c s IH]; intros acc; [reflexivity|].
  cbn [PyStr.rev_onto]. rewrite (IH (String c acc)), (IH (String c "")).
  now rewrite append_assoc.
Qed.

Lemma rev_cons (c : ascii) (s : string) :
  PyStr.rev (String c s) = PyStr.rev s +:+ String c "".
Proof. unfold PyStr.rev at 1. cbn [PyStr.rev_onto]. apply rev_onto_append. Qed.

Lemma rev_append (s t : string) :
  PyStr.rev (s +:+ t) = PyStr.rev t +:+ PyStr.rev s.
Proof.
  induction s as [|c s IH].
  - cbn [String.append]. now rewrite append_nil_r.
  - rewrite append_cons, !rev_cons, IH. apply append_assoc.
Qed.

Lemma rev_involutive (s : string) : PyStr.rev (PyStr.rev s) = s.
Proof.
  induction s as [|c s IH]; [reflexivity|].
  now rewrite rev_cons, rev_append, IH.
Qed.

Lemma rev_length (s : string) :
  String.length (PyStr.rev s) = String.length s.
Proof.
  induction s as [|c s IH]; [reflexivity|].
  rewrite rev_cons, length_append, IH. cbn [String.length]. lia.
Qed.

Lemma rev_empty (s : string) : PyStr.rev s = "" -> s = "".
Proof.
  intros H. apply (f_equal String.length) in H. rewrite rev_length in H.
  now destruct s.
Qed.

(** *** Stripping *)

Lemma lstrip_clean (s : string) : starts_with_space (PyStr.lstrip s) = false.
Proof.
  induction s as [|c s IH]; [reflexivity|].
  cbn [PyStr.lstrip]. destruct (PyStr.isspace c) eqn:Hc; [exact IH|].
  exact Hc.
Qed.

Lemma lstrip_suffix (s : string) : exists w, s = w +:+ PyStr.lstrip s.
Proof.
  induction s as [|c s [w IH]]; [now exists ""|].
  cbn [PyStr.lstrip]. destruct (PyStr.isspace c).
  - exists (String c w). rewrite append_cons. now f_equal.
  - now exists "".
Qed.

Lemma rstrip_prefix (s : string) : exists w, s = PyStr.rstrip s +:+ w.
Proof.
  unfold PyStr.rstrip.
  destruct (lstrip_suffix (PyStr.rev s)) as [w Hw].
  exists (PyStr.rev w).
  rewrite <- rev_append, <- Hw. symmetry. apply rev_involutive.
Qed.

Lemma rstrip_clean (s : string) : ends_with_space (PyStr.rstrip s) = false.
Proof.
  unfold ends_with_space, PyStr.rstrip.
  rewrite rev_involutive. apply lstrip_clean.
Qed.

Lemma starts_with_space_prefix (s w : string) :
  starts_with_space (s +:+ w) = false -> starts_with_space s = false.
Proof. destruct s; [reflexivity|exact (fun H => H)]. Qed.

Lemma strip_clean (s : string) :
  starts_with_space (PyStr.strip s) = false
  /\ ends_with_space (PyStr.strip s) = false.
Proof.
  unfold PyStr.strip. split; [|apply rstrip_clean].
  destruct (rstrip_prefix (PyStr.lstrip s)) as [w Hw].
  apply (starts_with_space_prefix _ w). rewrite <- Hw. apply lstrip_clean.
Qed.

Lemma lstrip_length (s : string) :
  (String.length (PyStr.lstrip s) <= String.length s)%nat.
Proof.
  destruct (lstrip_suffix s) as [w Hw].
  rewrite Hw at 2. rewrite length_append. lia.
Qed.

Lemma strip_length (s : string) :
  (String.length (PyStr.strip s) <= String.length s)%nat.
Proof.
  unfold PyStr.strip.
  destruct (rstrip_prefix (PyStr.lstrip s)) as [w Hw].
  pose proof (lstrip_length s) as Hl.
  rewrite Hw in Hl at 1. rewrite length_append in Hl. lia.
Qed.

(** *** Single spaces *)

Lemma tidy_collapse (s : string) :
  forall in_run, tidy in_run (PyStr.collapse_ws_from in_run s) = true.
Proof.
  induction s as [|c s IH]; intros in_run; [reflexivity|].
  cbn [PyStr.collapse_ws_from].
  destruct (PyStr.isspace c) eqn:Hc.
  - destruct in_run; [apply IH|].
    cbn [tidy]. change (PyStr.isspace " ") with true. cbn. apply IH.
  - cbn [tidy]. rewrite Hc. apply IH.
Qed.

Lemma tidy_lstrip (s : string) :
  forall b b', tidy b s = true -> tidy b' (PyStr.lstrip s) = true.
Proof.
  induction s as [|c s IH]; intros b b' H; [reflexivity|].
  cbn [PyStr.lstrip tidy] in *. destruct (PyStr.isspace c) eqn:Hc.
  - apply (IH true). now apply andb_true_iff in H as [_ H].
  - cbn [tidy]. now rewrite Hc.
Qed.

Lemma tidy_prefix (s w : string) :
  forall b, tidy b (s +:+ w) = true -> tidy b s = true.
Proof.
  induction s as [|c s IH]; intros b H; [reflexivity|].
  rewrite append_cons in H. cbn [tidy] in *.
  destruct (PyStr.isspace c).
  - apply andb_true_iff in H as [H1 H2]. rewrite H1. now apply IH.
  - now apply IH.
Qed.

Lemma tidy_strip (s : string) (b b' : bool) :
  tidy b s = true -> tidy b' (PyStr.strip s) = true.
Proof.
  intros H. unfold PyStr.strip.
  destruct (rstrip_prefix (PyStr.lstrip s)) as [w Hw].
  apply (tidy_prefix _ w). rewrite <- Hw. now apply (tidy_lstrip s b).
Qed.

Lemma tidy_from_start (s : string) (b : bool) :
  tidy b s = true -> starts_with_space s = false -> tidy true s = true.
Proof.
  destruct s as [|c s]; [reflexivity|]. cbn [tidy starts_with_space].
  intros H Hc. now rewrite Hc in *.
Qed.

(** [re.sub(r'\s+', ' ', s).strip()] is normalized. *)
Lemma strip_collapse_normalized (s : string) :
  normalized (PyStr.strip (PyStr.collapse_ws s)).
Proof.
  destruct (strip_clean (PyStr.collapse_ws s)) as [Hstart Hend].
  split; [|exact Hend].
  apply (tidy_from_start _ false); [|exact Hstart].
  apply (tidy_strip _ false). apply tidy_collapse.
Qed.

End TextFacts.

(** ** Splitting into words and joining them *)

Module WordFacts.
Import TextFacts.

Lemma no_space_rev_onto (s acc : string) :
  no_space (PyStr.rev_onto s acc) = no_space s && no_space acc.
Proof.
  revert acc. induction s as [|c s IH]; intros acc; [reflexivity|].
  cbn [PyStr.rev_onto no_space]. rewrite IH. cbn [no_space].
  destruct (PyStr.isspace c), (no_space s), (no_space acc); reflexivity.
Qed.

Lemma rev_is_word (cur : string) :
  cur <> "" -> no_space cur = true -> is_word (PyStr.rev cur).
Proof.
  intros Hne Hfree. split.
  - intros H. now apply rev_empty in H.
  - unfold PyStr.rev. rewrite no_space_rev_onto, Hfree. reflexivity.
Qed.

(** [split] returns words: none is empty, none holds whitespace. *)
Lemma split_from_words (s : string) :
  forall cur, no_space cur = true -> Forall is_word (PyStr.split_from cur s).
Proof.
  induction s as [|c s IH]; intros cur Hcur; cbn [PyStr.split_from].
  - destruct cur as [|d cur]; [constructor|].
    constructor; [|constructor]. now apply rev_is_word.
  - destruct (PyStr.isspace c) eqn:Hc.
    + destruct cur as [|d cur]; [now apply IH|].
      constructor; [now apply rev_is_word|now apply IH].
    + apply IH. cbn [no_space]. now rewrite Hc, Hcur.
Qed.

Lemma split_words (s : string) : Forall is_word (PyStr.split s).
Proof. now apply split_from_words. Qed.

(** Reading a word moves it, reversed, onto the word being read. *)
Lemma split_from_word (w rest : string) :
  forall cur,
    no_space w = true ->
    PyStr.split_from cur (w +:+ rest)
    = PyStr.split_from (PyStr.rev_onto w cur) rest.
Proof.
  induction w as [|c w IH]; intros cur Hw; [reflexivity|].
  cbn [no_space] in Hw. apply andb_true_iff in Hw as [Hc Hw].
  apply negb_true_iff in Hc.
  rewrite append_cons. cbn [PyStr.split_from PyStr.rev_onto]. rewrite Hc.
  now apply IH.
Qed.

(** [' '.join(words).split() == words] *)
Lemma split_join (ws : list string) :
  Forall is_word ws -> PyStr.split (PyStr.join " " ws) = ws.
Proof.
  induction 1 as [|w ws [Hne Hfree] Hws IH]; [reflexivity|].
  assert (Hrev : PyStr.rev_onto w "" <> "").
  { intros H. now apply (rev_empty w) in H. }
  unfold PyStr.split in *. destruct ws as [|w2 ws].
  - cbn [PyStr.join]. rewrite <- (append_nil_r w) at 1.
    rewrite split_from_word by exact Hfree.
    cbn [PyStr.split_from].
    destruct (PyStr.rev_onto w "") as [|d cur] eqn:Hcur; [congruence|].
    rewrite <- Hcur. change (PyStr.rev_onto w "") with (PyStr.rev w).
    now rewrite rev_involutive.
  - change (PyStr.join " " (w :: w2 :: ws))
      with (w +:+ String " " (PyStr.join " " (w2 :: ws))).
    rewrite split_from_word by exact Hfree.
    cbn [PyStr.split_from]. change (PyStr.isspace " ") with true. cbn match.
    destruct (PyStr.rev_onto w "") as [|d cur] eqn:Hcur; [congruence|].
    rewrite <- Hcur. change (PyStr.rev_onto w "") with (PyStr.rev w).
    now rewrite rev_involutive, IH.
Qed.

End WordFacts.

(** ** More of [app/services/rss_scraper.py] *)

Module ScraperExtras.
Import RssScraper TextFacts.

(** [_extract_excerpt], on the two keys it reads and for any behaviour of
    [_clean_html_content]: [summary] is preferred to [description] as soon
    as the key is there, and a value of [None] reaches [None.strip()]. *)
Definition _extract_excerpt_from (_clean_html_content : string -> result string)
    (summary description : field string) : result string :=
  let excerpt : option string :=
    match summary with
    | Val s => Some s
    | PyNone => None
    | Missing =>
        match description with
        | Val s => Some s
        | PyNone => None
        | Missing => Some ""
        end
    end in
  match excerpt with
  | None => Raise "'NoneType' object has no attribute 'strip'"
  | Some excerpt =>
      if String.eqb excerpt "" then Ok (PyStr.strip excerpt) else
      excerpt <-! _clean_html_content excerpt;
      let excerpt :=
        if (300 <? String.length excerpt)%nat
        then PyStr.take 297 excerpt +:+ "..."
        else excerpt in
      Ok (PyStr.strip excerpt)
  end.

Lemma take_length (n : nat) (s : string) :
  (String.length (PyStr.take n s) <= n)%nat.
Proof.
  revert s. induction n as [|n IH]; intros [|c s]; cbn; try lia.
  specialize (IH s). lia.
Qed.

(** X1.  An excerpt, when one is returned, has at most 300 characters and no
    whitespace around it; and a [summary] key that holds a string, even the
    empty one, makes the [description] irrelevant. *)
Theorem excerpt_is_short_and_stripped :
  forall (clean : string -> result string) (summary description : field string)
         (excerpt : string),
    _extract_excerpt_from clean summary description = Ok excerpt ->
    (String.length excerpt <= 300)%nat
    /\ starts_with_space excerpt = false
    /\ ends_with_space excerpt = false
    /\ (forall s other,
          summary = Val s ->
          _extract_excerpt_from clean summary other = Ok excerpt).
Proof.
  intros clean summary description excerpt H.
  assert (Hshape : exists raw, excerpt = PyStr.strip raw
                               /\ (String.length raw <= 300)%nat).
  { unfold _extract_excerpt_from in H.
    destruct (match summary with
              | Val s => Some s
              | PyNone => None
              | Missing => match description with
                           | Val s => Some s
                           | PyNone => None
                           | Missing => Some ""
                           end
              end) as [raw|]; [|discriminate H].
    destruct (String.eqb raw "") eqn:Hraw.
    - apply String.eqb_eq in Hraw. subst raw.
      injection H as <-. exists "". split; [reflexivity|cbn; lia].
    - destruct (clean raw) as [cleaned|]; unfold bind in H; [|discriminate H].
      assert (Hexcerpt : forall a b : string, Ok a = Ok b -> b = a)
        by (intros a b Hab; congruence).
      apply Hexcerpt in H. subst excerpt. clear Hexcerpt.
      eexists. split; [reflexivity|].
      destruct (Nat.ltb_spec 300 (String.length cleaned)); [|lia].
      rewrite length_append. pose proof (take_length 297 cleaned).
      change (String.length "...") with 3%nat. lia. }
  destruct Hshape as (raw & -> & Hlen).
  pose proof (strip_length raw). pose proof (strip_clean raw) as [? ?].
  repeat split; try assumption; try lia.
  intros s other ->. exact H.
Qed.

Section WithLibraries.
Context {L : Libraries} {X : Extractors}.

(** X2.  A cleaned title or author is normalized: words separated by single
    spaces, no other whitespace, none at either end.  [None] and the empty
    string give the empty string. *)
Theorem clean_text_is_normalized :
  (forall text : option string, normalized (_clean_text text))
  /\ _clean_text None = ""
  /\ _clean_text (Some "") = "".
Proof.
  split; [|split; reflexivity].
  intros [text|]; unfold _clean_text; [|split; reflexivity].
  destruct (String.eqb text ""); [split; reflexivity|].
  apply strip_collapse_normalized.
Qed.

(** *** What a fetch can return, and how many calls it makes *)

Lemma count_gets_get (u : string) (t : Z) (events : list Event) :
  count_gets (Get u t :: events) = S (count_gets events).
Proof. reflexivity. Qed.

Lemma count_gets_sleep (k : SleepKind) (q : SourceModel.PyFloat)
    (events : list Event) :
  count_gets (Sleep k q :: events) = count_gets events.
Proof. reflexivity. Qed.

Lemma retry_loop_bounds (feed_url : string) (remaining : nat) :
  forall (attempt : nat) (last_error : option string),
    let '(_, _, events) := retry_loop remaining attempt feed_url last_error in
    (count_gets events <= remaining)%nat
    /\ Z.of_nat (length (sleeps_of Backoff events))
       <= Z.max 0 (MAX_RETRIES settings - 1 - Z.of_nat attempt)
    /\ sleeps_of RequestDelay events = [].
Proof.
  induction remaining as [|remaining IH]; intros attempt last_error.
  - cbn. repeat split; lia.
  - cbn [retry_loop].
    assert (Hhandler : forall e,
      let '(_, _, events) :=
        (let '(feed_data, last_error', events) :=
           retry_loop remaining (S attempt) feed_url e in
         (feed_data, last_error',
          Get feed_url (REQUEST_TIMEOUT settings)
            :: backoff_sleep attempt ++ events)) in
      (count_gets events <= S remaining)%nat
      /\ Z.of_nat (length (sleeps_of Backoff events))
         <= Z.max 0 (MAX_RETRIES settings - 1 - Z.of_nat attempt)
      /\ sleeps_of RequestDelay events = []).
    { intros e. specialize (IH (S attempt) e).
      destruct (retry_loop remaining (S attempt) feed_url e)
        as [[fd le] events].
      destruct IH as (Hgets & Hback & Hdelay).
      unfold backoff_sleep.
      destruct (Z.ltb_spec (Z.of_nat attempt) (MAX_RETRIES settings - 1)).
      - cbn [app sleeps_of length].
        rewrite count_gets_get, count_gets_sleep, Nat2Z.inj_succ.
        repeat split; [lia|lia|exact Hdelay].
      - cbn [app sleeps_of].
        rewrite count_gets_get.
        repeat split; [lia|lia|exact Hdelay]. }
    destruct (attempt_once feed_url attempt) as [fd|msg|msg].
    + rewrite count_gets_get. cbn [sleeps_of length].
      change (count_gets []) with 0%nat. repeat split; lia.
    + apply Hhandler.
    + apply Hhandler.
Qed.

(** X3.  Whatever the network and the libraries do, one fetch makes at most
    [MAX_RETRIES] requests, sleeps for the request delay at most once, and
    backs off at most [MAX_RETRIES - 1] times. *)
Theorem fetch_feed_call_bounds :
  forall source : SourceModel.Source,
    let events := snd (fetch_feed source) in
    (count_gets events <= Z.to_nat (MAX_RETRIES settings))%nat
    /\ (length (sleeps_of RequestDelay events) <= 1)%nat
    /\ Z.of_nat (length (sleeps_of Backoff events))
       <= Z.max 0 (MAX_RETRIES settings - 1).
Proof.
  intros source. unfold fetch_feed.
  destruct (SourceModel.fetch_url source) as [feed_url|];
    [|cbn; repeat split; lia].
  destruct (String.eqb feed_url ""); [cbn; repeat split; lia|].
  destruct (request_pause source) as [delayed|msg] eqn:Hpause;
    [|cbn; repeat split; lia].
  pose proof (retry_loop_bounds feed_url (Z.to_nat (MAX_RETRIES settings))
                0%nat None) as Hloop.
  destruct (retry_loop (Z.to_nat (MAX_RETRIES settings)) 0 feed_url None)
    as [[feed_data last_error] events].
  destruct Hloop as (Hgets & Hback & Hdelay).
  assert (Hquiet : count_gets delayed = 0%nat
                   /\ (length (sleeps_of RequestDelay delayed) <= 1)%nat
                   /\ sleeps_of Backoff delayed = []).
  { unfold request_pause in Hpause.
    destruct (SourceModel.request_delay source) as [seconds|];
      [|injection Hpause as <-; cbn; repeat split; lia].
    destruct (SourceModel.float_truthy seconds);
      [|injection Hpause as <-; cbn; repeat split; lia].
    destruct (time_sleep seconds); [discriminate Hpause|].
    injection Hpause as <-. cbn. repeat split; lia. }
  destruct Hquiet as (Hq1 & Hq2 & Hq3).
  assert (Hall :
    (count_gets (delayed ++ events) <= Z.to_nat (MAX_RETRIES settings))%nat
    /\ (length (sleeps_of RequestDelay (delayed ++ events)) <= 1)%nat
    /\ Z.of_nat (length (sleeps_of Backoff (delayed ++ events)))
       <= Z.max 0 (MAX_RETRIES settings - 1)).
  { rewrite FetchFacts.count_gets_app, !FetchFacts.sleeps_of_app,
      Hdelay, Hq3, app_nil_r.
    cbn [app]. repeat split; lia. }
  destruct feed_data; exact Hall.
Qed.

(** X4.  A fetch returns success with no error, or failure with no article and
    an error message that is not empty. *)
Theorem fetch_feed_result_shape :
  forall source : SourceModel.Source,
    let '(success, articles, error) := fst (fetch_feed source) in
    (success = true /\ error = None)
    \/ (success = false /\ articles = []
        /\ exists msg, error = Some msg /\ msg <> "").
Proof.
  intros source. unfold fetch_feed.
  destruct (SourceModel.fetch_url source) as [feed_url|];
    [|right; repeat split; eexists; split; [reflexivity|discriminate]].
  destruct (String.eqb feed_url "");
    [right; repeat split; eexists; split; [reflexivity|discriminate]|].
  destruct (request_pause source) as [delayed|msg];
    [|right; repeat split; eexists; split; [reflexivity|discriminate]].
  destruct (retry_loop (Z.to_nat (MAX_RETRIES settings)) 0 feed_url None)
    as [[[feed_data|] last_error] events]; [left; now split|].
  right. repeat split. eexists. split; [reflexivity|].
  destruct last_error as [e|]; [|discriminate].
  destruct (String.eqb_spec e ""); [discriminate|assumption].
Qed.

Lemma extracted_categories (feed_data : ParsedFeed)
    (source : SourceModel.Source) :
  Forall (fun article =>
            category article = "editorial" \/ category article = "opinion")
         (_extract_articles_from_feed feed_data source).
Proof.
  apply List.Forall_forall. intros article Hin.
  apply ExtractionFacts.extract_entries_from in Hin.
  destruct Hin as (entry & _ & He).
  apply ExtractionFacts.extracted_category in He.
  now apply ExtractionFacts.extract_category_values in He.
Qed.

Lemma filter_keeps_accepted (articles : list ArticleData)
    (source : SourceModel.Source) :
  Forall (fun article => _is_editorial_content article source = true)
         articles ->
  _filter_editorial_articles articles source = map mark articles.
Proof.
  induction 1 as [|article articles Hacc _ IH]; [reflexivity|].
  cbn [_filter_editorial_articles map]. now rewrite Hacc, IH.
Qed.

(** X5.  Every article a fetch returns carries both flags, exactly one of them
    true, and the true one is the one its category names. *)
Theorem fetched_articles_are_flagged :
  forall source : SourceModel.Source,
    Forall (fun article =>
              (category article = "editorial"
               /\ is_editorial article = Some true
               /\ is_opinion article = Some false)
              \/ (category article = "opinion"
                  /\ is_editorial article = Some false
                  /\ is_opinion article = Some true))
           (snd (fst (fst (fetch_feed source)))).
Proof.
  intros source. unfold fetch_feed.
  destruct (SourceModel.fetch_url source) as [feed_url|]; [|constructor].
  destruct (String.eqb feed_url ""); [constructor|].
  destruct (request_pause source) as [delayed|msg]; [|constructor].
  destruct (retry_loop (Z.to_nat (MAX_RETRIES settings)) 0 feed_url None)
    as [[[feed_data|] last_error] events]; [|constructor].
  cbn [fst snd].
  pose proof (extracted_categories feed_data source) as Hcategories.
  rewrite filter_keeps_accepted.
  - apply List.Forall_forall. intros marked Hin.
    apply List.in_map_iff in Hin. destruct Hin as (article & <- & Hin).
    rewrite List.Forall_forall in Hcategories.
    destruct (Hcategories article Hin) as [Hc|Hc]; cbn; rewrite Hc;
      [left|right]; now repeat split.
  - apply List.Forall_forall. intros article Hin.
    rewrite List.Forall_forall in Hcategories.
    apply ExtractionFacts.category_accepted. now apply Hcategories.
Qed.

End WithLibraries.

End ScraperExtras.

(** ** [validate_feed_url] *)

Module FeedValidation.
Import RssScraper.

Section WithLibraries.
Context {L : Libraries} {X : Extractors}.

(** [str(feed_data.bozo_exception)] *)
Variable bozo_exception : ParsedFeed -> string.

(** [validate_feed_url]: the returned pair and the calls made.  The
    request is the first of the call and has its own timeout of 10. *)
Definition validate_feed_url (url : string)
    : (bool * option string) * list Event :=
  let request := Get url 10 in
  match session_get 0 url with
  | Response status_code reason content =>
      match raise_for_status status_code reason url with
      | Raise msg =>
          ((false, Some ("Failed to fetch RSS feed: " +:+ msg)), [request])
      | Ok _ =>
          match feedparser_parse content with
          | Raise msg =>
              ((false, Some ("RSS feed validation error: " +:+ msg)),
               [request])
          | Ok feed_data =>
              match entries feed_data with
              | [] =>
                  if bozo feed_data then
                    ((false,
                      Some ("Invalid RSS feed format: "
                            +:+ bozo_exception feed_data)), [request])
                  else ((false, Some "RSS feed contains no entries"),
                        [request])
              | _ :: _ => ((true, None), [request])
              end
          end
      end
  | RequestException _ msg =>
      ((false, Some ("Failed to fetch RSS feed: " +:+ msg)), [request])
  | OtherException msg =>
      ((false, Some ("RSS feed validation error: " +:+ msg)), [request])
  end.

(** X6.  Validation makes exactly one request, with no retry and no sleep. It
    accepts a URL exactly when that request ends as an attempt of [fetch_feed]
    must to give a feed, with no exception, no error status and a content that
    parses, and the feed has at least one entry, malformed or not; and a
    rejection always comes with a message. *)
Theorem validation_accepts_feeds_with_entries :
  forall url : string,
    snd (validate_feed_url url) = [Get url 10]
    /\ (fst (validate_feed_url url) = (true, None)
        <-> exists feed_data,
              attempt_once url 0 = Fetched feed_data
              /\ entries feed_data <> [])
    /\ (fst (fst (validate_feed_url url)) = false ->
        exists msg, snd (fst (validate_feed_url url)) = Some msg).
Proof.
  intros url.
  assert (Hiff : fst (validate_feed_url url) = (true, None)
                 <-> exists feed_data,
                       attempt_once url 0 = Fetched feed_data
                       /\ entries feed_data <> []).
  { unfold validate_feed_url, attempt_once.
    destruct (session_get 0 url) as [status_code reason content|kind msg|msg].
    - destruct (raise_for_status status_code reason url) as [[]|msg].
      + destruct (feedparser_parse content) as [feed_data|msg].
        * destruct (entries feed_data) as [|e es] eqn:Hentries.
          -- split.
             ++ destruct (bozo feed_data); discriminate.
             ++ intros (fd & Hfd & Hne). injection Hfd as <-. congruence.
          -- split; [|reflexivity]. intros _. exists feed_data.
             split; [reflexivity|congruence].
        * split; [discriminate|]. intros (fd & Hfd & _). discriminate Hfd.
      + split; [discriminate|]. intros (fd & Hfd & _). discriminate Hfd.
    - split; [discriminate|]. intros (fd & Hfd & _). discriminate Hfd.
    - split; [discriminate|]. intros (fd & Hfd & _). discriminate Hfd. }
  split; [|split; [exact Hiff|]].
  - unfold validate_feed_url.
    destruct (session_get 0 url) as [status_code reason content|kind msg|msg];
      try reflexivity.
    destruct (raise_for_status status_code reason url) as [[]|msg];
      try reflexivity.
    destruct (feedparser_parse content) as [feed_data|msg]; try reflexivity.
    destruct (entries feed_data); [|reflexivity].
    destruct (bozo feed_data); reflexivity.
  - unfold validate_feed_url.
    destruct (session_get 0 url) as [status_code reason content|kind msg|msg];
      try (intros _; eexists; reflexivity).
    destruct (raise_for_status status_code reason url) as [[]|msg];
      try (intros _; eexists; reflexivity).
    destruct (feedparser_parse content) as [feed_data|msg];
      try (intros _; eexists; reflexivity).
    destruct (entries feed_data); [|discriminate].
    destruct (bozo feed_data); intros _; eexists; reflexivity.
Qed.

End WithLibraries.

End FeedValidation.

(** ** More of [app/models/source.py] *)

Module SourceExtras.
Import SourceModel.

(** Assignment to the two keyword lists of [self]. *)
Definition with_keywords (self : Source) (included excluded : list string)
    : Source :=
  {| id := id self; name := name self; url := url self;
     source_type := source_type self; language := language self;
     rss_url := rss_url self; editorial_url := editorial_url self;
     editorial_rss := editorial_rss self;
     health_status := health_status self;
     last_successful_fetch := last_successful_fetch self;
     last_error := last_error self; error_count := error_count self;
     request_delay := request_delay self;
     max_articles_per_fetch := max_articles_per_fetch self;
     success_rate := success_rate self;
     keyword_filters := included; exclude_keywords := excluded;
     total_successful_fetches := total_successful_fetches self;
     total_failed_fetches := total_failed_fetches self |}.

(** [Source.add_keyword_filter] *)
Definition add_keyword_filter (self : Source) (keyword : string) : Source :=
  if PyStr.mem keyword (keyword_filters self) then self
  else with_keywords self (keyword_filters self ++ [keyword])
         (exclude_keywords self).

(** [Source.add_exclude_keyword] *)
Definition add_exclude_keyword (self : Source) (keyword : string) : Source :=
  if PyStr.mem keyword (exclude_keywords self) then self
  else with_keywords self (keyword_filters self)
         (exclude_keywords self ++ [keyword]).

(** Instants and durations are numbers of microseconds, the resolution of
    [datetime]; [total_seconds() >= m * 60] compares microseconds with
    [m * 60 * 1000000].  [total_seconds()] is the float nearest to the
    number of seconds, which compares with a bound below 2^33 seconds, some
    270 years, as the microseconds do. *)
Definition minutes (m : Z) : Z := m * 60 * 1000000.

(** [Source.needs_fetch], on the columns it reads and the value of
    [datetime.utcnow()]. *)
Definition needs_fetch (is_active : bool) (last_fetched : option Z)
    (fetch_interval_minutes : Z) (utcnow : Z) : bool :=
  if negb is_active then false else
  match last_fetched with
  | None => true
  | Some fetched => minutes fetch_interval_minutes <=? utcnow - fetched
  end.

(** [Source.has_recent_fetch] *)
Definition has_recent_fetch (last_fetched : option Z)
    (fetch_interval_minutes : Z) (utcnow : Z) : bool :=
  match last_fetched with
  | None => false
  | Some fetched =>
      let max_age_minutes := fetch_interval_minutes * 2 in
      utcnow - fetched <=? minutes max_age_minutes
  end.

Definition succeeded (o : Outcome) : bool :=
  match o with
  | Succeeded => true
  | Failed _ => false
  end.

(** The numbers of successes and of failures in a history. *)
Definition successes (history : list Outcome) : Z :=
  Z.of_nat (length (List.filter succeeded history)).

Definition failures (history : list Outcome) : Z :=
  Z.of_nat (length (List.filter (fun o => negb (succeeded o)) history)).

Lemma mem_In (x : string) (xs : list string) :
  PyStr.mem x xs = true <-> In x xs.
Proof.
  unfold PyStr.mem. rewrite existsb_exists. split.
  - intros (y & Hin & Heq). apply String.eqb_eq in Heq. now subst.
  - intros Hin. exists x. split; [exact Hin|apply String.eqb_refl].
Qed.

Lemma mem_not_In (x : string) (xs : list string) :
  PyStr.mem x xs = false <-> ~ In x xs.
Proof.
  rewrite <- mem_In. destruct (PyStr.mem x xs); split; congruence.
Qed.

(** X7.  Adding a keyword leaves it in the list once: the list keeps its
    earlier keywords in place, stays free of duplicates if it was, and a
    second addition changes nothing; the other list is not touched, and
    adding to it, any keyword, before or after gives the same source. *)
Theorem add_keyword_filter_is_idempotent :
  forall (self : Source) (keyword : string),
    let added := add_keyword_filter self keyword in
    In keyword (keyword_filters added)
    /\ (exists tail, keyword_filters added = keyword_filters self ++ tail)
    /\ (List.NoDup (keyword_filters self) ->
        List.NoDup (keyword_filters added))
    /\ add_keyword_filter added keyword = added
    /\ exclude_keywords added = exclude_keywords self
    /\ (forall other,
          add_exclude_keyword added other
          = add_keyword_filter (add_exclude_keyword self other) keyword).
Proof.
  intros self keyword added. unfold added, add_keyword_filter.
  destruct (PyStr.mem keyword (keyword_filters self)) eqn:Hmem.
  - rewrite Hmem. repeat split; auto.
    + now apply mem_In.
    + exists []. now rewrite app_nil_r.
    + intros other. unfold add_exclude_keyword.
      destruct (PyStr.mem other (exclude_keywords self));
        unfold add_keyword_filter;
        cbn [keyword_filters exclude_keywords with_keywords];
        now rewrite Hmem.
  - assert (Hnow : PyStr.mem keyword (keyword_filters self ++ [keyword]) = true)
      by (apply mem_In, in_or_app; right; now left).
    cbn [keyword_filters exclude_keywords with_keywords]. rewrite Hnow.
    repeat split.
    + apply in_or_app. right. now left.
    + now exists [keyword].
    + intros Hnodup. apply List.NoDup_app. repeat split; auto.
      * constructor; [intros []|constructor].
      * intros x Hx [<-|[]]. apply mem_not_In in Hmem. contradiction.
    + intros other. unfold add_exclude_keyword.
      cbn [keyword_filters exclude_keywords with_keywords].
      destruct (PyStr.mem other (exclude_keywords self));
        unfold add_keyword_filter;
        cbn [keyword_filters exclude_keywords with_keywords];
        now rewrite Hmem.
Qed.

(** X8.  An inactive source is never due; an active source never fetched is
    due; a source that is due stays due as time passes; and, for an interval
    that is not negative, an active source with no recent fetch is due. *)
Theorem due_sources :
  forall (last_fetched : option Z) (fetch_interval_minutes utcnow : Z),
    needs_fetch false last_fetched fetch_interval_minutes utcnow = false
    /\ needs_fetch true None fetch_interval_minutes utcnow = true
    /\ (forall is_active later,
          utcnow <= later ->
          needs_fetch is_active last_fetched fetch_interval_minutes utcnow
            = true ->
          needs_fetch is_active last_fetched fetch_interval_minutes later
            = true)
    /\ (0 <= fetch_interval_minutes ->
        has_recent_fetch last_fetched fetch_interval_minutes utcnow = false ->
        needs_fetch true last_fetched fetch_interval_minutes utcnow = true).
Proof.
  intros last_fetched fetch_interval_minutes utcnow.
  unfold needs_fetch, has_recent_fetch, minutes.
  repeat split.
  - intros [|] later Hlater; cbn [negb]; [|discriminate].
    destruct last_fetched as [fetched|]; [|reflexivity].
    rewrite !Z.leb_le. lia.
  - intros Hinterval. cbn [negb].
    destruct last_fetched as [fetched|]; [|reflexivity].
    rewrite Z.leb_gt, Z.leb_le. lia.
Qed.

Lemma successes_snoc (history : list Outcome) (o : Outcome) :
  successes (history ++ [o])
  = successes history + (if succeeded o then 1 else 0).
Proof.
  unfold successes. rewrite List.filter_app, length_app. cbn [List.filter].
  destruct (succeeded o); cbn [length]; lia.
Qed.

Lemma failures_snoc (history : list Outcome) (o : Outcome) :
  failures (history ++ [o])
  = failures history + (if succeeded o then 0 else 1).
Proof.
  unfold failures. rewrite List.filter_app, length_app. cbn [List.filter].
  destruct (succeeded o); cbn [negb length]; lia.
Qed.

Lemma update_counters (s : Source) (ok : bool) (msg : option string) :
  total_successful_fetches (update_health_status s ok msg)
  = total_successful_fetches s + (if ok then 1 else 0)
  /\ total_failed_fetches (update_health_status s ok msg)
     = total_failed_fetches s + (if ok then 0 else 1).
Proof.
  unfold update_health_status.
  destruct ok; destruct (0 <? _); cbn; split; lia.
Qed.

Lemma update_success_rate (s : Source) (ok : bool) (msg : option string) :
  let s' := update_health_status s ok msg in
  0 < total_successful_fetches s' + total_failed_fetches s' ->
  success_rate s'
  = TrueDiv (total_successful_fetches s')
      (total_successful_fetches s' + total_failed_fetches s').
Proof.
  unfold update_health_status.
  destruct ok; cbn zeta;
    match goal with
    | |- context [if 0 <? ?t then _ else _] =>
        destruct (Z.ltb_spec 0 t) as [Hpos|Hnone]; cbn in *; intros H;
          [reflexivity|lia]
    end.
Qed.

(** X9.  The two fetch counters count the outcomes recorded: each outcome
    adds one to exactly one of them.  On a source whose counters are not
    negative, once an outcome is recorded the success rate is the float
    that the division of the successful fetches by all the fetches gives,
    two ints of which the first is not negative, the second is positive
    and not less than the first. *)
Theorem fetch_counters_count_outcomes :
  forall (s : Source) (history : list Outcome),
    let s' := record_outcomes s history in
    total_successful_fetches s'
      = total_successful_fetches s + successes history
    /\ total_failed_fetches s' = total_failed_fetches s + failures history
    /\ successes history + failures history = Z.of_nat (length history)
    /\ (0 <= total_successful_fetches s -> 0 <= total_failed_fetches s ->
        history <> [] ->
        success_rate s'
        = TrueDiv (total_successful_fetches s')
            (total_successful_fetches s' + total_failed_fetches s')
        /\ 0 <= total_successful_fetches s'
           <= total_successful_fetches s' + total_failed_fetches s'
        /\ 0 < total_successful_fetches s' + total_failed_fetches s').
Proof.
  intros s history.
  assert (Hcount :
    total_successful_fetches (record_outcomes s history)
      = total_successful_fetches s + successes history
    /\ total_failed_fetches (record_outcomes s history)
       = total_failed_fetches s + failures history
    /\ successes history + failures history = Z.of_nat (length history)).
  { induction history as [|o history IH] using rev_ind.
    - change (record_outcomes s []) with s.
      change (successes []) with 0. change (failures []) with 0.
      change (Z.of_nat (length (@nil Outcome))) with 0.
      repeat split; lia.
    - destruct IH as (IH1 & IH2 & IH3).
      rewrite SourceFacts.record_outcomes_snoc, successes_snoc,
        failures_snoc, length_app.
      destruct o as [|msg]; cbn [record_outcome];
        [destruct (update_counters (record_outcomes s history) true None)
           as [-> ->]
        |destruct (update_counters (record_outcomes s history) false msg)
           as [-> ->]];
        cbn [succeeded length]; repeat split; lia. }
  destruct Hcount as (H1 & H2 & H3). cbn zeta.
  split; [exact H1|]. split; [exact H2|]. split; [exact H3|].
  intros Hok Hfailed Hne.
  assert (Hsucc : 0 <= successes history) by (unfold successes; lia).
  assert (Hfail : 0 <= failures history) by (unfold failures; lia).
  assert (Hlen : 0 < Z.of_nat (length history))
    by (destruct history; [congruence|cbn [length]; lia]).
  split; [|lia].
  destruct history as [|o history _] using rev_ind; [congruence|].
  rewrite SourceFacts.record_outcomes_snoc in *.
  set (before := record_outcomes s history) in *.
  destruct o as [|msg]; cbn [record_outcome] in *;
    apply update_success_rate; cbn zeta; lia.
Qed.

End SourceExtras.

(** ** More of [app/services/summarization.py] *)

Module RouterExtras.
Import Summarization TextFacts.

(** The text ends with a full stop, an exclamation mark or a question
    mark. *)
Definition ends_sentence (s : string) : bool :=
  PyStr.endswith s "." || PyStr.endswith s "!" || PyStr.endswith s "?".

(** [generate_summary_hash] *)
Definition generate_summary_hash (content model_name : string) : string :=
  let combined := content +:+ model_name in
  Md5.hexdigest (PyStr.encode_utf8 combined).

(** The configuration [_prepare_content_for_summarization] reads. *)
Definition config_for (model_name : string) : ModelConfig :=
  match model_configs !! model_name with
  | Some config => config
  | None => bart_large_cnn
  end.

Lemma endswith_snoc (s : string) (c : ascii) :
  PyStr.endswith (s +:+ String c "") (String c "") = true.
Proof.
  unfold PyStr.endswith. rewrite rev_append.
  change (PyStr.rev (String c "")) with (String c "").
  rewrite append_cons. cbn [PyStr.startswith]. rewrite Ascii.eqb_refl.
  cbn [andb]. now destruct ("" +:+ PyStr.rev s).
Qed.

Lemma endswith_char (s : string) (c : ascii) :
  PyStr.endswith s (String c "") = true ->
  exists x, s = x +:+ String c "".
Proof.
  unfold PyStr.endswith. change (PyStr.rev (String c "")) with (String c "").
  destruct (PyStr.rev s) as [|d r] eqn:Hrev; [discriminate|].
  cbn [PyStr.startswith]. intros H. apply andb_true_iff in H as [H _].
  apply Ascii.eqb_eq in H. subst d.
  exists (PyStr.rev r).
  rewrite <- (rev_involutive s), Hrev. apply rev_cons.
Qed.

Lemma ends_sentence_char (s : string) :
  ends_sentence s = true ->
  exists x c, s = x +:+ String c "" /\ PyStr.isspace c = false
              /\ ends_sentence (x +:+ String c "") = true.
Proof.
  intros H. pose proof H as Hends. unfold ends_sentence in H.
  apply orb_true_iff in H as [H|H]; [apply orb_true_iff in H as [H|H]|];
    apply endswith_char in H as [x ->]; eexists _, _;
    (split; [reflexivity|split; [reflexivity|exact Hends]]).
Qed.

Lemma collapse_snoc (x : string) (c : ascii) :
  PyStr.isspace c = false ->
  forall in_run,
    PyStr.collapse_ws_from in_run (x +:+ String c "")
    = PyStr.collapse_ws_from in_run x +:+ String c "".
Proof.
  intros Hc. induction x as [|d x IH]; intros in_run.
  - change ("" +:+ String c "") with (String c "").
    cbn [PyStr.collapse_ws_from]. now rewrite Hc.
  - rewrite append_cons. cbn [PyStr.collapse_ws_from].
    destruct (PyStr.isspace d); [destruct in_run|];
      rewrite IH; reflexivity.
Qed.

Lemma collapse_start (s : string) :
  starts_with_space (PyStr.collapse_ws s) = starts_with_space s.
Proof.
  destruct s as [|c s]; [reflexivity|].
  unfold PyStr.collapse_ws. cbn [PyStr.collapse_ws_from starts_with_space].
  destruct (PyStr.isspace c) eqn:Hc; cbn [starts_with_space];
    [reflexivity|exact Hc].
Qed.

Lemma ends_with_space_snoc (x : string) (c : ascii) :
  ends_with_space (x +:+ String c "") = PyStr.isspace c.
Proof.
  unfold ends_with_space. rewrite rev_append.
  change (PyStr.rev (String c "")) with (String c ""). reflexivity.
Qed.

Lemma strip_artifacts_start (artifacts : list string) :
  forall summary,
    starts_with_space summary = false ->
    starts_with_space (strip_artifacts artifacts summary) = false.
Proof.
  induction artifacts as [|artifact artifacts IH]; intros summary H;
    [exact H|].
  cbn [strip_artifacts]. apply IH.
  destruct (PyStr.startswith summary artifact); [|exact H].
  apply strip_clean.
Qed.

(** The shape of the text [_post_process_summary] returns. *)
Lemma post_process_shape :
  forall summary language : string,
    let processed := _post_process_summary summary language in
    (processed = "" \/ ends_sentence processed = true)
    /\ normalized processed.
Proof.
  intros summary language. unfold _post_process_summary.
  destruct (String.eqb summary ""); [split; [now left|split; reflexivity]|].
  set (stripped :=
         strip_artifacts
           ["Summary:"; "In summary,"; "To summarize,"; "In conclusion,"]
           (PyStr.strip summary)).
  assert (Hstart : starts_with_space stripped = false)
    by (apply strip_artifacts_start, strip_clean).
  fold (ends_sentence stripped).
  set (ended := if negb (String.eqb stripped "")
                   && negb (ends_sentence stripped)
                then stripped +:+ "." else stripped).
  assert (Hended : ended = ""
                   \/ (ends_sentence ended = true
                       /\ starts_with_space ended = false)).
  { unfold ended. destruct (String.eqb_spec stripped "") as [->|Hne];
      [now left|].
    cbn [negb andb]. destruct (ends_sentence stripped) eqn:Hs;
      cbn [negb]; right; [now split|].
    split.
    - unfold ends_sentence. now rewrite endswith_snoc.
    - destruct stripped; [congruence|exact Hstart]. }
  destruct Hended as [->|[Hs Hclean]]; [split; [now left|split; reflexivity]|].
  destruct (ends_sentence_char ended Hs) as (x & c & -> & Hc & Hs').
  unfold PyStr.collapse_ws in *. rewrite collapse_snoc by exact Hc.
  split; [|split].
  - right. unfold ends_sentence in *.
    apply orb_true_iff in Hs' as [Hs'|Hs'];
      [apply orb_true_iff in Hs' as [Hs'|Hs']|];
      apply endswith_char in Hs' as [y Hy];
      apply (f_equal PyStr.rev) in Hy; rewrite !rev_append in Hy;
      injection Hy as -> _; rewrite endswith_snoc;
      rewrite ?orb_true_r; reflexivity.
  - rewrite <- collapse_snoc by exact Hc.
    apply (tidy_from_start _ false); [apply tidy_collapse|].
    change (PyStr.collapse_ws_from false (x +:+ String c ""))
      with (PyStr.collapse_ws (x +:+ String c "")).
    now rewrite collapse_start.
  - now rewrite ends_with_space_snoc.
Qed.

(** X10.  A post-processed summary is empty or ends a sentence, and it is
    normalized: single spaces between words, no whitespace around. *)
Theorem post_processed_summary_ends_a_sentence :
  forall summary language : string,
    let processed := _post_process_summary summary language in
    (processed = "" \/ ends_sentence processed = true)
    /\ normalized processed.
Proof. exact post_process_shape. Qed.

(** The arguments of a backend call. *)
Definition call_model (call : BackendCall) : string :=
  match call with
  | OpenAI _ model_name _ _ => model_name
  | HuggingFace _ model_name => model_name
  end.

Definition call_content (call : BackendCall) : string :=
  match call with
  | OpenAI content _ _ _ => content
  | HuggingFace content _ => content
  end.

(** The [type] of the configurations that are routed to the method
    called. *)
Definition call_type (call : BackendCall) : string :=
  match call with
  | OpenAI _ _ _ _ => "openai"
  | HuggingFace _ _ => "huggingface"
  end.

Lemma known_models (name : string) (config : ModelConfig) :
  model_configs !! name = Some config ->
  0 < max_input_length config
  /\ (type config = "openai" \/ type config = "huggingface").
Proof.
  unfold model_configs. intros H. apply elem_of_list_to_map_2 in H.
  repeat (apply elem_of_cons in H as [H|H];
          [injection H as -> ->; split; [reflexivity|auto]|]).
  now apply elem_of_nil in H.
Qed.

Lemma config_for_known (name : string) (config : ModelConfig) :
  model_configs !! name = Some config -> config_for name = config.
Proof. unfold config_for. now intros ->. Qed.

Lemma config_for_takes_input (name : string) :
  0 < max_input_length (config_for name).
Proof.
  unfold config_for. destruct (model_configs !! name) as [config|] eqn:H;
    [apply (known_models name config H)|reflexivity].
Qed.

Section WithBackends.
Context {B : Backends}.

(** The words of the text [_prepare_content_for_summarization] returns. *)
Lemma prepared_words :
  forall content title model_name : string,
    let limit := max_input_length (config_for model_name) in
    let full_text :=
      title +:+ PyStr.newline +:+ PyStr.newline +:+ _clean_content content in
    let prepared :=
      _prepare_content_for_summarization content title model_name in
    PyStr.split prepared = take (Z.to_nat limit) (PyStr.split full_text)
    /\ Z.of_nat (length (PyStr.split prepared)) <= limit
    /\ (Z.of_nat (length (PyStr.split full_text)) <= limit ->
        prepared = full_text).
Proof.
  intros content title model_name limit full_text prepared.
  pose proof (config_for_takes_input model_name) as Hlimit.
  fold limit in Hlimit.
  assert (Hprepared :
            prepared
            = if limit <? Z.of_nat (length (PyStr.split full_text))
              then PyStr.join " "
                     (take (Z.to_nat limit) (PyStr.split full_text))
              else full_text) by reflexivity.
  destruct (Z.ltb_spec limit (Z.of_nat (length (PyStr.split full_text))))
    as [Hlong|Hfits].
  - assert (Hwords :
              PyStr.split prepared
              = take (Z.to_nat limit) (PyStr.split full_text)).
    { rewrite Hprepared. apply WordFacts.split_join, Forall_take.
      apply WordFacts.split_words. }
    split; [exact Hwords|]. split; [|lia].
    rewrite Hwords, length_take. lia.
  - rewrite Hprepared. split; [|split; [exact Hfits|reflexivity]].
    rewrite take_ge by lia. reflexivity.
Qed.

(** X11.  The words of the prepared text are the first [max_input_length]
    words of the title followed by the cleaned content, for the model named or
    for bart-large-cnn when the name is unknown; a text within the limit is
    passed on as it is, line breaks included. *)
Theorem prepared_content_keeps_the_first_words :
  forall content title model_name : string,
    let limit := max_input_length (config_for model_name) in
    let full_text :=
      title +:+ PyStr.newline +:+ PyStr.newline +:+ _clean_content content in
    let prepared :=
      _prepare_content_for_summarization content title model_name in
    PyStr.split prepared = take (Z.to_nat limit) (PyStr.split full_text)
    /\ Z.of_nat (length (PyStr.split prepared)) <= limit
    /\ (Z.of_nat (length (PyStr.split full_text)) <= limit ->
        prepared = full_text).
Proof. exact prepared_words. Qed.

(** [summarize_article] reaches a backend at most once. *)
Lemma single_backend_call (article : Article)
    (model_name custom_prompt : option string) :
  (length (snd (summarize_article article model_name custom_prompt)) <= 1)%nat.
Proof.
  unfold summarize_article.
  destruct (content article) as [text|]; [|cbn; lia].
  destruct (String.eqb text "" || _); [cbn; lia|].
  destruct (model_configs !! _) as [config|]; [|cbn; lia].
  destruct (String.eqb (type config) "openai").
  - destruct (_summarize_with_openai _ _ _ _) as [[[|] [generated|]] error];
      try destruct (String.eqb generated ""); cbn; lia.
  - destruct (_summarize_with_huggingface _ _) as [[[|] [generated|]] error];
      try destruct (String.eqb generated ""); cbn; lia.
Qed.

(** X12.  A call of [summarize_article] reaches a backend at most once. The
    call names a configured model, goes to the method of that model's type,
    and passes a text of no more words than the model takes; the model is the
    one requested whenever one was requested. *)
Theorem backend_call_follows_the_model :
  forall (article : Article) (model_name custom_prompt : option string),
    let calls := snd (summarize_article article model_name custom_prompt) in
    (length calls <= 1)%nat
    /\ Forall (fun call =>
                 (exists config,
                    model_configs !! call_model call = Some config
                    /\ type config = call_type call
                    /\ Z.of_nat (length (PyStr.split (call_content call)))
                       <= max_input_length config)
                 /\ (forall requested,
                       model_name = Some requested -> requested <> "" ->
                       call_model call = requested))
              calls.
Proof.
  intros article model_name custom_prompt. unfold summarize_article.
  set (chosen :=
         match
           match model_name with
           | Some requested =>
               if String.eqb requested "" then None else Some requested
           | None => None
           end
         with
         | Some requested => requested
         | None =>
             match
               model_configs !! PyStr.after_last "/" DEFAULT_SUMMARY_MODEL
             with
             | Some _ => PyStr.after_last "/" DEFAULT_SUMMARY_MODEL
             | None => "bart-large-cnn"
             end
         end).
  assert (Hrequested : forall requested,
             model_name = Some requested -> requested <> "" ->
             chosen = requested).
  { intros requested -> Hne. unfold chosen.
    now destruct (String.eqb_spec requested ""). }
  destruct (content article) as [text|]; [|cbn; split; [lia|constructor]].
  destruct (String.eqb text ""
            || (Z.of_nat (String.length (PyStr.strip text)) <? 100));
    [cbn; split; [lia|constructor]|].
  destruct (model_configs !! chosen) as [config|] eqn:Hconfig;
    [|cbn; split; [lia|constructor]].
  pose proof (prepared_words
                text (title article) chosen) as (_ & Hwords & _).
  rewrite (config_for_known chosen config Hconfig) in Hwords.
  destruct (known_models chosen config Hconfig) as [_ Htype].
  destruct (String.eqb_spec (type config) "openai") as [Hopenai|Hother].
  - destruct (_summarize_with_openai _ _ _ _) as [[[|] [generated|]] error];
      try destruct (String.eqb generated "");
      (split; [cbn; lia|]);
      (constructor; [|constructor]);
      (split; [exists config; cbn [call_model call_type call_content];
                      auto|exact Hrequested]).
  - destruct Htype as [Htype|Htype]; [contradiction|].
    destruct (_summarize_with_huggingface _ _) as [[[|] [generated|]] error];
      try destruct (String.eqb generated "");
      (split; [cbn; lia|]);
      (constructor; [|constructor]);
      (split; [exists config; cbn [call_model call_type call_content];
                      auto|exact Hrequested]).
Qed.

(** What [summarize_article] returns and stores. *)
Lemma summarize_article_outcome :
  forall (article : Article) (model_name custom_prompt : option string),
    let '(result, article', calls) :=
      summarize_article article model_name custom_prompt in
    match result with
    | (true, Some text, None) =>
        summary article' = Some text
        /\ is_summary_generated article' = true
        /\ normalized text
        /\ (text = "" \/ ends_sentence text = true)
        /\ (exists call,
              calls = [call]
              /\ metadata article' !! "summarization_model"
                 = Some (call_model call))
        /\ metadata article' !! "summarization_timestamp"
           = Some utcnow_isoformat
        /\ (forall key,
              key <> "summarization_model" ->
              key <> "summarization_timestamp" ->
              metadata article' !! key = metadata article !! key)
        /\ id article' = id article /\ title article' = title article
        /\ content article' = content article
        /\ language article' = language article
    | (false, None, _) => article' = article
    | _ => False
    end.
Proof.
  intros article model_name custom_prompt. unfold summarize_article.
  set (chosen :=
         match
           match model_name with
           | Some requested =>
               if String.eqb requested "" then None else Some requested
           | None => None
           end
         with
         | Some requested => requested
         | None =>
             match
               model_configs !! PyStr.after_last "/" DEFAULT_SUMMARY_MODEL
             with
             | Some _ => PyStr.after_last "/" DEFAULT_SUMMARY_MODEL
             | None => "bart-large-cnn"
             end
         end).
  destruct (content article) as [text|] eqn:Hcontent; [|reflexivity].
  destruct (String.eqb text ""
            || (Z.of_nat (String.length (PyStr.strip text)) <? 100));
    [reflexivity|].
  destruct (model_configs !! chosen) as [config|]; [|reflexivity].
  assert (Hstored : forall generated call,
    let text' := _post_process_summary generated (language article) in
    let article' :=
      {| id := id article; title := title article; content := Some text;
         language := language article; summary := Some text';
         is_summary_generated := true;
         metadata :=
           <["summarization_timestamp" := utcnow_isoformat]>
             (<["summarization_model" := call_model call]>
                (metadata article)) |} in
    summary article' = Some text'
    /\ is_summary_generated article' = true
    /\ normalized text'
    /\ (text' = "" \/ ends_sentence text' = true)
    /\ (exists call',
          [call] = [call']
          /\ metadata article' !! "summarization_model"
             = Some (call_model call'))
    /\ metadata article' !! "summarization_timestamp"
       = Some utcnow_isoformat
    /\ (forall key,
          key <> "summarization_model" ->
          key <> "summarization_timestamp" ->
          metadata article' !! key = metadata article !! key)
    /\ id article' = id article /\ title article' = title article
    /\ content article' = Some text
    /\ language article' = language article).
  { intros generated call text' article'.
    destruct (post_process_shape
                generated (language article)) as [Hends Hnormal].
    cbn [summary is_summary_generated metadata id title content language
         article'].
    repeat match goal with |- _ /\ _ => split end;
      try reflexivity; try assumption.
    - exists call. split; [reflexivity|].
      rewrite lookup_insert_ne by discriminate. apply lookup_insert_eq.
    - apply lookup_insert_eq.
    - intros key Hmodel Htime.
      now rewrite !lookup_insert_ne by congruence. }
  destruct (String.eqb (type config) "openai").
  - destruct (_summarize_with_openai _ _ _ _) as [[[|] [generated|]] error];
      try reflexivity.
    destruct (String.eqb generated ""); [reflexivity|].
    exact (Hstored generated
             (OpenAI (_prepare_content_for_summarization
                        text (title article) chosen)
                     chosen custom_prompt (language article))).
  - destruct (_summarize_with_huggingface _ _) as [[[|] [generated|]] error];
      try reflexivity.
    destruct (String.eqb generated ""); [reflexivity|].
    exact (Hstored generated
             (HuggingFace (_prepare_content_for_summarization
                             text (title article) chosen)
                          chosen)).
Qed.

(** X13.  [summarize_article] changes the article only when it returns
    success. Then the summary returned is the one stored, it is marked as
    generated, normalized and empty or ended as a sentence; the metadata name
    the configured model that was called, and the time; identifier, title,
    content, language and the other metadata are as before. A failure returns
    no summary. *)
Theorem article_changes_only_on_success :
  forall (article : Article) (model_name custom_prompt : option string),
    let '(result, article', calls) :=
      summarize_article article model_name custom_prompt in
    match result with
    | (true, Some text, None) =>
        summary article' = Some text
        /\ is_summary_generated article' = true
        /\ normalized text
        /\ (text = "" \/ ends_sentence text = true)
        /\ (exists call,
              calls = [call]
              /\ metadata article' !! "summarization_model"
                 = Some (call_model call))
        /\ metadata article' !! "summarization_timestamp"
           = Some utcnow_isoformat
        /\ (forall key,
              key <> "summarization_model" ->
              key <> "summarization_timestamp" ->
              metadata article' !! key = metadata article !! key)
        /\ id article' = id article /\ title article' = title article
        /\ content article' = content article
        /\ language article' = language article
    | (false, None, _) => article' = article
    | _ => False
    end.
Proof. exact summarize_article_outcome. Qed.

(** X14.  When no model is asked for, [None] or the empty string, an article
    with enough content always reaches a backend: the model is the last part
    of the configured default when that is a configured model, and
    bart-large-cnn otherwise, so the request is never rejected as naming an
    unknown model. *)
Theorem unspecified_model_reaches_a_backend :
  forall (article : Article) (model_name custom_prompt : option string)
         (text : string),
    model_name = None \/ model_name = Some "" ->
    content article = Some text ->
    (100 <= String.length (PyStr.strip text))%nat ->
    exists call,
      snd (summarize_article article model_name custom_prompt) = [call]
      /\ is_Some (model_configs !! call_model call)
      /\ (call_model call = PyStr.after_last "/" DEFAULT_SUMMARY_MODEL
          \/ (model_configs !! PyStr.after_last "/" DEFAULT_SUMMARY_MODEL
              = None
              /\ call_model call = "bart-large-cnn")).
Proof.
  intros article model_name custom_prompt text Hnone Hcontent Hlong.
  unfold summarize_article. rewrite Hcontent.
  assert (Htext : String.eqb text "" = false).
  { destruct (String.eqb_spec text "") as [->|]; [|reflexivity].
    cbn in Hlong. lia. }
  rewrite Htext. cbn [orb].
  destruct (Z.ltb_spec (Z.of_nat (String.length (PyStr.strip text))) 100);
    [lia|].
  set (fallback := PyStr.after_last "/" DEFAULT_SUMMARY_MODEL).
  assert (Hchosen :
    match
      match model_name with
      | Some requested =>
          if String.eqb requested "" then None else Some requested
      | None => None
      end
    with
    | Some requested => requested
    | None =>
        match model_configs !! fallback with
        | Some _ => fallback
        | None => "bart-large-cnn"
        end
    end
    = match model_configs !! fallback with
      | Some _ => fallback
      | None => "bart-large-cnn"
      end) by (destruct Hnone as [->| ->]; reflexivity).
  rewrite Hchosen. clear Hchosen.
  set (chosen := match model_configs !! fallback with
                 | Some _ => fallback
                 | None => "bart-large-cnn"
                 end).
  assert (Hknown : is_Some (model_configs !! chosen)
                   /\ (chosen = fallback
                       \/ (model_configs !! fallback = None
                           /\ chosen = "bart-large-cnn"))).
  { unfold chosen. destruct (model_configs !! fallback) eqn:Hfallback.
    - rewrite Hfallback. split; [eauto|now left].
    - split; [now exists bart_large_cnn|right; now split]. }
  destruct Hknown as [[config Hconfig] Hwhich]. rewrite Hconfig.
  destruct (String.eqb (type config) "openai").
  - destruct (_summarize_with_openai _ _ _ _) as [[[|] [generated|]] error];
      try destruct (String.eqb generated "");
      (eexists; split; [reflexivity|]);
      (split; [now exists config|exact Hwhich]).
  - destruct (_summarize_with_huggingface _ _) as [[[|] [generated|]] error];
      try destruct (String.eqb generated "");
      (eexists; split; [reflexivity|]);
      (split; [now exists config|exact Hwhich]).
Qed.

End WithBackends.

(** X15.  The cache key of a summary has 32 characters, and it depends on the
    content and the model name through their concatenation only: text moved
    from the end of the content to the front of the model name gives the same
    key. *)
Theorem summary_hash_of_the_concatenation :
  forall content model_name : string,
    String.length (generate_summary_hash content model_name) = 32%nat
    /\ forall moved : string,
         generate_summary_hash (content +:+ moved) model_name
         = generate_summary_hash content (moved +:+ model_name).
Proof.
  intros content model_name. unfold generate_summary_hash. split.
  - apply FingerprintFacts.hexdigest_length.
  - intros moved. cbv zeta. now rewrite append_assoc.
Qed.

End RouterExtras.

(** ** More of [batch_summarize_articles]: articles listed more than once *)

Module BatchExtras.
Import Summarization.

Section Batch.
Context {B : Backends}.
Variable await_task : nat -> Article -> option string -> TaskOutcome.
Variable gather_fault : nat -> option Fault.

(** The entry of an identifier is written by the last article of the
    batch that has it. *)
Lemma record_batch_last (l : list Article) (first : nat)
    (m : option string) (r : gmap string Slot) (j : nat)
    (a : Article) :
  l !! j = Some a -> id a ∉ map id (drop (S j) l) ->
  record_batch await_task l first m r !! id a
  = Some (slot (await_task (first + j)%nat a m)).
Proof.
  intros Hj Hlast.
  rewrite <- (take_drop_middle l j a Hj) at 1.
  rewrite BatchFacts.record_batch_app. cbn [record_batch].
  rewrite BatchFacts.record_batch_other by exact Hlast.
  rewrite lookup_insert_eq, length_take_le; [reflexivity|].
  apply lookup_lt_Some in Hj. lia.
Qed.

Lemma ids_of_prefix (articles : list Article) (attempted : nat) :
  list_to_set (C := gset string) (map id (take attempted articles))
  ⊆ list_to_set (map id articles).
Proof.
  intros key. rewrite !elem_of_list_to_set.
  rewrite <- (take_drop attempted articles) at 2.
  rewrite map_app, elem_of_app. now left.
Qed.

(** X16.  Without any assumption on the identifiers, and for a batch size
    that is not negative, the call returns a map unless an exception that
    is no [Exception] ends the await of a batch, and the map has exactly
    the identifiers of the input.  When no await fails outside the tasks,
    the entry of an identifier is the outcome of the task of the last
    article listed with it: the tuple returned, a failure tuple with the
    message of its [Exception], or the exception object of a task ended by
    an exception that is no [Exception]. *)
Theorem repeated_ids_keep_the_last_outcome :
  forall (articles : list Article) (model_name : option string)
         (batch_size : option Z),
    0 <= effective_batch_size batch_size ->
    match
      batch_summarize_articles await_task gather_fault articles model_name
        batch_size
    with
    | Raise exception =>
        exists k, gather_fault k = Some (Uncaught exception)
    | Ok results =>
        dom results = list_to_set (map id articles)
        /\ ((forall k, gather_fault k = None) ->
            0 < effective_batch_size batch_size ->
            forall (j : nat) (article : Article),
              articles !! j = Some article ->
              id article ∉ map id (drop (S j) articles) ->
              results !! id article
              = Some match await_task j article model_name with
                     | Returned r => Tuple r
                     | Raised msg => Tuple (false, None, Some msg)
                     | RaisedBase exception => ExceptionObject exception
                     end)
    end.
Proof.
  intros articles model_name batch_size Hsize.
  unfold batch_summarize_articles.
  destruct (BatchFacts.run_batches_prefix await_task gather_fault articles
              model_name (effective_batch_size batch_size) Hsize)
    as (attempted & raised & Hle & Hrun & Hall & Hquiet & Hwhich).
  rewrite Hrun. destruct raised as [[msg|exception]|].
  - split.
    + rewrite BatchFacts.mark_remaining_dom.
      rewrite (BatchFacts.record_batch_dom await_task gather_fault).
      pose proof (ids_of_prefix articles attempted) as Hsub.
      clear - Hsub. set_solver.
    + intros Hnone Hpos. now specialize (Hquiet Hnone Hpos).
  - now apply Hwhich.
  - rewrite (Hall eq_refl), take_ge by lia. split.
    + rewrite (BatchFacts.record_batch_dom await_task gather_fault).
      set_solver.
    + intros _ _ j article Hj Hlast.
      now rewrite (record_batch_last articles 0 model_name ∅ j article).
Qed.

End Batch.

End BatchExtras.

(** ** [app/api/v1/articles.py]: the summary endpoint *)

Module ArticlesApi.
Import Summarization.

(** The JSON object of an answer; "model_used" is a key of the second
    answer only. *)
Record SummaryBody : Type := mkBody {
  message : string;
  body_summary : option string;
  regenerated : bool;
  model_used : option string
}.

Inductive Reply : Type :=
| Answer (body : SummaryBody)
| HTTPException (status_code : Z) (detail : string).

(** [f"{error}"] *)
Definition format_error (error : option string) : string :=
  match error with
  | Some msg => msg
  | None => "None"
  end.

Section WithDatabase.
Context {B : Backends}.

(** [uuid.UUID(article_id)], [None] standing for [ValueError]; the query
    [db.query(Article).filter(Article.id == article_uuid).first()]; and
    [db.commit()] of the session that holds the article. *)
Variable parse_uuid : string -> option string.
Variable first_article : string -> result (option Article).
Variable commit : Article -> result unit.

(** [generate_article_summary]: the reply, the article committed if any,
    and the backend methods reached.  The article read for "regenerated"
    is the object that [summarize_article] has updated, so its binding
    shadows the one of the article read from the database. *)
Definition generate_article_summary (article_id : string)
    (model_name : option string) (regenerate : bool)
    : Reply * option Article * list BackendCall :=
  match parse_uuid article_id with
  | None => (HTTPException 400 "Invalid article ID format", None, [])
  | Some article_uuid =>
      match first_article article_uuid with
      | Raise _ => (HTTPException 500 "Failed to generate summary", None, [])
      | Ok None => (HTTPException 404 "Article not found", None, [])
      | Ok (Some article) =>
          if SourceModel.truthy (summary article) && negb regenerate then
            (Answer {| message := "Summary already exists";
                       body_summary := summary article;
                       regenerated := false;
                       model_used := None |},
             None, [])
          else
            let '((success, generated, error), article, calls) :=
              summarize_article article model_name None in
            if success then
              match commit article with
              | Raise _ =>
                  (HTTPException 500 "Failed to generate summary", None,
                   calls)
              | Ok _ =>
                  (Answer
                     {| message := "Summary generated successfully";
                        body_summary := generated;
                        regenerated :=
                          regenerate
                          || negb (SourceModel.truthy (summary article));
                        model_used :=
                          Some (if SourceModel.truthy model_name
                                then default "" model_name
                                else DEFAULT_SUMMARY_MODEL) |},
                   Some article, calls)
              end
            else
              (HTTPException 500
                 ("Summarization failed: " +:+ format_error error),
               None, calls)
      end
  end.

(** X17.  The endpoint calls a backend at most once, and not at all when it
    answers with the summary already stored, which it does exactly for a
    stored summary that is not empty and no request to regenerate. It commits
    only with the second answer, and then the article committed holds the
    summary of the answer. In that answer "regenerated" is the flag of the
    request, also for an article that had no summary, unless the new summary
    is empty. *)
Theorem summary_endpoint_answers :
  forall (article_id : string) (model_name : option string)
         (regenerate : bool),
    let '(reply, committed, calls) :=
      generate_article_summary article_id model_name regenerate in
    (length calls <= 1)%nat
    /\ match reply with
       | Answer body =>
           exists article_uuid article,
             parse_uuid article_id = Some article_uuid
             /\ first_article article_uuid = Ok (Some article)
             /\ ((message body = "Summary already exists"
                  /\ regenerate = false
                  /\ SourceModel.truthy (summary article) = true
                  /\ body_summary body = summary article
                  /\ regenerated body = false
                  /\ committed = None /\ calls = [])
                 \/ (message body = "Summary generated successfully"
                     /\ (regenerate = true
                         \/ SourceModel.truthy (summary article) = false)
                     /\ (exists stored text,
                           committed = Some stored
                           /\ body_summary body = Some text
                           /\ summary stored = Some text
                           /\ regenerated body
                              = regenerate || String.eqb text "")
                     /\ length calls = 1%nat))
       | HTTPException status_code detail =>
           committed = None
           /\ (status_code = 400 \/ status_code = 404 \/ status_code = 500)
           /\ (status_code <> 500 -> calls = [])
       end.
Proof.
  intros article_id model_name regenerate.
  unfold generate_article_summary.
  destruct (parse_uuid article_id) as [article_uuid|];
    [|cbn; split; [lia|split; [reflexivity|split; [auto|reflexivity]]]].
  destruct (first_article article_uuid) as [[article|]|msg] eqn:Hfirst;
    [|cbn; split; [lia|split; [reflexivity|split; [auto|reflexivity]]]
     |cbn; split; [lia|split; [reflexivity|split; [auto|congruence]]]].
  destruct (SourceModel.truthy (summary article) && negb regenerate)
    eqn:Hstored.
  - apply andb_true_iff in Hstored as [Htruthy Hregenerate].
    apply negb_true_iff in Hregenerate.
    split; [cbn; lia|]. exists article_uuid, article.
    split; [reflexivity|]. split; [exact Hfirst|]. left.
    cbn [message body_summary regenerated]. tauto.
  - assert (Hfresh : regenerate = true
                     \/ SourceModel.truthy (summary article) = false).
    { apply andb_false_iff in Hstored as [H|H]; [now right|].
      left. now apply negb_false_iff in H. }
    pose proof (RouterExtras.summarize_article_outcome
                  article model_name None) as Houtcome.
    pose proof (RouterExtras.single_backend_call article model_name None)
      as Hcalls.
    destruct (summarize_article article model_name None)
      as [[[[success generated] error] article'] calls].
    cbn [snd] in Hcalls.
    destruct success.
    + destruct generated as [text|]; [|contradiction].
      destruct error; [contradiction|].
      destruct Houtcome as (Hsummary & _ & _ & _ & (call & -> & _) & _).
      destruct (commit article') as [[]|msg].
      * split; [cbn; lia|]. exists article_uuid, article.
        split; [reflexivity|]. split; [exact Hfirst|]. right.
        cbn [message body_summary regenerated]. split; [reflexivity|].
        split; [exact Hfresh|]. split; [|reflexivity].
        exists article', text. rewrite Hsummary.
        cbn [SourceModel.truthy]. rewrite negb_involutive.
        repeat split; reflexivity.
      * split; [cbn; lia|]. split; [reflexivity|]. split; [auto|congruence].
    + split; [exact Hcalls|]. split; [reflexivity|]. split; [auto|congruence].
Qed.

End WithDatabase.

End ArticlesApi.

(** ** [get_articles]: the pagination block *)

Module Pagination.

Record PaginationInfo : Type := mkPagination {
  page : Z;
  per_page : Z;
  total : Z;
  total_pages : Z;
  has_next : bool;
  has_prev : bool
}.

(** [offset = (page - 1) * per_page] *)
Definition offset (page per_page : Z) : Z := (page - 1) * per_page.

(** The "pagination" object of the answer, for [total = query.count()].
    [//] is the floor division, as [Z.div] is. *)
Definition pagination (page per_page total : Z) : PaginationInfo :=
  let total_pages := (total + per_page - 1) / per_page in
  let has_next := page <? total_pages in
  let has_prev := 1 <? page in
  {| page := page; per_page := per_page; total := total;
     total_pages := total_pages; has_next := has_next;
     has_prev := has_prev |}.

(** X18.  For the pages and page sizes the endpoint admits ([ge=1]) and a
    count that is not negative: [total_pages] is the least number of pages
    that hold [total] rows; the rows of a page start before the end exactly on
    the pages up to [total_pages]; [has_next] says that rows are left after
    this page, and [has_prev] that rows come before it. *)
Theorem pagination_covers_the_rows :
  forall page per_page total : Z,
    1 <= page -> 1 <= per_page -> 0 <= total ->
    let info := pagination page per_page total in
    total <= total_pages info * per_page
    /\ (forall pages, 0 <= pages -> total <= pages * per_page ->
                      total_pages info <= pages)
    /\ (offset page per_page < total <-> page <= total_pages info)
    /\ (has_next info = true <-> offset page per_page + per_page < total)
    /\ (has_prev info = true <-> 0 < offset page per_page).
Proof.
  intros page0 per_page0 total0 Hpage Hper Htotal info.
  unfold info, pagination, offset.
  cbn [total_pages has_next has_prev].
  set (pages := (total0 + per_page0 - 1) / per_page0).
  assert (Hdiv : pages * per_page0 <= total0 + per_page0 - 1
                 < (pages + 1) * per_page0).
  { unfold pages.
    pose proof (Z.div_mod (total0 + per_page0 - 1) per_page0) as Hdm.
    pose proof (Z.mod_pos_bound (total0 + per_page0 - 1) per_page0) as Hmod.
    nia. }
  rewrite Z.ltb_lt, Z.ltb_lt.
  repeat split; nia.
Qed.

End Pagination.

(** ** [app/models/article.py]: previews and tags *)

Module ArticleModel.

(** [Article.short_title] *)
Definition short_title (title : string) : string :=
  if (100 <? String.length title)%nat
  then PyStr.take 97 title +:+ "..."
  else title.

(** [Article.content_preview] *)
Definition content_preview (content : option string) : string :=
  if SourceModel.truthy content then
    let content := default "" content in
    if (200 <? String.length content)%nat
    then PyStr.take 197 content +:+ "..."
    else content
  else "".

(** [Article.summary_preview] *)
Definition summary_preview (summary content : option string) : string :=
  if SourceModel.truthy summary then default "" summary
  else content_preview content.

(** [Article.add_tag], on the column [tags]. *)
Definition add_tag (tags : option (list string)) (tag : string)
    : option (list string) :=
  let tags := match tags with None => [] | Some tags => tags end in
  if negb (PyStr.mem tag tags) then Some (tags ++ [tag]) else Some tags.

(** [list.remove]: the first occurrence goes. *)
Fixpoint remove (tag : string) (tags : list string) : list string :=
  match tags with
  | [] => []
  | first :: tags' =>
      if String.eqb first tag then tags' else first :: remove tag tags'
  end.

(** [Article.remove_tag] *)
Definition remove_tag (tags : option (list string)) (tag : string)
    : option (list string) :=
  match tags with
  | Some ((_ :: _) as present) =>
      if PyStr.mem tag present then Some (remove tag present) else tags
  | _ => tags
  end.

Lemma take_prefix (n : nat) (s : string) :
  exists rest, s = PyStr.take n s +:+ rest.
Proof.
  revert s. induction n as [|n IH]; intros s; [now exists s|].
  destruct s as [|c s]; [now exists ""|].
  destruct (IH s) as [rest Hrest]. exists rest.
  cbn [PyStr.take]. rewrite TextFacts.append_cons. now rewrite <- Hrest.
Qed.

Lemma take_length_le (n : nat) (s : string) :
  (n <= String.length s)%nat -> String.length (PyStr.take n s) = n.
Proof.
  revert s. induction n as [|n IH]; intros [|c s] H; cbn in *;
    try reflexivity; try lia.
  rewrite IH; lia.
Qed.

(** A shortened text has at most [limit] characters; it is the text itself
    when that fits, and its first [limit - 3] characters followed by three
    dots otherwise. *)
Lemma shortened (limit : nat) (s : string) :
  let short := if (limit <? String.length s)%nat
               then PyStr.take (limit - 3) s +:+ "..."
               else s in
  (3 <= limit)%nat ->
  (String.length short <= limit)%nat
  /\ ((String.length s <= limit)%nat -> short = s)
  /\ ((limit < String.length s)%nat ->
      String.length short = limit
      /\ exists rest, s = PyStr.take (limit - 3) short +:+ rest).
Proof.
  intros short Hlimit. unfold short.
  destruct (Nat.ltb_spec limit (String.length s)) as [Hlong|Hfits].
  - assert (Hlen : String.length (PyStr.take (limit - 3) s +:+ "...")
                   = limit).
    { rewrite TextFacts.length_append, take_length_le by lia.
      change (String.length "...") with 3%nat. lia. }
    split; [lia|]. split; [lia|]. intros _. split; [exact Hlen|].
    destruct (take_prefix (limit - 3) s) as [rest Hrest]. exists rest.
    assert (Htake : forall n a b,
               (n <= String.length a)%nat ->
               PyStr.take n (a +:+ b) = PyStr.take n a).
    { clear. induction n as [|n IH]; intros a b H; [reflexivity|].
      destruct a as [|c a]; [cbn in H; lia|].
      rewrite TextFacts.append_cons. cbn [PyStr.take].
      rewrite IH; [reflexivity|]. cbn in H. lia. }
    rewrite Htake by (rewrite take_length_le; lia).
    assert (Hidem : forall n a, PyStr.take n (PyStr.take n a)
                                = PyStr.take n a).
    { clear. induction n as [|n IH]; intros [|c a]; cbn;
        try reflexivity. now rewrite IH. }
    now rewrite Hidem.
  - split; [exact Hfits|]. split; [reflexivity|lia].
Qed.

(** X19.  The display forms are bounded: a short title has at most 100
    characters and a content preview at most 200; a title or a content
    within the bound is shown as it is, a longer one is cut to its first 97
    or 197 characters and three dots, and no content, or an empty one,
    gives an empty preview.  The summary preview is the summary when
    there is one that is not empty, and the content preview otherwise. *)
Theorem previews_are_bounded :
  forall (title : string) (summary content : option string),
    (String.length (short_title title) <= 100)%nat
    /\ ((String.length title <= 100)%nat -> short_title title = title)
    /\ ((100 < String.length title)%nat ->
        short_title title = PyStr.take 97 title +:+ "..."
        /\ String.length (short_title title) = 100%nat)
    /\ (String.length (content_preview content) <= 200)%nat
    /\ (forall text,
          content = Some text -> (String.length text <= 200)%nat ->
          content_preview content = text)
    /\ (forall text,
          content = Some text -> (200 < String.length text)%nat ->
          content_preview content = PyStr.take 197 text +:+ "..."
          /\ String.length (content_preview content) = 200%nat)
    /\ (content = None -> content_preview content = "")
    /\ (forall text,
          summary = Some text -> text <> "" ->
          summary_preview summary content = text)
    /\ (summary = None \/ summary = Some "" ->
        summary_preview summary content = content_preview content).
Proof.
  intros title summary content.
  pose proof (shortened 100 title) as Htitle. cbv zeta in Htitle.
  change (100 - 3)%nat with 97%nat in Htitle.
  fold (short_title title) in Htitle.
  destruct (Htitle ltac:(lia)) as (Hbound & Hsame & Hcut).
  split; [exact Hbound|]. split; [exact Hsame|].
  split.
  { intros Hlong. split; [|now apply Hcut].
    unfold short_title. destruct (Nat.ltb_spec 100 (String.length title));
      [reflexivity|lia]. }
  split; [|split; [|split; [|split; [|split]]]].
  - unfold content_preview. destruct content as [text|]; [|cbn; lia].
    cbn [SourceModel.truthy].
    destruct (String.eqb text ""); cbn [negb]; [cbn; lia|].
    change (default "" (Some text)) with text.
    pose proof (shortened 200 text) as Htext.
    cbv zeta in Htext. change (200 - 3)%nat with 197%nat in Htext.
    apply Htext. lia.
  - intros text -> Hfits. unfold content_preview.
    cbn [SourceModel.truthy].
    destruct (String.eqb_spec text "") as [->|]; cbn [negb];
      [reflexivity|].
    change (default "" (Some text)) with text.
    destruct (Nat.ltb_spec 200 (String.length text)); [lia|reflexivity].
  - intros text -> Hlong.
    assert (Hpreview : content_preview (Some text)
                       = PyStr.take 197 text +:+ "...").
    { unfold content_preview. cbn [SourceModel.truthy].
      destruct (String.eqb_spec text "") as [->|]; [cbn in Hlong; lia|].
      cbn [negb]. change (default "" (Some text)) with text.
      destruct (Nat.ltb_spec 200 (String.length text)); [reflexivity|lia]. }
    split; [exact Hpreview|]. rewrite Hpreview.
    pose proof (shortened 200 text) as Htext.
    cbv zeta in Htext. change (200 - 3)%nat with 197%nat in Htext.
    destruct (Htext ltac:(lia)) as (_ & _ & Hcut200).
    destruct (Nat.ltb_spec 200 (String.length text)); [|lia].
    now apply Hcut200.
  - now intros ->.
  - intros text -> Hne. unfold summary_preview. cbn [SourceModel.truthy].
    destruct (String.eqb_spec text ""); [contradiction|reflexivity].
  - intros [-> | ->]; reflexivity.
Qed.

Lemma remove_absent (tag : string) (tags : list string) :
  ~ In tag tags -> remove tag (tags ++ [tag]) = tags.
Proof.
  induction tags as [|first tags IH]; intros Hnot.
  - cbn. now rewrite String.eqb_refl.
  - cbn [app remove].
    destruct (String.eqb_spec first tag) as [->|Hne];
      [exfalso; apply Hnot; now left|].
    rewrite IH; [reflexivity|]. intros Hin. apply Hnot. now right.
Qed.

Lemma remove_In (tag other : string) (tags : list string) :
  In other (remove tag tags) -> In other tags.
Proof.
  induction tags as [|first tags IH]; [tauto|].
  cbn [remove]. destruct (String.eqb first tag).
  - intros H. now right.
  - intros [H|H]; [now left|right; now apply IH].
Qed.

Lemma remove_NoDup (tag : string) (tags : list string) :
  List.NoDup tags ->
  List.NoDup (remove tag tags) /\ ~ In tag (remove tag tags).
Proof.
  induction 1 as [|first tags Hfresh Hnodup IH]; [split; [constructor|tauto]|].
  cbn [remove]. destruct (String.eqb_spec first tag) as [->|Hne].
  - now split.
  - destruct IH as [IH1 IH2]. split.
    + constructor; [|exact IH1]. intros Hin. apply Hfresh.
      now apply remove_In in Hin.
    + intros [H|H]; [contradiction|now apply IH2].
Qed.

(** X20.  A tag is added once: tags without duplicates stay so. Removing a tag
    just added to tags that did not have it gives the tags back, and after a
    removal from tags without duplicates the tag is not there; with duplicates
    only the first goes. *)
Theorem tags_round_trip :
  forall (tags : list string) (tag : string),
    List.NoDup tags ->
    (exists added,
       add_tag (Some tags) tag = Some added
       /\ In tag added /\ List.NoDup added
       /\ add_tag (Some added) tag = Some added
       /\ (~ In tag tags -> remove_tag (Some added) tag = Some tags))
    /\ (exists removed,
          remove_tag (Some tags) tag = Some removed
          /\ ~ In tag removed /\ List.NoDup removed
          /\ (~ In tag tags -> removed = tags))
    /\ add_tag None tag = Some [tag]
    /\ remove_tag None tag = None
    /\ remove_tag (Some [tag; tag]) tag = Some [tag].
Proof.
  intros tags tag Hnodup.
  assert (Hmem : forall l, PyStr.mem tag l = true <-> In tag l).
  { intros l. unfold PyStr.mem. rewrite existsb_exists. split.
    - intros (other & Hin & Heq). apply String.eqb_eq in Heq. now subst.
    - intros Hin. exists tag. split; [exact Hin|apply String.eqb_refl]. }
  split; [|split; [|split; [|split]]].
  - unfold add_tag. destruct (PyStr.mem tag tags) eqn:Hin; cbn [negb].
    + exists tags. apply Hmem in Hin. rewrite (proj2 (Hmem tags) Hin).
      cbn [negb]. repeat split; try assumption; try reflexivity.
      intros Hnot. contradiction.
    + assert (Hnot : ~ In tag tags).
      { intros H. apply Hmem in H. congruence. }
      assert (Hadded : In tag (tags ++ [tag]))
        by (apply in_or_app; right; now left).
      exists (tags ++ [tag]). rewrite (proj2 (Hmem _) Hadded). cbn [negb].
      repeat split; try assumption; try reflexivity.
      * apply List.NoDup_app. repeat split; auto.
        -- constructor; [intros []|constructor].
        -- intros other Hother [<-|[]]. contradiction.
      * intros _. unfold remove_tag.
        destruct (tags ++ [tag]) as [|first rest] eqn:Hshape;
          [now destruct tags|].
        rewrite (proj2 (Hmem _) Hadded), <- Hshape.
        now rewrite remove_absent.
  - unfold remove_tag. destruct tags as [|first rest].
    + exists []. repeat split; [tauto|constructor].
    + destruct (PyStr.mem tag (first :: rest)) eqn:Hin.
      * exists (remove tag (first :: rest)).
        destruct (remove_NoDup tag (first :: rest) Hnodup) as [H1 H2].
        repeat split; try assumption.
        intros Hnot. apply Hmem in Hin. contradiction.
      * exists (first :: rest).
        repeat split; try assumption.
        intros H. apply Hmem in H. congruence.
  - unfold add_tag. reflexivity.
  - reflexivity.
  - unfold remove_tag, PyStr.mem. cbn [existsb].
    rewrite String.eqb_refl. cbn [orb remove]. now rewrite String.eqb_refl.
Qed.

End ArticleModel.

(** ** The classifier and the keyword lists of a source *)

Module ClassifierExtras.
Import RssScraper.

Section WithLibraries.
Context {L : Libraries} {X : Extractors}.

(** The category or the title labels the article as editorial. *)
Definition labelled (article : ArticleData) : bool :=
  PyStr.mem (PyStr.lower (category article))
    ["editorial"; "opinion"; "comment"]
  || PyStr.any_in editorial_indicators (PyStr.lower (title article)).

(** The title or the address names an editorial. *)
Definition named (article : ArticleData) : bool :=
  PyStr.any_in editorial_keywords (PyStr.lower (title article))
  || PyStr.any_in ["editorial"; "opinion"; "comment"; "viewpoint"]
       (PyStr.lower (url article)).

(** One of the keywords is in the title or in the content. *)
Definition matches (article : ArticleData) (keywords : list string) : bool :=
  existsb (keyword_in (PyStr.lower (title article))
             (PyStr.lower (content article)))
          keywords.

Lemma classifier_decision (article : ArticleData)
    (source : SourceModel.Source) :
  _is_editorial_content article source
  = labelled article
    || ((match SourceModel.keyword_filters source with
         | [] => true
         | _ :: _ => matches article (SourceModel.keyword_filters source)
         end)
        && negb (matches article (SourceModel.exclude_keywords source))
        && named article).
Proof.
  unfold _is_editorial_content, labelled, named, matches.
  destruct (PyStr.mem _ _); [reflexivity|].
  destruct (PyStr.any_in editorial_indicators _); [reflexivity|].
  cbn [orb].
  destruct (SourceModel.keyword_filters source) as [|keyword filters];
    destruct (SourceModel.exclude_keywords source) as [|excluded others];
    try reflexivity.
  - now destruct (existsb _ (excluded :: others)).
  - now destruct (existsb _ (keyword :: filters)).
  - destruct (existsb _ (keyword :: filters)); [|reflexivity].
    now destruct (existsb _ (excluded :: others)).
Qed.

Lemma matches_snoc (article : ArticleData) (keywords : list string)
    (keyword : string) :
  matches article (keywords ++ [keyword])
  = matches article keywords || matches article [keyword].
Proof. unfold matches. now rewrite existsb_app. Qed.

(** X21.  An exclude keyword added to a source never lets in an article that
    the source rejected. A keyword added to include keywords that are not
    empty never shuts out an article that was accepted; the first include
    keyword of a source never lets one in. *)
Theorem keyword_lists_narrow_and_widen :
  forall (article : ArticleData) (source : SourceModel.Source)
         (keyword : string),
    (_is_editorial_content article
       (SourceExtras.add_exclude_keyword source keyword) = true ->
     _is_editorial_content article source = true)
    /\ (SourceModel.keyword_filters source <> [] ->
        _is_editorial_content article source = true ->
        _is_editorial_content article
          (SourceExtras.add_keyword_filter source keyword) = true)
    /\ (SourceModel.keyword_filters source = [] ->
        _is_editorial_content article
          (SourceExtras.add_keyword_filter source keyword) = true ->
        _is_editorial_content article source = true).
Proof.
  intros article source keyword. rewrite !classifier_decision.
  unfold SourceExtras.add_exclude_keyword, SourceExtras.add_keyword_filter.
  split; [|split].
  - destruct (PyStr.mem keyword (SourceModel.exclude_keywords source));
      [tauto|].
    cbn [SourceModel.keyword_filters SourceModel.exclude_keywords
         SourceExtras.with_keywords].
    rewrite matches_snoc.
    destruct (labelled article); [reflexivity|]. cbn [orb].
    destruct (matches article (SourceModel.exclude_keywords source)),
      (matches article [keyword]); cbn [orb negb];
      rewrite ?andb_false_r, ?andb_true_r; cbn [andb];
      solve [discriminate|tauto].
  - intros Hfilters.
    destruct (PyStr.mem keyword (SourceModel.keyword_filters source));
      [tauto|].
    cbn [SourceModel.keyword_filters SourceModel.exclude_keywords
         SourceExtras.with_keywords].
    destruct (labelled article); [reflexivity|]. cbn [orb].
    destruct (SourceModel.keyword_filters source) as [|first filters] eqn:Hf;
      [contradiction|].
    cbn [app]. cbv iota.
    change (first :: (filters ++ [keyword]))
      with ((first :: filters) ++ [keyword]).
    rewrite matches_snoc.
    destruct (matches article (first :: filters)); cbn [orb andb];
      [tauto|discriminate].
  - intros Hfilters. rewrite Hfilters.
    cbn [PyStr.mem existsb app].
    cbn [SourceModel.keyword_filters SourceModel.exclude_keywords
         SourceExtras.with_keywords].
    destruct (labelled article); [reflexivity|]. cbn [orb].
    destruct (matches article [keyword]); [tauto|discriminate].
Qed.

End WithLibraries.

End ClassifierExtras.

(** ** The further properties on concrete inputs *)

Module ExtraScenarios.
Import Summarization SummaryFixtures.

(** An entry whose summary is padded with blanks, and a cleaner that
    leaves the text as it is. *)
Lemma excerpt_of_a_padded_summary :
  (String.length "Tariffs raise prices" <= 300)%nat
  /\ TextFacts.starts_with_space "Tariffs raise prices" = false
  /\ TextFacts.ends_with_space "Tariffs raise prices" = false
  /\ (forall s other,
        Val "  Tariffs raise prices " = Val s ->
        ScraperExtras._extract_excerpt_from (fun text => Ok text)
          (Val "  Tariffs raise prices ") other
        = Ok "Tariffs raise prices").
Proof.
  apply (ScraperExtras.excerpt_is_short_and_stripped
           (fun text => Ok text) (Val "  Tariffs raise prices ") Missing
           "Tariffs raise prices").
  vm_compute. reflexivity.
Defined.

(** No model is named, and the default "facebook/bart-large-cnn" leads to
    the key "bart-large-cnn". *)
Lemma default_model_is_called :
  exists call,
    snd (@summarize_article stub_backends
           (stored "a0" (Some (Fixtures.padded_body 120 " end"))) None None)
    = [call]
    /\ is_Some (model_configs !! RouterExtras.call_model call)
    /\ (RouterExtras.call_model call
        = PyStr.after_last "/" (@DEFAULT_SUMMARY_MODEL stub_backends)
        \/ (model_configs
              !! PyStr.after_last "/" (@DEFAULT_SUMMARY_MODEL stub_backends)
            = None
            /\ RouterExtras.call_model call = "bart-large-cnn")).
Proof.
  apply (@RouterExtras.unspecified_model_reaches_a_backend stub_backends
           (stored "a0" (Some (Fixtures.padded_body 120 " end"))) None None
           (Fixtures.padded_body 120 " end")).
  - now left.
  - reflexivity.
  - vm_compute. lia.
Defined.

Example default_model_call :
  snd (@summarize_article stub_backends
         (stored "a0" (Some (Fixtures.padded_body 120 " end"))) None None)
  = [HuggingFace
       ("Why Tariffs Fail" +:+ PyStr.newline +:+ PyStr.newline
        +:+ Fixtures.padded_body 120 " end")
       "bart-large-cnn"].
Proof. vm_compute. reflexivity. Qed.

(** The article "a0" is listed twice, with two contents. *)
Definition listed_twice : list Article :=
  [stored "a0" (Some "first"); stored "a1" (Some "text");
   stored "a0" (Some "second")].

(** Every task returns the content it was given. *)
Definition echo (n : nat) (article : Article) (model_name : option string)
    : TaskOutcome :=
  Returned (true, content article, None).

Lemma article_listed_twice :
  match
    @batch_summarize_articles stub_backends echo no_fault listed_twice None
      (Some 2)
  with
  | Raise exception => exists k, no_fault k = Some (Uncaught exception)
  | Ok results =>
      dom results = list_to_set (map id listed_twice)
      /\ ((forall k, no_fault k = None) ->
          0 < @effective_batch_size stub_backends (Some 2) ->
          forall (j : nat) (article : Article),
            listed_twice !! j = Some article ->
            id article ∉ map id (drop (S j) listed_twice) ->
            results !! id article
            = Some match echo j article None with
                   | Returned r => Tuple r
                   | Raised msg => Tuple (false, None, Some msg)
                   | RaisedBase exception => ExceptionObject exception
                   end)
  end.
Proof.
  apply (@BatchExtras.repeated_ids_keep_the_last_outcome stub_backends echo
           no_fault listed_twice None (Some 2)).
  vm_compute. discriminate.
Defined.

Example second_listing_wins :
  match
    @batch_summarize_articles stub_backends echo no_fault listed_twice None
      (Some 2)
  with
  | Ok results =>
      size results = 2%nat
      /\ results !! "a0" = Some (Tuple (true, Some "second", None))
  | Raise _ => False
  end.
Proof. vm_compute. split; reflexivity. Qed.

(** Page 3 of 45 rows, 20 to the page. *)
Lemma third_page_of_45 :
  let info := Pagination.pagination 3 20 45 in
  45 <= Pagination.total_pages info * 20
  /\ (forall pages, 0 <= pages -> 45 <= pages * 20 ->
                    Pagination.total_pages info <= pages)
  /\ (Pagination.offset 3 20 < 45 <-> 3 <= Pagination.total_pages info)
  /\ (Pagination.has_next info = true
      <-> Pagination.offset 3 20 + 20 < 45)
  /\ (Pagination.has_prev info = true <-> 0 < Pagination.offset 3 20).
Proof.
  apply (Pagination.pagination_covers_the_rows 3 20 45); lia.
Defined.

Example third_page_is_the_last :
  Pagination.pagination 3 20 45
  = Pagination.mkPagination 3 20 45 3 false true.
Proof. reflexivity. Qed.

Example no_rows_no_pages :
  Pagination.pagination 1 20 0
  = Pagination.mkPagination 1 20 0 0 false false.
Proof. reflexivity. Qed.

(** A tag added to two others, and taken away again. *)
Lemma tariffs_tag_round_trip :
  (exists added,
     ArticleModel.add_tag (Some ["rates"; "trade"]) "tariffs" = Some added
     /\ In "tariffs" added /\ List.NoDup added
     /\ ArticleModel.add_tag (Some added) "tariffs" = Some added
     /\ (~ In "tariffs" ["rates"; "trade"] ->
         ArticleModel.remove_tag (Some added) "tariffs"
         = Some ["rates"; "trade"]))
  /\ (exists removed,
        ArticleModel.remove_tag (Some ["rates"; "trade"]) "tariffs"
        = Some removed
        /\ ~ In "tariffs" removed /\ List.NoDup removed
        /\ (~ In "tariffs" ["rates"; "trade"] ->
            removed = ["rates"; "trade"]))
  /\ ArticleModel.add_tag None "tariffs" = Some ["tariffs"]
  /\ ArticleModel.remove_tag None "tariffs" = None
  /\ ArticleModel.remove_tag (Some ["tariffs"; "tariffs"]) "tariffs"
     = Some ["tariffs"].
Proof.
  apply (ArticleModel.tags_round_trip ["rates"; "trade"] "tariffs").
  repeat constructor; cbn; intuition discriminate.
Defined.

End ExtraScenarios.
